(** * A shallow embedding of [app/app.js]

    The productivity tracker keeps three collections (sessions, habits,
    moods), three scalars (points, streak, last active date) and one
    countdown timer in module-level variables, mirrors every mutation into
    [localStorage], and reports to the user through [toast].

    The embedding keeps the names of the script.  Module-level variables
    become the fields of one record [App]; every function of the script
    that touches them becomes a function [App -> App].  The rendering
    functions ([renderSessions], [renderStats], [renderMoods],
    [renderCharts], [updateTimerDisplay]) only write to display elements and
    read none of them back, so they do not appear in the state.

    Numbers.  The script only ever computes with integers and with NaN (the
    result of [parseInt] on text without digits).  A number is therefore
    [NaN] or [Num z] with [z : Z]; the two places where the script divides
    ([Math.round (x / 60)], [Math.floor (x / 5)]) are embedded as one
    operation each.  This is exact for magnitudes below 2^53.

    Strings.  A JavaScript string is a sequence of UTF-16 code units, here a
    [list N]. *)

From Stdlib Require Import ZArith NArith List String Ascii Lia.
From Stdlib Require Import Sorting.Permutation Sorting.Sorted.
From stdpp Require Import gmap list.

Open Scope Z_scope.

(** ** Strings *)

Abbreviation str := (list N).

Definition lit (s : string) : str :=
  List.map N_of_ascii (list_ascii_of_string s).

(** The code units removed by [String.prototype.trim] and skipped by
    [parseInt]: WhiteSpace and LineTerminator of the language definition. *)
Definition isWhiteSpace (c : N) : bool :=
  ((9 <=? c) && (c <=? 13) || (c =? 32) || (c =? 160) || (c =? 5760)
   || (8192 <=? c) && (c <=? 8202) || (c =? 8232) || (c =? 8233)
   || (c =? 8239) || (c =? 8287) || (c =? 12288) || (c =? 65279))%N.

Fixpoint trimStart (s : str) : str :=
  match s with
  | c :: r => if isWhiteSpace c then trimStart r else s
  | [] => []
  end.

Definition trimEnd (s : str) : str := rev (trimStart (rev s)).

Definition trim (s : str) : str := trimEnd (trimStart s).

(** [s.split(sep)] for a separator of one code unit. *)
Fixpoint split (sep : N) (s : str) : list str :=
  match s with
  | [] => [[]]
  | c :: r =>
      if (c =? sep)%N then [] :: split sep r
      else match split sep r with
           | h :: t => (c :: h) :: t
           | [] => [[c]]
           end
  end.

(** Truthiness of a string: [Boolean(s)], [!s], [s || d]. *)
Definition truthy (s : str) : bool :=
  match s with [] => false | _ => true end.

Definition or_else (s d : str) : str := if truthy s then s else d.

(** ** Numbers *)

Inductive num : Type :=
| NaN
| Num (z : Z).

#[global] Instance num_eq_dec : EqDecision num.
Proof. solve_decision. Defined.

(** The arithmetic of the script on whole numbers.  The script's numbers
    are doubles: a sum, difference or product is the whole number written
    here as long as its magnitude is below [2 ^ 53]; beyond that the script
    rounds, and a statement about such numbers carries the bound. *)
Definition num_add (a b : num) : num :=
  match a, b with Num x, Num y => Num (x + y) | _, _ => NaN end.

Definition num_sub (a b : num) : num :=
  match a, b with Num x, Num y => Num (x - y) | _, _ => NaN end.

Definition num_mul (a b : num) : num :=
  match a, b with Num x, Num y => Num (x * y) | _, _ => NaN end.

Definition Math_max (a b : num) : num :=
  match a, b with Num x, Num y => Num (Z.max x y) | _, _ => NaN end.

Definition Math_min (a b : num) : num :=
  match a, b with Num x, Num y => Num (Z.min x y) | _, _ => NaN end.

(** [Math.floor (a / d)] for a positive integer constant [d]. *)
Definition Math_floor_div (a : num) (d : Z) : num :=
  match a with Num x => Num (x / d) | NaN => NaN end.

(** [Math.round (a / d)] for a positive integer constant [d]: the nearest
    integer, a half rounding up. *)
Definition Math_round_div (a : num) (d : Z) : num :=
  match a with Num x => Num ((2 * x + d) / (2 * d)) | NaN => NaN end.

(** Comparisons are false as soon as one side is NaN. *)
Definition num_lt (a b : num) : bool :=
  match a, b with Num x, Num y => x <? y | _, _ => false end.

Definition num_le (a b : num) : bool :=
  match a, b with Num x, Num y => x <=? y | _, _ => false end.

Definition num_strict_eq (a b : num) : bool :=
  match a, b with Num x, Num y => x =? y | _, _ => false end.

(** [parseInt (s, 10)]: leading white space, an optional sign, then the
    longest run of decimal digits; NaN when that run is empty.  The value
    is the number the digits spell, which is what the script gets for
    magnitudes below [2 ^ 53]; a longer run is rounded by the script. *)
Definition isDigit (c : N) : bool := ((48 <=? c) && (c <=? 57))%N.

Fixpoint digits (s : str) : list Z :=
  match s with
  | c :: r => if isDigit c then (Z.of_N c - 48) :: digits r else []
  | [] => []
  end.

Definition parseInt (s : str) : num :=
  let s1 := trimStart s in
  let '(sign, s2) :=
    match s1 with
    | 45%N :: r => (-1, r)
    | 43%N :: r => (1, r)
    | _ => (1, s1)
    end in
  match digits s2 with
  | [] => NaN
  | ds => Num (sign * fold_left (fun acc d => 10 * acc + d) ds 0)
  end.

(** Decimal rendering of a number inside a template literal. *)
Fixpoint digits_of (fuel : nat) (n : N) (acc : str) : str :=
  match fuel with
  | O => acc
  | S f =>
      let acc' := (48 + n mod 10)%N :: acc in
      if (n <? 10)%N then acc' else digits_of f (n / 10)%N acc'
  end.

Definition num_to_string (a : num) : str :=
  match a with
  | NaN => lit "NaN"
  | Num z =>
      let n := Z.to_N (Z.abs z) in
      (if z <? 0 then [45%N] else []) ++ digits_of (S (N.to_nat (N.log2 n))) n []
  end.

(** ** The data model *)

(** [{dateISO, minutes, title, tags:[]}] *)
Module Session.
Record t : Type := mk {
    dateISO : str;
    minutes : num;
    title : str;
    tags : list str
  }.
End Session.

(** [{dateISO, mood, reflection}] *)
Module MoodEntry.
Record t : Type := mk {
    dateISO : str;
    mood : str;
    reflection : str
  }.
End MoodEntry.

(** [let timer = { remainingSec, running, intervalId }].  A handle returned
    by [setInterval] is a positive integer; [None] is [null]. *)
Record Timer : Type := mkTimer {
  remainingSec : num;
  running : bool;
  intervalId : option positive
}.

(** The [value] of the form controls the script reads. *)
Record Dom : Type := mkDom {
  timerMinutesInput : str;
  sessionTitle : str;
  sessionTags : str;
  moodSelect : str;
  reflectionInput : str
}.

(** What [set (k, v)] hands to [JSON.stringify]. *)
Inductive stored : Type :=
| StoredSessions (l : list Session.t)
| StoredHabits (h : gmap str (gmap str bool))
| StoredMoods (l : list MoodEntry.t)
| StoredNum (n : num)
| StoredStr (s : str).

Module STORAGE_KEYS.
Definition sessions : str := lit "tw_sessions".
Definition habits : str := lit "tw_habits".
Definition mood : str := lit "tw_moods".
Definition points : str := lit "tw_points".
Definition streak : str := lit "tw_streak".
Definition lastActiveDate : str := lit "tw_last_date".
End STORAGE_KEYS.

(** The module-level variables, the browser's store, the repeating
    callbacks currently scheduled ([intervals], with the next handle
    [setInterval] will hand out), and the messages passed to [toast], latest
    first. *)
Record App : Type := mkApp {
  sessions : list Session.t;
  habits : gmap str (gmap str bool);
  moods : list MoodEntry.t;
  points : num;
  streak : Z;
  lastDate : str;
  timer : Timer;
  el : Dom;
  localStorage : gmap str stored;
  intervals : list positive;
  nextHandle : positive;
  toasts : list str
}.

Section Updates.
Variable w : App.

Definition with_sessions (x : list Session.t) : App :=
    mkApp x (habits w) (moods w) (points w) (streak w) (lastDate w) (timer w)
        (el w) (localStorage w) (intervals w) (nextHandle w) (toasts w).
Definition with_habits (x : gmap str (gmap str bool)) : App :=
    mkApp (sessions w) x (moods w) (points w) (streak w) (lastDate w) (timer w)
        (el w) (localStorage w) (intervals w) (nextHandle w) (toasts w).
Definition with_moods (x : list MoodEntry.t) : App :=
    mkApp (sessions w) (habits w) x (points w) (streak w) (lastDate w) (timer w)
        (el w) (localStorage w) (intervals w) (nextHandle w) (toasts w).
Definition with_points (x : num) : App :=
    mkApp (sessions w) (habits w) (moods w) x (streak w) (lastDate w) (timer w)
        (el w) (localStorage w) (intervals w) (nextHandle w) (toasts w).
Definition with_streak (x : Z) : App :=
    mkApp (sessions w) (habits w) (moods w) (points w) x (lastDate w) (timer w)
        (el w) (localStorage w) (intervals w) (nextHandle w) (toasts w).
Definition with_lastDate (x : str) : App :=
    mkApp (sessions w) (habits w) (moods w) (points w) (streak w) x (timer w)
        (el w) (localStorage w) (intervals w) (nextHandle w) (toasts w).
Definition with_timer (x : Timer) : App :=
    mkApp (sessions w) (habits w) (moods w) (points w) (streak w) (lastDate w) x
        (el w) (localStorage w) (intervals w) (nextHandle w) (toasts w).
Definition with_el (x : Dom) : App :=
    mkApp (sessions w) (habits w) (moods w) (points w) (streak w) (lastDate w)
        (timer w) x (localStorage w) (intervals w) (nextHandle w) (toasts w).
Definition with_localStorage (x : gmap str stored) : App :=
    mkApp (sessions w) (habits w) (moods w) (points w) (streak w) (lastDate w)
        (timer w) (el w) x (intervals w) (nextHandle w) (toasts w).
Definition with_intervals (x : list positive) (n : positive) : App :=
    mkApp (sessions w) (habits w) (moods w) (points w) (streak w) (lastDate w)
        (timer w) (el w) (localStorage w) x n (toasts w).
Definition with_toasts (x : list str) : App :=
    mkApp (sessions w) (habits w) (moods w) (points w) (streak w) (lastDate w)
        (timer w) (el w) (localStorage w) (intervals w) (nextHandle w) x.
End Updates.

(** ** Storage, messages, scheduling *)

(** [set (k, v)]: [localStorage.setItem (k, JSON.stringify (v))]. *)
Definition set (k : str) (v : stored) (w : App) : App :=
  with_localStorage w (<[k := v]> (localStorage w)).

Definition toast (msg : str) (w : App) : App :=
  with_toasts w (msg :: toasts w).

(** [setInterval (callback, 1000)] for the one callback the script has: the
    new handle is scheduled and returned. *)
Definition setInterval (w : App) : positive * App :=
  (nextHandle w,
   with_intervals w (intervals w ++ [nextHandle w]) (Pos.succ (nextHandle w))).

Definition clearInterval (h : positive) (w : App) : App :=
  with_intervals w (List.filter (fun h' => negb (Pos.eqb h' h)) (intervals w))
                 (nextHandle w).

Definition sameDay (a b : str) : bool := bool_decide (a = b).

(** ** Streak *)

(** [Object.values (h).some (Boolean)] *)
Definition some_flag (h : gmap str bool) : bool :=
  existsb (fun kv => snd kv) (map_to_list h).

Definition hadActivity (d : str) (w : App) : bool :=
  existsb (fun s => bool_decide (Session.dateISO s = d)) (sessions w)
  || match habits w !! d with
     | Some h => some_flag h
     | None => false
     end
  || existsb (fun m => bool_decide (MoodEntry.dateISO m = d)) (moods w).

(** The function expression run once while the script loads; [today] is
    the value of [todayISO ()]. *)
Definition maintainStreak (today : str) (w : App) : App :=
  if negb (sameDay (lastDate w) today) then
    let hadActivityYesterday := hadActivity (lastDate w) w in
    let w1 := with_streak w (if hadActivityYesterday then streak w + 1 else 0) in
    let w2 := set STORAGE_KEYS.streak (StoredNum (Num (streak w1))) w1 in
    let w3 := with_lastDate w2 today in
    set STORAGE_KEYS.lastActiveDate (StoredStr (lastDate w3)) w3
  else w.

(** ** Points and level *)

Definition levelFromPoints (p : num) : str :=
  if num_lt p (Num 50) then lit "Novice"
  else if num_lt p (Num 150) then lit "Builder"
  else if num_lt p (Num 300) then lit "Navigator"
  else if num_lt p (Num 600) then lit "Architect"
  else lit "Master".

(** The position of a level name in the ascending list of the five tiers
    (0 for any other text). *)
Definition tier (name : str) : Z :=
  if decide (name = lit "Novice") then 1
  else if decide (name = lit "Builder") then 2
  else if decide (name = lit "Navigator") then 3
  else if decide (name = lit "Architect") then 4
  else if decide (name = lit "Master") then 5
  else 0.


Definition awardPoints (n : num) (w : App) : App :=
  let w1 := with_points w (num_add (points w) n) in
  set STORAGE_KEYS.points (StoredNum (points w1)) w1.

(** ** Timer *)

Definition pauseTimer (w : App) : App :=
  let w1 := with_timer w (mkTimer (remainingSec (timer w)) false (intervalId (timer w))) in
  match intervalId (timer w1) with
  | Some h => clearInterval h w1
  | None => w1
  end.

(** The body of the repeating callback [startTimer] schedules. *)
Definition onTick (w : App) : App :=
  let t := timer w in
  let w1 := with_timer w (mkTimer (Math_max (Num 0) (num_sub (remainingSec t) (Num 1)))
                                  (running t) (intervalId t)) in
  if num_strict_eq (remainingSec (timer w1)) (Num 0) then
    toast (lit "Timer done! +5 pts") (awardPoints (Num 5) (pauseTimer w1))
  else w1.

Definition startTimer (w : App) : App :=
  if running (timer w) then w
  else
    let w1 := with_timer w (mkTimer (remainingSec (timer w)) true (intervalId (timer w))) in
    let '(h, w2) := setInterval w1 in
    with_timer w2 (mkTimer (remainingSec (timer w2)) (running (timer w2)) (Some h)).

Definition resetTimer (w : App) : App :=
  let w1 := pauseTimer w in
  let mins := Math_max (Num 1) (parseInt (or_else (timerMinutesInput (el w1)) (lit "25"))) in
  with_timer w1 (mkTimer (num_mul mins (Num 60)) (running (timer w1)) (intervalId (timer w1))).

(** The event loop delivers the callback of handle [h] only while [h] is
    scheduled. *)
Definition tick (h : positive) (w : App) : App :=
  if existsb (Pos.eqb h) (intervals w) then onTick w else w.

(** One second passes: every callback scheduled at that moment comes due,
    in the order of scheduling. *)
Definition second (w : App) : App :=
  fold_left (fun w' h => tick h w') (intervals w) w.

Fixpoint seconds (n : nat) (w : App) : App :=
  match n with
  | O => w
  | S k => seconds k (second w)
  end.

(** ** Logging a session *)

(** The value [logSession] computes for [minutes]. *)
Definition elapsedMinutes (w : App) : num :=
  Math_round_div
    (num_sub (num_mul (Math_max (Num 0) (parseInt (or_else (timerMinutesInput (el w)) (lit "25"))))
                      (Num 60))
             (remainingSec (timer w)))
    60.

Definition logSession (today : str) (w : App) : App :=
  let totalSec :=
    num_sub (num_mul (Math_max (Num 0) (parseInt (or_else (timerMinutesInput (el w)) (lit "25"))))
                     (Num 60))
            (remainingSec (timer w)) in
  let minutes := Math_round_div totalSec 60 in
  let title := trim (or_else (sessionTitle (el w)) (lit "Focus block")) in
  let tags := List.filter truthy (List.map trim (split 44 (or_else (sessionTags (el w)) []))) in
  let dateISO := today in
  if num_le minutes (Num 0) then
    toast (lit "Log some minutes before saving.") w
  else
    let w1 := with_sessions w (sessions w ++ [Session.mk dateISO minutes title tags]) in
    let w2 := set STORAGE_KEYS.sessions (StoredSessions (sessions w1)) w1 in
    let w3 := awardPoints (Math_min (Num 10) (Math_max (Num 1) (Math_floor_div minutes 5))) w2 in
    toast (lit "Logged " ++ [34%N] ++ title ++ [34%N] ++ lit " (" ++ num_to_string minutes ++ lit "m)") w3.

(** ** Mood *)

(** [a.findIndex (p)]: the first position where [p] holds, or -1. *)
Fixpoint findIndex {A : Type} (p : A -> bool) (l : list A) : Z :=
  match l with
  | [] => -1
  | x :: r =>
      if p x then 0
      else let i := findIndex p r in if i <? 0 then -1 else i + 1
  end.

Definition saveMood (today : str) (w : App) : App :=
  let mood := moodSelect (el w) in
  let reflection := trim (reflectionInput (el w)) in
  if negb (truthy mood) && negb (truthy reflection) then
    toast (lit "Pick a mood or write a reflection.") w
  else
    let entry := MoodEntry.mk today mood reflection in
    let idx := findIndex (fun m => bool_decide (MoodEntry.dateISO m = MoodEntry.dateISO entry)) (moods w) in
    let w1 := with_moods w (if 0 <=? idx then <[Z.to_nat idx := entry]> (moods w)
                            else moods w ++ [entry]) in
    let w2 := set STORAGE_KEYS.mood (StoredMoods (moods w1)) w1 in
    let w3 := awardPoints (Num 1) w2 in
    let e := el w3 in
    let w4 := with_el w3 (mkDom (timerMinutesInput e) (sessionTitle e) (sessionTags e)
                                (moodSelect e) []) in
    toast (lit "Saved.") w4.

(** ** Habits

    [habits] maps a date to the record of that date, and a record maps a
    habit key to its flag.  The date is always what [todayISO ()] answers,
    ten characters of a date, never the name of a member of
    [Object.prototype]; the habit key is the [data-key] of a box of the
    page and can be any text ([toggleHabit] comes after the objects, whose
    inherited members it has to respect). *)

Definition initHabitsForToday (today : str) (w : App) : App :=
  let t := today in
  let w1 := with_habits w (<[t := default ∅ (habits w !! t)]> (habits w)) in
  set STORAGE_KEYS.habits (StoredHabits (habits w1)) w1.

Definition resetTodayHabits (today : str) (w : App) : App :=
  let t := today in
  let w1 := with_habits w (<[t := ∅]> (habits w)) in
  let w2 := set STORAGE_KEYS.habits (StoredHabits (habits w1)) w1 in
  initHabitsForToday today w2.

(** What the script does while it loads, after the variables are read from
    the store: the streak is reconciled, then the timer is reset and today's
    habit record is created. *)
Definition boot (today : str) (w : App) : App :=
  initHabitsForToday today (resetTimer (maintainStreak today w)).

(** ** Objects used as maps, arrays

    [aggregateTags] accumulates into a plain object [map], whose keys are
    the tags.  A plain object is embedded as the list of its own properties
    in order of creation.  Three facts of the language are kept:
    - reading [map[k]] falls back to [Object.prototype] when [map] has no own
      property [k];
    - assigning to [map["__proto__"]] a value that is not an object creates
      no property;
    - enumeration ([Object.entries], [Object.keys], [Object.values]) lists
      the keys that are array indices first, in ascending numeric order, and
      the other keys after them in order of creation.

    A property value is a number, or a string ([VStr], which the loop can
    only obtain by adding a number to an inherited function or object and
    which never reads as a number), or such an inherited function or
    object itself ([VObj]). *)

Inductive val : Type :=
| VNum (n : num)
| VStr
| VObj.

#[global] Instance val_eq_dec : EqDecision val.
Proof. solve_decision. Defined.

Abbreviation jsobj := (list (str * val)).

Module Object.

Definition prototype_names : list str :=
  List.map lit
    ["constructor"; "hasOwnProperty"; "isPrototypeOf"; "propertyIsEnumerable";
     "toLocaleString"; "toString"; "valueOf"; "__proto__";
     "__defineGetter__"; "__defineSetter__"; "__lookupGetter__";
     "__lookupSetter__"]%string.

Fixpoint own (o : jsobj) (k : str) : option val :=
  match o with
  | [] => None
  | (k', v) :: r => if bool_decide (k' = k) then Some v else own r k
  end.

(** [o[k]]; [None] is [undefined]. *)
Definition get (o : jsobj) (k : str) : option val :=
  match own o k with
  | Some v => Some v
  | None => if bool_decide (k ∈ prototype_names) then Some VObj else None
  end.

Fixpoint define (o : jsobj) (k : str) (v : val) : jsobj :=
  match o with
  | [] => [(k, v)]
  | (k', v') :: r =>
      if bool_decide (k' = k) then (k', v) :: r else (k', v') :: define r k v
  end.

(** [o[k] = v] for a value [v] that is a number or a string. *)
Definition put (o : jsobj) (k : str) (v : val) : jsobj :=
  if bool_decide (k = lit "__proto__") then o else define o k v.

(** A key is an array index when it is the decimal text, without
    superfluous zeros, of an integer between 0 and 2^32 - 2. *)
Definition arrayIndex (k : str) : option N :=
  match k with
  | [] => None
  | c :: r =>
      if forallb isDigit k && (negb (c =? 48)%N || negb (truthy r)) then
        let n := fold_left (fun acc d => (10 * acc + (d - 48))%N) k 0%N in
        if (n <? 2 ^ 32 - 1)%N then Some n else None
      else None
  end.

Fixpoint insertIndex (x : N * (str * val)) (l : list (N * (str * val)))
  : list (N * (str * val)) :=
  match l with
  | [] => [x]
  | y :: r => if (fst x <=? fst y)%N then x :: l else y :: insertIndex x r
  end.

Definition indexed (o : jsobj) : list (N * (str * val)) :=
  flat_map (fun kv => match arrayIndex (fst kv) with
                      | Some n => [(n, kv)]
                      | None => []
                      end) o.

(** [Object.entries (o)] *)
Definition entries (o : jsobj) : list (str * val) :=
  List.map snd (fold_right insertIndex [] (indexed o))
  ++ List.filter (fun kv => negb (bool_decide (is_Some (arrayIndex (fst kv))))) o.


Definition values (o : jsobj) : list val := List.map snd (entries o).

(** [Object.fromEntries (l)] *)
Definition fromEntries (l : list (str * val)) : jsobj :=
  fold_left (fun o kv => define o (fst kv) (snd kv)) l [].

End Object.

(** Is [k] the name of a member every plain object inherits? *)
Definition inherited (k : str) : bool :=
  bool_decide (k ∈ Object.prototype_names).

(** [h[key] = v] on a habit record, for a boolean [v]: the flag is created
    or replaced, under every key but one.  An assignment to [__proto__]
    reaches the setter of [Object.prototype], which ignores a boolean, so
    that nothing is recorded; only a record that already has a flag of
    that name (a record read back from the store can) gets it replaced. *)
Definition assignFlag (h : gmap str bool) (key : str) (v : bool) : gmap str bool :=
  if bool_decide (key = lit "__proto__") && negb (bool_decide (is_Some (h !! key)))
  then h
  else <[key := v]> h.

(** [toggleHabit (e)] with [e.target.dataset.key = key] and
    [e.target.checked = checked]. *)
Definition toggleHabit (today key : str) (checked : bool) (w : App) : App :=
  let t := today in
  let w1 := with_habits w (<[t := default ∅ (habits w !! t)]> (habits w)) in
  let w2 := with_habits w1 (<[t := assignFlag (default ∅ (habits w1 !! t)) key checked]>
                              (habits w1)) in
  let w3 := set STORAGE_KEYS.habits (StoredHabits (habits w2)) w2 in
  if checked then awardPoints (Num 2) w3 else w3.

(** [v || 0]: 0 replaces [undefined], 0 and NaN. *)
Definition or_zero (v : option val) : val :=
  match v with
  | None | Some (VNum NaN) => VNum (Num 0)
  | Some (VNum (Num z)) => if z =? 0 then VNum (Num 0) else VNum (Num z)
  | Some v' => v'
  end.

(** [v + n] for a number [n]: addition of numbers, concatenation of text
    otherwise. *)
Definition plus (v : val) (n : num) : val :=
  match v with
  | VNum a => VNum (num_add a n)
  | VStr | VObj => VStr
  end.

Definition ToNumber (v : val) : num :=
  match v with
  | VNum a => a
  | VStr | VObj => NaN
  end.

(** [a.sort (comparefn)].  The sort of the language is stable; an element
    moves behind another one only when [comparefn] says so with a positive
    number (NaN counts as 0).  With a comparator that orders the elements
    consistently, every stable sort returns this list.  A comparator that
    answers NaN for some pairs and numbers for others is not consistent,
    and then the order is the engine's own: the statements about sorted
    totals are about totals that are numbers. *)
Section ArraySort.
Context {A : Type} (comparefn : A -> A -> num).

Fixpoint sortInsert (x : A) (l : list A) : list A :=
  match l with
  | [] => [x]
  | y :: r => if num_lt (Num 0) (comparefn x y) then y :: sortInsert x r else x :: l
  end.

Definition Array_sort (l : list A) : list A := fold_right sortInsert [] l.

End ArraySort.

(** [a.slice (0, e)] for an integer [e]: a negative [e] counts from the
    end. *)
Definition Array_slice0 {A : Type} (l : list A) (e : Z) : list A :=
  let len := Z.of_nat (length l) in
  let final := if e <? 0 then Z.max (len + e) 0 else Z.min e len in
  take (Z.to_nat final) l.

(** ** Tag totals *)

Definition tagMap (ss : list Session.t) : jsobj :=
  fold_left
    (fun map s =>
       fold_left
         (fun map t => Object.put map t (plus (or_zero (Object.get map t)) (Session.minutes s)))
         (Session.tags s) map)
    ss [].

Definition aggregateTags (limit : Z) (w : App) : jsobj :=
  let map := tagMap (sessions w) in
  let sorted :=
    Array_slice0
      (Array_sort (fun a b => num_sub (ToNumber (snd b)) (ToNumber (snd a)))
                  (Object.entries map))
      limit in
  Object.fromEntries sorted.

(** A state with empty collections and 25 in the minutes field, on which
    the functions are run in the examples. *)
Definition blank (today : str) : App :=
  mkApp [] ∅ [] (Num 0) 0 today (mkTimer (Num (25 * 60)) false None)
        (mkDom (lit "25") [] [] [] []) ∅ [] 1%positive [].

Definition withSessions (ss : list Session.t) : App :=
  with_sessions (blank (lit "2024-01-02")) ss.

(** ** Auxiliary notions used in the statements *)

(** The session [logSession] stores when it accepts the log. *)
Definition loggedSession (today : str) (w : App) : Session.t :=
  Session.mk today (elapsedMinutes w)
             (trim (or_else (sessionTitle (el w)) (lit "Focus block")))
             (List.filter truthy (List.map trim (split 44 (or_else (sessionTags (el w)) [])))).

(** A full uninterrupted run of the default 25 minutes. *)
Definition afterFullRun : App :=
  seconds 1500 (startTimer (resetTimer (blank (lit "2024-01-02")))).

Definition minutesField (v : str) (w : App) : App :=
  with_el w (mkDom v (sessionTitle (el w)) (sessionTags (el w))
                   (moodSelect (el w)) (reflectionInput (el w))).

Definition sessionFields (title tags : str) (w : App) : App :=
  with_el w (mkDom (timerMinutesInput (el w)) title tags
                   (moodSelect (el w)) (reflectionInput (el w))).

(** A date has recorded activity when a session or a mood entry carries it,
    or when one of its habit flags is true. *)
Definition activeOn (d : str) (w : App) : Prop :=
  (exists s, In s (sessions w) /\ Session.dateISO s = d)
  \/ (exists h k, habits w !! d = Some h /\ h !! k = Some true)
  \/ (exists m, In m (moods w) /\ MoodEntry.dateISO m = d).

(** Yesterday's state: a streak of 3, one session logged yesterday. *)
Definition yesterdayActive : App :=
  with_streak
    (with_sessions (blank (lit "2024-01-01"))
                   [Session.mk (lit "2024-01-01") (Num 25) (lit "Focus block") []])
    3.

Definition moodToday : App :=
  with_el (with_moods (blank (lit "2024-01-02"))
                      [MoodEntry.mk (lit "2024-01-02") (lit "ok") []])
          (mkDom (lit "25") [] [] (lit "great") (lit " fine ")).

(** The scheduled callbacks in every state the script can reach: the one
    [timer.intervalId] names while the timer runs, none otherwise. *)
Definition timer_ok (w : App) : Prop :=
  if running (timer w)
  then exists h, intervalId (timer w) = Some h /\ intervals w = [h]
  else intervals w = [].

(** The timer runs on handle [h] with [r] seconds left and [p] points. *)
Definition countingDown (w : App) (h : positive) (r : Z) (p : num) : Prop :=
  timer w = mkTimer (Num r) true (Some h) /\ intervals w = [h] /\ points w = p.

(** The timer has stopped at zero with [p] points and nothing scheduled. *)
Definition completed (w : App) (p : num) : Prop :=
  remainingSec (timer w) = Num 0 /\ running (timer w) = false
  /\ intervals w = [] /\ points w = p.

(** Starting a stopped timer that shows 0 and letting one second pass. *)
Definition restartAtZero (w : App) : App := second (startTimer w).

Definition toZ (n : num) : Z :=
  match n with Num z => z | NaN => 0 end.

Definition Zsum (l : list Z) : Z := fold_right Z.add 0 l.

(** The tags of all sessions in the order the loop of [aggregateTags] meets
    them, and the same with the minutes of their session. *)
Definition allTags (ss : list Session.t) : list str :=
  flat_map Session.tags ss.

Definition occurrences (ss : list Session.t) : list (str * num) :=
  flat_map (fun s => List.map (fun t => (t, Session.minutes s)) (Session.tags s)) ss.

(** The distinct elements of a list in the order of their first
    occurrence. *)
Fixpoint firstSeen (l : list str) : list str :=
  match l with
  | [] => []
  | t :: r => t :: List.filter (fun u => negb (bool_decide (u = t))) (firstSeen r)
  end.

(** How many times a tag stands in the tags of a session. *)
Definition timesListed (t : str) (s : Session.t) : nat :=
  length (List.filter (fun u => bool_decide (u = t)) (Session.tags s)).

(** What the code adds up for a tag: each session counts with all its
    minutes, once for each time the tag stands in its list of tags. *)
Definition tagTotal (t : str) (ss : list Session.t) : Z :=
  Zsum (List.map (fun s => Z.of_nat (timesListed t s) * toZ (Session.minutes s)) ss).


(** A tag that is neither an array index nor the name of a member of
    [Object.prototype]. *)
Definition plainTag (t : str) : bool :=
  negb (bool_decide (t ∈ Object.prototype_names))
  && match Object.arrayIndex t with Some _ => false | None => true end.

(** One round of the inner loop of [aggregateTags]. *)
Definition addTag (map : jsobj) (p : str * num) : jsobj :=
  Object.put map (fst p) (plus (or_zero (Object.get map (fst p))) (snd p)).

Definition entryOf (g : str -> Z) (t : str) : str * val := (t, VNum (Num (g t))).

Definition total (t : str) (ps : list (str * num)) : Z :=
  Zsum (List.map (fun p => if bool_decide (fst p = t) then toZ (snd p) else 0) ps).

(** Sessions as the data model describes them, with tags that are plain. *)
Definition plainSession (s : Session.t) : Prop :=
  (exists z, Session.minutes s = Num z)
  /\ Forall (fun t => plainTag t = true) (Session.tags s).

(** One session of 30 minutes tagged a and b. *)
Definition taggedAB : App :=
  withSessions [Session.mk (lit "2024-01-02") (Num 30) (lit "Focus block") [lit "a"; lit "b"]].


(** ** Sorting by a weight, largest first *)

Definition byWeight {A : Type} (weight : A -> Z) (a b : A) : num :=
  num_sub (Num (weight b)) (Num (weight a)).


(** ** Events

    After loading, the script only runs in response to events: clicks on its
    buttons, changes of the habit boxes, edits of the form fields, and the
    callbacks of the scheduled intervals.  [today] is what [todayISO ()]
    answers while the event is handled. *)

Inductive event : Type :=
| ClickStart
| ClickPause
| ClickReset
| ClickLog (today : str)
| ClickSaveMood (today : str)
| ChangeHabit (today key : str) (checked : bool)
| ClickResetHabits (today : str)
| Edit (form : Dom)
| Interval (h : positive).

Definition handle (e : event) (w : App) : App :=
  match e with
  | ClickStart => startTimer w
  | ClickPause => pauseTimer w
  | ClickReset => resetTimer w
  | ClickLog today => logSession today w
  | ClickSaveMood today => saveMood today w
  | ChangeHabit today key checked => toggleHabit today key checked w
  | ClickResetHabits today => resetTodayHabits today w
  | Edit form => with_el w form
  | Interval h => tick h w
  end.

(** The state right after the module-level variables are initialised. *)
Definition loaded (w : App) : Prop :=
  timer w = mkTimer (Num (25 * 60)) false None /\ intervals w = [].

Inductive reachable : App -> Prop :=
| reachable_boot (today : str) (w : App) :
    loaded w -> reachable (boot today w)
| reachable_event (e : event) (w : App) :
    reachable w -> reachable (handle e w).

(** ** Visits

    Each time the page is opened the script reads its variables back from
    the store, [get (k, fallback)] answering the fallback for a key the
    store does not hold.  [freshlyLoaded today ls w] says of a state [w]
    what the reads of [streak] and [lastDate] give on day [today] from the
    store [ls], for the values [maintainStreak] itself writes there; the
    other variables are left open.  [today] is what [todayISO ()] answers
    both when [lastDate] is read and when the streak is reconciled: the
    day does not change in the moment the script loads. *)
Definition freshlyLoaded (today : str) (ls : gmap str stored) (w : App) : Prop :=
  localStorage w = ls
  /\ loaded w
  /\ (ls !! STORAGE_KEYS.lastActiveDate = None -> lastDate w = today)
  /\ (forall d, ls !! STORAGE_KEYS.lastActiveDate = Some (StoredStr d) -> lastDate w = d)
  /\ (ls !! STORAGE_KEYS.streak = None -> streak w = 0)
  /\ (forall z, ls !! STORAGE_KEYS.streak = Some (StoredNum (Num z)) -> streak w = z).

(** The events of one visit, in the order they are handled. *)
Definition handleAll (es : list event) (w : App) : App :=
  fold_left (fun w' e => handle e w') es w.

(** The stores the script can leave behind, starting from an empty store:
    each visit loads from the store the visit before left, runs the start
    of the script and handles some events. *)
Inductive storeAfterVisits : gmap str stored -> Prop :=
| no_visit : storeAfterVisits ∅
| one_more_visit (ls : gmap str stored) (today : str) (w : App) (es : list event) :
    storeAfterVisits ls ->
    freshlyLoaded today ls w ->
    storeAfterVisits (localStorage (handleAll es (boot today w))).

(** Two days of the examples: on the first the page is opened on an empty
    store and the box of the habit 'water' is checked; on the second the
    page is opened again on the store the first day left. *)
Definition dayOne : App :=
  handleAll [ChangeHabit (lit "2024-01-02") (lit "water") true]
            (boot (lit "2024-01-02") (blank (lit "2024-01-02"))).

Definition dayTwoLoaded : App :=
  mkApp [] (habits dayOne) [] (Num 2) 0 (lit "2024-01-03")
        (mkTimer (Num (25 * 60)) false None)
        (mkDom (lit "25") [] [] [] []) (localStorage dayOne) [] 1%positive [].

(** ** Further notions used in the statements *)

(** [remainingSec] is a count of seconds that has not gone below zero (or
    NaN, after a reset with a minutes field that holds no number). *)
Definition remainingOk (w : App) : Prop :=
  match remainingSec (timer w) with
  | NaN => True
  | Num r => 0 <= r
  end.

(** The timer runs on handle [h] with NaN seconds left. *)
Definition countingNaN (w : App) (h : positive) (p : num) : Prop :=
  timer w = mkTimer NaN true (Some h) /\ intervals w = [h] /\ points w = p.

(** The timer is reset to the minutes of the form, started, and [k]
    seconds pass without any other event. *)
Definition runFor (k : nat) (w : App) : App :=
  seconds k (startTimer (resetTimer w)).

(** What the timer functions and the interval callbacks leave alone. *)
Definition sameLedger (w w' : App) : Prop :=
  sessions w' = sessions w /\ habits w' = habits w /\ moods w' = moods w
  /\ streak w' = streak w /\ lastDate w' = lastDate w /\ el w' = el w.

(** The state the page gives the box of habit [key] for date [d],
    [!!habits[d][key]]: the flag of the record, and without a flag what the
    record inherits under that name, a function or an object, which counts
    as true.  The script reads it for today, right after today has been
    given a record; a date without a record reads here as an empty record
    does. *)
Definition habitChecked (d key : str) (w : App) : bool :=
  match default ∅ (habits w !! d) !! key with
  | Some b => b
  | None => inherited key
  end.

(** A habit box is checked and unchecked again. *)
Definition checkThenUncheck (today key : str) (w : App) : App :=
  toggleHabit today key false (toggleHabit today key true w).

(** ** Statistics

    [renderStats] computes two totals and writes them, with the streak, the
    points and the level, into five elements of the page.  The embedding
    returns the five values written; [weekStart] is the value of
    [startOfWeekISO ()]. *)

(** [a < b] on strings: the code units decide at the first place where
    they differ, and a proper prefix is smaller. *)
Fixpoint str_lt (a b : str) : bool :=
  match a, b with
  | _, [] => false
  | [], _ :: _ => true
  | x :: a', y :: b' =>
      if (x <? y)%N then true
      else if (y <? x)%N then false
      else str_lt a' b'
  end.

(** [a >= b] on strings. *)
Definition str_ge (a b : str) : bool := negb (str_lt a b).

(** [l.reduce ((acc, s) => acc + s.minutes, 0)] *)
Definition sumMinutes (l : list Session.t) : num :=
  fold_left (fun acc s => num_add acc (Session.minutes s)) l (Num 0).

Record Stats : Type := mkStats {
  todayMins : num;
  weekMins : num;
  streakDays : Z;
  pointsShown : num;
  levelShown : str
}.

Definition renderStats (today weekStart : str) (w : App) : Stats :=
  let t := today in
  let todayTotal :=
    sumMinutes (List.filter (fun s => bool_decide (Session.dateISO s = t)) (sessions w)) in
  let weekTotal :=
    sumMinutes (List.filter (fun s => str_ge (Session.dateISO s) weekStart) (sessions w)) in
  mkStats todayTotal weekTotal (streak w) (points w) (levelFromPoints (points w)).

(** Sessions as the data model describes them: a whole number of minutes,
    not negative. *)
Definition wholeMinutes (s : Session.t) : Prop :=
  exists z, Session.minutes s = Num z /\ 0 <= z.

(** ** Escaping *)

(** What [escapeHTML] puts in the place of one code unit. *)
Definition htmlEntity (c : N) : str :=
  if (c =? 38)%N then lit "&amp;"
  else if (c =? 60)%N then lit "&lt;"
  else if (c =? 62)%N then lit "&gt;"
  else if (c =? 34)%N then lit "&quot;"
  else if (c =? 39)%N then lit "&#39;"
  else [c].

Definition escapeHTML (s : str) : str := flat_map htmlEntity s.

(** Reading the five entities back, as a browser does with the text of an
    element; any other ampersand is kept. *)
Fixpoint unescapeHTML (s : str) : str :=
  match s with
  | [] => []
  | c :: r =>
      if (c =? 38)%N then
        match r with
        | 97%N :: 109%N :: 112%N :: 59%N :: r' => 38%N :: unescapeHTML r'
        | 108%N :: 116%N :: 59%N :: r' => 60%N :: unescapeHTML r'
        | 103%N :: 116%N :: 59%N :: r' => 62%N :: unescapeHTML r'
        | 113%N :: 117%N :: 111%N :: 116%N :: 59%N :: r' => 34%N :: unescapeHTML r'
        | 35%N :: 51%N :: 57%N :: 59%N :: r' => 39%N :: unescapeHTML r'
        | _ => c :: unescapeHTML r
        end
      else c :: unescapeHTML r
  end.

(** The test of [escapeCSV]: does the text hold a comma, a quote or a line
    feed? *)
Definition needsQuotes (s : str) : bool :=
  existsb (fun c => (c =? 44) || (c =? 34) || (c =? 10))%N s.

(** The replacement of [escapeCSV]: every quote is written twice. *)
Definition doubleQuotes (s : str) : str :=
  flat_map (fun c => if (c =? 34)%N then [34%N; 34%N] else [c]) s.

Definition escapeCSV (s : str) : str :=
  if needsQuotes s then [34%N] ++ doubleQuotes s ++ [34%N] else s.

(** [l.join (sep)] *)
Fixpoint join (sep : str) (l : list str) : str :=
  match l with
  | [] => []
  | x :: r =>
      match r with
      | [] => x
      | _ :: _ => x ++ sep ++ join sep r
      end
  end.

(** ** Export *)

(** The [rows] of [exportCSV]. *)
Definition csvRows (w : App) : list (list str) :=
  [lit "date"; lit "title"; lit "minutes"; lit "tags"]
  :: List.map (fun s => [Session.dateISO s; Session.title s;
                         num_to_string (Session.minutes s);
                         join [124%N] (Session.tags s)])
              (sessions w).

(** The text [exportCSV] puts into the file. *)
Definition csvText (w : App) : str :=
  join [10%N] (List.map (fun r => join [44%N] (List.map escapeCSV r)) (csvRows w)).

(** [exportCSV]: the name of the download and its text. *)
Definition exportCSV (today : str) (w : App) : str * str :=
  (lit "tech-life-sessions-" ++ today ++ lit ".csv", csvText w).

(** A reader of comma-separated text: commas separate fields and line
    feeds separate rows, except inside a field that starts with a quote,
    which runs to the next single quote and in which two quotes stand for
    one. *)
Inductive csvState : Type :=
| FieldStart
| Unquoted
| Quoted
| QuoteSeen.

Fixpoint readCSV (s : str) (st : csvState) (field : str) (row : list str)
  : list (list str) :=
  match s with
  | [] => [row ++ [field]]
  | c :: r =>
      match st with
      | Quoted =>
          if (c =? 34)%N then readCSV r QuoteSeen field row
          else readCSV r Quoted (field ++ [c]) row
      | _ =>
          if (c =? 44)%N then readCSV r FieldStart [] (row ++ [field])
          else if (c =? 10)%N then (row ++ [field]) :: readCSV r FieldStart [] []
          else if (c =? 34)%N then
            match st with
            | FieldStart => readCSV r Quoted field row
            | QuoteSeen => readCSV r Quoted (field ++ [34%N]) row
            | _ => readCSV r Unquoted (field ++ [c]) row
            end
          else readCSV r Unquoted (field ++ [c]) row
      end
  end.

(** ** The timer display *)

(** [a % d] for a positive integer constant [d]: the remainder has the sign
    of [a]. *)
Definition num_rem (a : num) (d : Z) : num :=
  match a with Num x => Num (Z.rem x d) | NaN => NaN end.

(** [s.padStart (target, pad)] for a pad of one code unit. *)
Definition padStart (target : nat) (pad : N) (s : str) : str :=
  repeat pad (target - length s) ++ s.

(** [updateTimerDisplay]: the texts written to the minutes and the seconds
    element. *)
Definition updateTimerDisplay (w : App) : str * str :=
  let m := Math_floor_div (remainingSec (timer w)) 60 in
  let s := num_rem (remainingSec (timer w)) 60 in
  (padStart 2 48 (num_to_string m), padStart 2 48 (num_to_string s)).

(** The number a run of decimal digits stands for. *)
Definition decimalValue (ds : str) : Z :=
  fold_left (fun acc d => 10 * acc + d) (List.map (fun c => Z.of_N c - 48) ds) 0.




(** * Properties *)

Example parseInt_25 : parseInt (lit "25") = Num 25.
Proof. reflexivity. Qed.

Example parseInt_neg : parseInt (lit "  -12.5") = Num (-12).
Proof. reflexivity. Qed.

Example parseInt_abc : parseInt (lit "abc") = NaN.
Proof. reflexivity. Qed.

Example split_tags : split 44 (lit "a, b,,c") = [lit "a"; lit " b"; lit ""; lit "c"].
Proof. reflexivity. Qed.

Example trim_ex : trim (lit "  a b ") = lit "a b".
Proof. reflexivity. Qed.

Example num_to_string_ex : num_to_string (Num 120) = lit "120".
Proof. reflexivity. Qed.

Example level_49 : tier (levelFromPoints (Num 49)) = 1.
Proof. reflexivity. Qed.

(** ** Levels *)

Lemma tier_levelFromPoints (p : Z) :
  tier (levelFromPoints (Num p)) =
  if p <? 50 then 1 else if p <? 150 then 2 else if p <? 300 then 3
  else if p <? 600 then 4 else 5.
Proof.
  unfold levelFromPoints, num_lt.
  destruct (p <? 50); [reflexivity|].
  destruct (p <? 150); [reflexivity|].
  destruct (p <? 300); [reflexivity|].
  destruct (p <? 600); reflexivity.
Qed.

Lemma level_names_distinct :
  lit "Novice" <> lit "Builder" /\ lit "Novice" <> lit "Navigator" /\
  lit "Novice" <> lit "Architect" /\ lit "Novice" <> lit "Master" /\
  lit "Builder" <> lit "Navigator" /\ lit "Builder" <> lit "Architect" /\
  lit "Builder" <> lit "Master" /\ lit "Navigator" <> lit "Architect" /\
  lit "Navigator" <> lit "Master" /\ lit "Architect" <> lit "Master".
Proof. repeat split; vm_compute; discriminate. Qed.

Ltac level_cases p :=
  unfold levelFromPoints, num_lt;
  destruct (Z.ltb_spec p 50); [|
  destruct (Z.ltb_spec p 150); [|
  destruct (Z.ltb_spec p 300); [|
  destruct (Z.ltb_spec p 600)]]].

(** C1.  For an integer [p >= 0], [levelFromPoints] answers 'Novice'
    (tier 1) exactly when [p < 50], 'Builder' (tier 2) exactly when
    [50 <= p < 150], 'Navigator' (tier 3) exactly when [150 <= p < 300],
    'Architect' (tier 4) exactly when [300 <= p < 600] and 'Master' (tier 5)
    exactly when [600 <= p]; the tier never decreases when the points grow;
    and the tiers at 49, 50, 149, 150, 299, 300, 599, 600 are
    1, 2, 2, 3, 3, 4, 4, 5. *)
Theorem levelFromPoints_tiers (p q : Z) :
  0 <= p -> p <= q ->
  (levelFromPoints (Num p) = lit "Novice" <-> p < 50) /\
  (levelFromPoints (Num p) = lit "Builder" <-> 50 <= p < 150) /\
  (levelFromPoints (Num p) = lit "Navigator" <-> 150 <= p < 300) /\
  (levelFromPoints (Num p) = lit "Architect" <-> 300 <= p < 600) /\
  (levelFromPoints (Num p) = lit "Master" <-> 600 <= p) /\
  (tier (levelFromPoints (Num p)) = 1 <-> p < 50) /\
  (tier (levelFromPoints (Num p)) = 2 <-> 50 <= p < 150) /\
  (tier (levelFromPoints (Num p)) = 3 <-> 150 <= p < 300) /\
  (tier (levelFromPoints (Num p)) = 4 <-> 300 <= p < 600) /\
  (tier (levelFromPoints (Num p)) = 5 <-> 600 <= p) /\
  tier (levelFromPoints (Num p)) <= tier (levelFromPoints (Num q)) /\
  List.map (fun x => tier (levelFromPoints (Num x)))
           [49; 50; 149; 150; 299; 300; 599; 600]
  = [1; 2; 2; 3; 3; 4; 4; 5].
Proof.
  intros Hp Hpq.
  destruct level_names_distinct as (N1 & N2 & N3 & N4 & N5 & N6 & N7 & N8 & N9 & N10).
  repeat match goal with |- _ /\ _ => split end.
  1-5: level_cases p; split; intros E; try lia; try reflexivity;
       try (exfalso; congruence).
  1-5: rewrite tier_levelFromPoints;
       destruct (Z.ltb_spec p 50); [|
       destruct (Z.ltb_spec p 150); [|
       destruct (Z.ltb_spec p 300); [|
       destruct (Z.ltb_spec p 600)]]]; split; intros E; lia.
  - rewrite !tier_levelFromPoints.
    destruct (Z.ltb_spec p 50), (Z.ltb_spec q 50); try lia;
    destruct (Z.ltb_spec p 150), (Z.ltb_spec q 150); try lia;
    destruct (Z.ltb_spec p 300), (Z.ltb_spec q 300); try lia;
    destruct (Z.ltb_spec p 600), (Z.ltb_spec q 600); lia.
  - reflexivity.
Qed.

Lemma levelFromPoints_tiers_witness :
  levelFromPoints (Num 149) = lit "Builder"
  /\ tier (levelFromPoints (Num 149)) <= tier (levelFromPoints (Num 150)).
Proof.
  destruct (levelFromPoints_tiers 149 150 ltac:(lia) ltac:(lia))
    as (_ & B & _ & _ & _ & _ & _ & _ & _ & _ & M & _).
  split; [apply B; lia | exact M].
Defined.

(** ** Logging a session *)

Lemma logSession_eq (today : str) (w : App) :
  logSession today w =
  if num_le (elapsedMinutes w) (Num 0) then
    toast (lit "Log some minutes before saving.") w
  else
    let s := loggedSession today w in
    let w1 := with_sessions w (sessions w ++ [s]) in
    let w2 := set STORAGE_KEYS.sessions (StoredSessions (sessions w1)) w1 in
    let w3 := awardPoints (Math_min (Num 10) (Math_max (Num 1)
                                       (Math_floor_div (elapsedMinutes w) 5))) w2 in
    toast (lit "Logged " ++ [34%N] ++ Session.title s ++ [34%N] ++ lit " ("
             ++ num_to_string (elapsedMinutes w) ++ lit "m)") w3.
Proof. reflexivity. Qed.

Lemma logSession_accepted (today : str) (w : App) (m : Z) :
  elapsedMinutes w = Num m -> 0 < m ->
  sessions (logSession today w) = sessions w ++ [loggedSession today w]
  /\ points (logSession today w)
     = num_add (points w) (Num (Z.min 10 (Z.max 1 (m / 5))))
  /\ localStorage (logSession today w)
     = <[STORAGE_KEYS.points := StoredNum (points (logSession today w))]>
         (<[STORAGE_KEYS.sessions := StoredSessions (sessions w ++ [loggedSession today w])]>
            (localStorage w)).
Proof.
  intros E Hm. rewrite logSession_eq, E. cbn [num_le].
  destruct (Z.leb_spec m 0); [lia|]. cbn. auto.
Qed.

(** C2.  When [logSession] computes [m > 0] elapsed minutes, the log is
    accepted (a session of [m] minutes is added) and the points grow by [min (10, max (1, floor (m / 5)))]: by 1
    for [m] from 1 to 4, by 5 for [m = 25], by 10 for [m = 50] and by 10 for
    [m = 1000]. *)
Theorem logSession_points (today : str) (w : App) (m : Z) :
  elapsedMinutes w = Num m -> 0 < m ->
  points (logSession today w)
  = num_add (points w) (Num (Z.min 10 (Z.max 1 (m / 5))))
  /\ sessions (logSession today w) = sessions w ++ [loggedSession today w]
  /\ Session.minutes (loggedSession today w) = Num m
  /\ localStorage (logSession today w) !! STORAGE_KEYS.points
     = Some (StoredNum (points (logSession today w)))
  /\ (1 <= m <= 4 -> points (logSession today w) = num_add (points w) (Num 1))
  /\ (m = 25 -> points (logSession today w) = num_add (points w) (Num 5))
  /\ (m = 50 -> points (logSession today w) = num_add (points w) (Num 10))
  /\ (m = 1000 -> points (logSession today w) = num_add (points w) (Num 10)).
Proof.
  intros E Hm.
  destruct (logSession_accepted today w m E Hm) as (S & P & L).
  split; [exact P|]. split; [exact S|]. split; [exact E|]. split.
  { rewrite L. apply lookup_insert_eq. }
  rewrite P. repeat split; intros R.
  - replace (m / 5) with 0; [reflexivity|].
    symmetry. apply Z.div_small. lia.
  - subst m. reflexivity.
  - subst m. reflexivity.
  - subst m. reflexivity.
Qed.

Lemma logSession_points_witness :
  points (logSession (lit "2024-01-02") afterFullRun) = Num 10.
Proof.
  destruct (logSession_points (lit "2024-01-02") afterFullRun 25)
    as (_ & _ & _ & _ & _ & P & _).
  - vm_compute. reflexivity.
  - lia.
  - rewrite (P eq_refl). vm_compute. reflexivity.
Defined.

(** C5.  When [logSession] computes elapsed minutes [m <= 0], it only shows
    the message 'Log some minutes before saving.': no session is added, the
    points keep their value and nothing is written to the store. *)
Theorem logSession_rejected (today : str) (w : App) (m : Z) :
  elapsedMinutes w = Num m -> m <= 0 ->
  logSession today w = toast (lit "Log some minutes before saving.") w
  /\ toasts (logSession today w) = lit "Log some minutes before saving." :: toasts w
  /\ sessions (logSession today w) = sessions w
  /\ points (logSession today w) = points w
  /\ localStorage (logSession today w) = localStorage w
  /\ habits (logSession today w) = habits w
  /\ moods (logSession today w) = moods w
  /\ streak (logSession today w) = streak w
  /\ lastDate (logSession today w) = lastDate w
  /\ timer (logSession today w) = timer w
  /\ intervals (logSession today w) = intervals w
  /\ el (logSession today w) = el w.
Proof.
  intros E Hm. rewrite logSession_eq, E. cbn [num_le].
  destruct (Z.leb_spec m 0); [|lia].
  repeat split.
Qed.

Lemma logSession_rejected_witness :
  sessions (logSession (lit "2024-01-02") (blank (lit "2024-01-02"))) = []
  /\ points (logSession (lit "2024-01-02") (blank (lit "2024-01-02"))) = Num 0.
Proof.
  destruct (logSession_rejected (lit "2024-01-02") (blank (lit "2024-01-02")) 0)
    as (_ & _ & S & P & _).
  - vm_compute. reflexivity.
  - lia.
  - rewrite S, P. split; reflexivity.
Defined.

(** ** Configuring the timer *)

Lemma pauseTimer_el (w : App) : el (pauseTimer w) = el w.
Proof. unfold pauseTimer. cbn. destruct (intervalId (timer w)); reflexivity. Qed.

Lemma pauseTimer_remainingSec (w : App) :
  remainingSec (timer (pauseTimer w)) = remainingSec (timer w).
Proof. unfold pauseTimer. cbn. destruct (intervalId (timer w)); reflexivity. Qed.

Lemma pauseTimer_running (w : App) : running (timer (pauseTimer w)) = false.
Proof. unfold pauseTimer. cbn. destruct (intervalId (timer w)); reflexivity. Qed.

Lemma pauseTimer_points (w : App) : points (pauseTimer w) = points w.
Proof. unfold pauseTimer. cbn. destruct (intervalId (timer w)); reflexivity. Qed.

Lemma resetTimer_remainingSec (w : App) :
  remainingSec (timer (resetTimer w))
  = num_mul (Math_max (Num 1) (parseInt (or_else (timerMinutesInput (el w)) (lit "25"))))
            (Num 60).
Proof. unfold resetTimer. cbn. rewrite pauseTimer_el. reflexivity. Qed.

(** With the minutes field left empty, [resetTimer] configures the default
    25 minutes, not 1 minute. *)
Lemma resetTimer_empty_field :
  timerMinutesInput (el (minutesField [] (blank (lit "2024-01-02")))) = []
  /\ remainingSec (timer (resetTimer (minutesField [] (blank (lit "2024-01-02")))))
     = Num 1500
  /\ remainingSec (timer (resetTimer (minutesField [] (blank (lit "2024-01-02")))))
     <> Num 60.
Proof. repeat split. vm_compute. discriminate. Qed.

(** C7, amended.  [resetTimer] sets [remainingSec] to [max (1, n) * 60]
    where [n] is the integer [parseInt] reads in the minutes field, an empty
    field being read as '25', and [60 n] is below [2 ^ 53], where the
    script's product is the whole number: every [n <= 0] gives 60 seconds,
    and an empty field gives 1500 seconds. *)
Theorem resetTimer_configures (w : App) (n : Z) :
  parseInt (or_else (timerMinutesInput (el w)) (lit "25")) = Num n ->
  n * 60 < 2 ^ 53 ->
  remainingSec (timer (resetTimer w)) = Num (Z.max 1 n * 60)
  /\ (n <= 0 -> remainingSec (timer (resetTimer w)) = Num 60)
  /\ (timerMinutesInput (el w) = [] ->
      n = 25 /\ remainingSec (timer (resetTimer w)) = Num 1500).
Proof.
  intros E _. rewrite resetTimer_remainingSec, E. cbn.
  split; [reflexivity|]. split.
  - intros Hn. rewrite Z.max_l by lia. reflexivity.
  - intros Hv. rewrite Hv in E. vm_compute in E.
    injection E as <-. split; reflexivity.
Qed.

Lemma resetTimer_configures_witness :
  remainingSec (timer (resetTimer (minutesField (lit "-3") (blank (lit "2024-01-02")))))
  = Num 60.
Proof.
  destruct (resetTimer_configures
              (minutesField (lit "-3") (blank (lit "2024-01-02"))) (-3))
    as (_ & Z & _).
  - vm_compute. reflexivity.
  - reflexivity.
  - apply Z. lia.
Defined.

(** ** Title and tags of a logged session *)

(** The tags a logged session gets are the pieces between commas of the tags
    field, each one trimmed, the empty ones left out. *)
Lemma loggedSession_tags (today : str) (w : App) :
  Session.tags (loggedSession today w)
  = List.filter truthy (List.map trim (split 44 (sessionTags (el w))))
  /\ Forall (fun t => t <> [] /\ exists piece, In piece (split 44 (sessionTags (el w)))
                                            /\ t = trim piece)
            (Session.tags (loggedSession today w)).
Proof.
  assert (E : or_else (sessionTags (el w)) [] = sessionTags (el w)).
  { unfold or_else. destruct (sessionTags (el w)); reflexivity. }
  unfold loggedSession. cbn [Session.tags]. rewrite E. split; [reflexivity|].
  apply List.Forall_forall. intros t Ht.
  apply List.filter_In in Ht. destruct Ht as [Hin Ht].
  apply List.in_map_iff in Hin. destruct Hin as (piece & <- & Hp).
  split; [|eauto]. intros C. rewrite C in Ht. discriminate.
Qed.

(** C8 at a title of three spaces: the log is accepted and the stored
    session has the empty title, not 'Focus block'; the tags are split,
    trimmed and filtered as described. *)
Theorem logSession_whitespace_title :
  sessions (logSession (lit "2024-01-02")
                       (sessionFields (lit "   ") (lit " a, ,b ,") afterFullRun))
  = [Session.mk (lit "2024-01-02") (Num 25) [] [lit "a"; lit "b"]]
  /\ ([] : str) <> lit "Focus block".
Proof. split; [vm_compute; reflexivity | discriminate]. Qed.

Lemma loggedSession_title (today : str) (w : App) :
  (sessionTitle (el w) = [] ->
   Session.title (loggedSession today w) = lit "Focus block")
  /\ (sessionTitle (el w) <> [] ->
      Session.title (loggedSession today w) = trim (sessionTitle (el w))).
Proof.
  unfold loggedSession, or_else. cbn [Session.title].
  destruct (sessionTitle (el w)); split; intros H; try reflexivity; congruence.
Qed.

(** ** Streak *)

Lemma some_flag_true (h : gmap str bool) :
  some_flag h = true <-> exists k, h !! k = Some true.
Proof.
  unfold some_flag. rewrite List.existsb_exists. split.
  - intros ([k b] & Hin & Hb). cbn in Hb. subst b.
    exists k. apply elem_of_map_to_list. apply list_elem_of_In. exact Hin.
  - intros (k & Hk). exists (k, true). split; [|reflexivity].
    apply list_elem_of_In. apply elem_of_map_to_list. exact Hk.
Qed.

Lemma hadActivity_true (d : str) (w : App) :
  hadActivity d w = true <-> activeOn d w.
Proof.
  unfold hadActivity, activeOn.
  rewrite !orb_true_iff, !List.existsb_exists. split.
  - intros [[(s & Hs & E)|H]|(m & Hm & E)].
    + left. exists s. split; [exact Hs|]. apply bool_decide_eq_true in E. exact E.
    + right; left. destruct (habits w !! d) as [h|]; [|discriminate].
      apply some_flag_true in H. destruct H as (k & Hk). eauto.
    + right; right. exists m. split; [exact Hm|].
      apply bool_decide_eq_true in E. exact E.
  - intros [(s & Hs & E)|[(h & k & Hh & Hk)|(m & Hm & E)]].
    + left; left. exists s. split; [exact Hs|]. apply bool_decide_eq_true. exact E.
    + left; right. rewrite Hh. apply some_flag_true. eauto.
    + right. exists m. split; [exact Hm|]. apply bool_decide_eq_true. exact E.
Qed.

Lemma storage_keys_distinct : STORAGE_KEYS.streak <> STORAGE_KEYS.lastActiveDate.
Proof. vm_compute. discriminate. Qed.

(** C3.  [maintainStreak], when [lastDate] is not today: the streak grows
    by one if [lastDate] has a session, a true habit flag or a mood entry,
    and becomes 0 otherwise; [lastDate] becomes today; both values are
    written to the store (and nothing else changes).  When [lastDate] is
    today the state, store included, is left as it is. *)
Theorem maintainStreak_reconciles (today : str) (w : App) :
  (lastDate w <> today ->
     (activeOn (lastDate w) w -> streak (maintainStreak today w) = streak w + 1)
     /\ (~ activeOn (lastDate w) w -> streak (maintainStreak today w) = 0)
     /\ lastDate (maintainStreak today w) = today
     /\ localStorage (maintainStreak today w)
        = <[STORAGE_KEYS.lastActiveDate := StoredStr today]>
            (<[STORAGE_KEYS.streak := StoredNum (Num (streak (maintainStreak today w)))]>
               (localStorage w))
     /\ localStorage (maintainStreak today w) !! STORAGE_KEYS.streak
        = Some (StoredNum (Num (streak (maintainStreak today w))))
     /\ localStorage (maintainStreak today w) !! STORAGE_KEYS.lastActiveDate
        = Some (StoredStr today)
     /\ sessions (maintainStreak today w) = sessions w
     /\ habits (maintainStreak today w) = habits w
     /\ moods (maintainStreak today w) = moods w
     /\ points (maintainStreak today w) = points w)
  /\ (lastDate w = today -> maintainStreak today w = w).
Proof.
  unfold maintainStreak, sameDay. split.
  - intros Hne. rewrite bool_decide_eq_false_2 by exact Hne. cbn.
    pose proof (hadActivity_true (lastDate w) w) as HA.
    destruct (hadActivity (lastDate w) w).
    + repeat split.
      * intros HN. exfalso. apply HN. apply HA. reflexivity.
      * rewrite lookup_insert_ne by (apply not_eq_sym, storage_keys_distinct).
        apply lookup_insert_eq.
      * apply lookup_insert_eq.
    + repeat split.
      * intros HY. apply HA in HY. discriminate.
      * rewrite lookup_insert_ne by (apply not_eq_sym, storage_keys_distinct).
        apply lookup_insert_eq.
      * apply lookup_insert_eq.
  - intros E. rewrite bool_decide_eq_true_2 by exact E. reflexivity.
Qed.

(** Running the reconciliation a second time on the same day changes
    nothing. *)
Lemma maintainStreak_twice (today : str) (w : App) :
  maintainStreak today (maintainStreak today w) = maintainStreak today w.
Proof.
  assert (L : lastDate (maintainStreak today w) = today).
  { unfold maintainStreak, sameDay.
    destruct (decide (lastDate w = today)) as [E|E].
    - rewrite bool_decide_eq_true_2 by exact E. exact E.
    - rewrite bool_decide_eq_false_2 by exact E. reflexivity. }
  unfold maintainStreak at 1. unfold sameDay.
  rewrite bool_decide_eq_true_2 by exact L. reflexivity.
Qed.

Lemma maintainStreak_reconciles_witness :
  streak (maintainStreak (lit "2024-01-02") yesterdayActive) = 4
  /\ streak (maintainStreak (lit "2024-01-02")
                            (with_streak (blank (lit "2024-01-01")) 3)) = 0
  /\ maintainStreak (lit "2024-01-01") yesterdayActive = yesterdayActive.
Proof.
  split; [|split].
  - destruct (maintainStreak_reconciles (lit "2024-01-02") yesterdayActive) as [D _].
    destruct D as (Y & _); [vm_compute; discriminate|].
    rewrite Y; [reflexivity|].
    left. eexists. split; [left; reflexivity | reflexivity].
  - destruct (maintainStreak_reconciles (lit "2024-01-02")
                (with_streak (blank (lit "2024-01-01")) 3)) as [D _].
    destruct D as (_ & N & _); [vm_compute; discriminate|].
    apply N. intros [(s & [] & _)|[(h & k & Hh & _)|(m & [] & _)]].
    cbn in Hh. rewrite lookup_empty in Hh. discriminate.
  - destruct (maintainStreak_reconciles (lit "2024-01-01") yesterdayActive) as [_ S].
    apply S. reflexivity.
Defined.

(** ** Mood entries *)

Lemma findIndex_range {A : Type} (p : A -> bool) (l : list A) :
  -1 <= findIndex p l < Z.of_nat (length l).
Proof.
  induction l as [|x l IH]; cbn [findIndex length]; [lia|].
  destruct (p x); [lia|].
  destruct (Z.ltb_spec (findIndex p l) 0); lia.
Qed.

Lemma findIndex_none {A : Type} (p : A -> bool) (l : list A) :
  findIndex p l < 0 <-> forall x, In x l -> p x = false.
Proof.
  induction l as [|x l IH]; cbn [findIndex].
  - split; [intros _ y []|lia].
  - destruct (p x) eqn:Ex.
    + split; [lia|]. intros H. specialize (H x (or_introl eq_refl)). congruence.
    + pose proof (findIndex_range p l) as Hr.
      destruct (Z.ltb_spec (findIndex p l) 0) as [Hlt|Hge].
      * split; [|lia]. intros _ y [<-|Hy]; [exact Ex|]. apply IH; [lia|exact Hy].
      * split; [lia|]. intros H. exfalso.
        assert (findIndex p l < 0); [|lia].
        apply IH. intros y Hy. apply H. right. exact Hy.
Qed.

Lemma findIndex_found {A : Type} (p : A -> bool) (l : list A) :
  0 <= findIndex p l ->
  exists x, l !! Z.to_nat (findIndex p l) = Some x /\ p x = true
            /\ forall j y, (j < Z.to_nat (findIndex p l))%nat -> l !! j = Some y -> p y = false.
Proof.
  induction l as [|x l IH]; cbn [findIndex]; [lia|].
  destruct (p x) eqn:Ex.
  - intros _. exists x. split; [reflexivity|]. split; [exact Ex|].
    intros j y Hj. cbn in Hj. lia.
  - destruct (Z.ltb_spec (findIndex p l) 0) as [Hlt|Hge]; [lia|].
    intros _. destruct (IH Hge) as (y & Hy & Py & Hfirst).
    exists y. replace (Z.to_nat (findIndex p l + 1)) with (S (Z.to_nat (findIndex p l))) by lia.
    split; [exact Hy|]. split; [exact Py|].
    intros [|j] z Hj Hz; cbn in Hz.
    + injection Hz as <-. exact Ex.
    + apply (Hfirst j); [lia|exact Hz].
Qed.

Lemma map_insert_same {A B : Type} (f : A -> B) (l : list A) (i : nat) (x y : A) :
  l !! i = Some x -> f x = f y -> List.map f (<[i := y]> l) = List.map f l.
Proof.
  revert i. induction l as [|a l IH]; intros [|i] Hx E; cbn in *; try discriminate.
  - injection Hx as ->. rewrite E. reflexivity.
  - f_equal. apply IH; assumption.
Qed.

Lemma saveMood_moods (today : str) (w : App) :
  truthy (moodSelect (el w)) || truthy (trim (reflectionInput (el w))) = true ->
  moods (saveMood today w)
  = let entry := MoodEntry.mk today (moodSelect (el w)) (trim (reflectionInput (el w))) in
    let idx := findIndex (fun m => bool_decide (MoodEntry.dateISO m = today)) (moods w) in
    if 0 <=? idx then <[Z.to_nat idx := entry]> (moods w) else moods w ++ [entry].
Proof.
  intros Acc. unfold saveMood.
  destruct (truthy (moodSelect (el w))), (truthy (trim (reflectionInput (el w))));
    try discriminate; reflexivity.
Qed.

Lemma saveMood_rejected (today : str) (w : App) :
  truthy (moodSelect (el w)) || truthy (trim (reflectionInput (el w))) = false ->
  saveMood today w = toast (lit "Pick a mood or write a reflection.") w.
Proof.
  intros Rej. unfold saveMood.
  destruct (truthy (moodSelect (el w))), (truthy (trim (reflectionInput (el w))));
    try discriminate; reflexivity.
Qed.

(** C6.  If no two mood entries carry the same date, the same holds after
    [saveMood].  When a mood or a reflection is entered and an entry of today
    exists, that entry (the first one of today's date) is replaced where it
    stands and the number of entries stays the same; when none exists, the
    new entry is added at the end and the number of entries grows by 1. *)
Theorem saveMood_one_entry_per_date (today : str) (w : App) :
  NoDup (List.map MoodEntry.dateISO (moods w)) ->
  NoDup (List.map MoodEntry.dateISO (moods (saveMood today w)))
  /\ (truthy (moodSelect (el w)) || truthy (trim (reflectionInput (el w))) = true ->
      let entry := MoodEntry.mk today (moodSelect (el w)) (trim (reflectionInput (el w))) in
      ((exists m, In m (moods w) /\ MoodEntry.dateISO m = today) ->
         exists i old,
           moods w !! i = Some old /\ MoodEntry.dateISO old = today
           /\ moods (saveMood today w) = <[i := entry]> (moods w)
           /\ moods (saveMood today w) !! i = Some entry
           /\ length (moods (saveMood today w)) = length (moods w))
      /\ ((forall m, In m (moods w) -> MoodEntry.dateISO m <> today) ->
          moods (saveMood today w) = moods w ++ [entry]
          /\ length (moods (saveMood today w)) = S (length (moods w)))).
Proof.
  intros ND.
  set (p := fun m => bool_decide (MoodEntry.dateISO m = today)).
  destruct (truthy (moodSelect (el w)) || truthy (trim (reflectionInput (el w)))) eqn:Acc.
  2:{ rewrite saveMood_rejected by exact Acc. split; [exact ND|discriminate]. }
  rewrite (saveMood_moods today w Acc). cbv zeta. fold p.
  destruct (Z.leb_spec 0 (findIndex p (moods w))) as [Hfound|Hnone].
  - destruct (findIndex_found p (moods w) Hfound) as (old & Hold & Pold & _).
    apply bool_decide_eq_true in Pold.
    split.
    { erewrite map_insert_same; [exact ND|exact Hold|exact Pold]. }
    intros _. split.
    + intros _. exists (Z.to_nat (findIndex p (moods w))), old.
      split; [exact Hold|]. split; [exact Pold|]. split; [reflexivity|].
      split; [|apply length_insert].
      apply list_lookup_insert_eq. apply lookup_lt_Some in Hold. exact Hold.
    + intros Hno. exfalso. apply (Hno old); [|exact Pold].
      apply list_elem_of_In. apply list_elem_of_lookup. eauto.
  - assert (Hno : forall m, In m (moods w) -> MoodEntry.dateISO m <> today).
    { intros m Hm. assert (p m = false) as Pm.
      { apply (findIndex_none p (moods w)); [lia|exact Hm]. }
      apply bool_decide_eq_false in Pm. exact Pm. }
    split.
    { rewrite List.map_app. cbn. apply NoDup_app. split; [exact ND|].
      split; [|apply NoDup_singleton].
      intros d Hd Hd'. apply list_elem_of_In in Hd. apply List.in_map_iff in Hd.
      destruct Hd as (m & Em & Hm). apply list_elem_of_singleton in Hd'.
      subst d. apply (Hno m Hm). exact Hd'. }
    intros _. split.
    + intros (m & Hm & Em). exfalso. exact (Hno m Hm Em).
    + intros _. split; [reflexivity|]. rewrite length_app. cbn. lia.
Qed.

Lemma saveMood_one_entry_per_date_witness :
  moods (saveMood (lit "2024-01-02") moodToday)
  = [MoodEntry.mk (lit "2024-01-02") (lit "great") (lit "fine")].
Proof.
  destruct (saveMood_one_entry_per_date (lit "2024-01-02") moodToday) as [_ H].
  - apply NoDup_singleton.
  - destruct (H eq_refl) as [R _].
    destruct R as (i & old & Hi & _ & E & _).
    + eexists. split; [left; reflexivity|reflexivity].
    + rewrite E. destruct i as [|i]; [reflexivity|].
      cbn in Hi. destruct i; discriminate.
Defined.

(** ** The countdown *)

Lemma timer_ok_blank (today : str) : timer_ok (blank today).
Proof. reflexivity. Qed.

Lemma pauseTimer_intervals (w : App) : timer_ok w -> intervals (pauseTimer w) = [].
Proof.
  unfold timer_ok, pauseTimer. cbn.
  destruct (running (timer w)).
  - intros (h & -> & E). cbn. rewrite E. cbn. rewrite Pos.eqb_refl. reflexivity.
  - intros E. destruct (intervalId (timer w)); cbn; rewrite E; reflexivity.
Qed.

Lemma timer_ok_pauseTimer (w : App) : timer_ok w -> timer_ok (pauseTimer w).
Proof.
  intros H. unfold timer_ok. rewrite pauseTimer_running.
  apply pauseTimer_intervals. exact H.
Qed.

Lemma timer_ok_resetTimer (w : App) : timer_ok w -> timer_ok (resetTimer w).
Proof.
  intros H. unfold timer_ok, resetTimer. cbn. rewrite pauseTimer_running.
  apply pauseTimer_intervals. exact H.
Qed.

Lemma startTimer_idle (w : App) (r : Z) :
  running (timer w) = false -> intervals w = [] -> remainingSec (timer w) = Num r ->
  countingDown (startTimer w) (nextHandle w) r (points w).
Proof.
  intros R I E. unfold startTimer, countingDown. rewrite R. cbn. rewrite I, E.
  repeat split.
Qed.

Lemma timer_ok_startTimer (w : App) : timer_ok w -> timer_ok (startTimer w).
Proof.
  unfold timer_ok, startTimer. destruct (running (timer w)) eqn:R.
  - rewrite R. auto.
  - intros I. cbn. rewrite I. eauto.
Qed.

Lemma onTick_remainingSec (w : App) :
  remainingSec (timer (onTick w))
  = Math_max (Num 0) (num_sub (remainingSec (timer w)) (Num 1)).
Proof.
  unfold onTick. cbn.
  destruct (num_strict_eq _ _); [|reflexivity].
  unfold toast, awardPoints, set. cbn. rewrite pauseTimer_remainingSec. reflexivity.
Qed.

Lemma second_countingDown (w : App) (h : positive) (r : Z) (p : num) :
  countingDown w h r p -> second w = onTick w.
Proof.
  intros (_ & I & _). unfold second, tick. rewrite I. cbn. rewrite I. cbn.
  rewrite Pos.eqb_refl. reflexivity.
Qed.

Lemma second_idle (w : App) : intervals w = [] -> second w = w.
Proof. intros I. unfold second. rewrite I. reflexivity. Qed.

Lemma seconds_idle (n : nat) (w : App) : intervals w = [] -> seconds n w = w.
Proof.
  induction n as [|n IH]; intros I; cbn; [reflexivity|].
  rewrite second_idle by exact I. apply IH. exact I.
Qed.

Lemma seconds_add (a b : nat) (w : App) :
  seconds (a + b) w = seconds b (seconds a w).
Proof.
  revert w. induction a as [|a IH]; intros w; cbn; [reflexivity|]. apply IH.
Qed.

(** A tick with more than one second left only takes one second off. *)
Lemma onTick_continue (w : App) (h : positive) (r : Z) (p : num) :
  countingDown w h r p -> 1 < r -> countingDown (onTick w) h (r - 1) p.
Proof.
  intros (T & I & P) Hr. unfold onTick, countingDown. rewrite T. cbn.
  rewrite Z.max_r by lia.
  destruct (Z.eqb_spec (r - 1) 0); [lia|]. cbn. auto.
Qed.

(** A tick with at most one second left stops the timer and awards 5
    points. *)
Lemma onTick_complete (w : App) (h : positive) (r : Z) (p : num) :
  countingDown w h r p -> r <= 1 ->
  completed (onTick w) (num_add p (Num 5))
  /\ toasts (onTick w) = lit "Timer done! +5 pts" :: toasts w
  /\ localStorage (onTick w) !! STORAGE_KEYS.points = Some (StoredNum (num_add p (Num 5))).
Proof.
  intros (T & I & P) Hr. unfold onTick, completed. rewrite T. cbn.
  rewrite Z.max_l by lia. cbn. unfold pauseTimer. cbn.
  rewrite I. cbn. rewrite Pos.eqb_refl. cbn. rewrite P.
  repeat split. apply lookup_insert_eq.
Qed.

Lemma seconds_countingDown (k : nat) :
  forall (w : App) (h : positive) (r : Z) (p : num),
    countingDown w h r p -> Z.of_nat k < r ->
    countingDown (seconds k w) h (r - Z.of_nat k) p.
Proof.
  induction k as [|k IH]; intros w h r p C Hk.
  - cbn [seconds]. replace (r - Z.of_nat 0) with r by lia. exact C.
  - cbn [seconds]. rewrite (second_countingDown w h r p C).
    replace (r - Z.of_nat (S k)) with (r - 1 - Z.of_nat k) by lia.
    apply IH; [apply onTick_continue; [exact C|lia] | lia].
Qed.

Lemma timer_ok_same (w w' : App) :
  timer w' = timer w -> intervals w' = intervals w -> timer_ok w -> timer_ok w'.
Proof. unfold timer_ok. intros -> ->. auto. Qed.

Lemma timer_ok_onTick (w : App) : timer_ok w -> timer_ok (onTick w).
Proof.
  intros OK. unfold onTick.
  set (w1 := with_timer w _).
  assert (OK1 : timer_ok w1).
  { unfold timer_ok in *. subst w1. cbn. exact OK. }
  destruct (num_strict_eq _ _); [|exact OK1].
  apply (timer_ok_same (pauseTimer w1)); [reflexivity|reflexivity|].
  apply timer_ok_pauseTimer. exact OK1.
Qed.

Lemma timer_ok_tick (h : positive) (w : App) : timer_ok w -> timer_ok (tick h w).
Proof.
  intros OK. unfold tick. destruct (existsb _ _); [apply timer_ok_onTick|]; exact OK.
Qed.

Lemma timer_ok_awardPoints (n : num) (w : App) : timer_ok w -> timer_ok (awardPoints n w).
Proof. apply timer_ok_same; reflexivity. Qed.

Lemma timer_ok_logSession (today : str) (w : App) :
  timer_ok w -> timer_ok (logSession today w).
Proof.
  apply timer_ok_same; rewrite logSession_eq;
    destruct (num_le (elapsedMinutes w) (Num 0)); reflexivity.
Qed.

Lemma timer_ok_saveMood (today : str) (w : App) :
  timer_ok w -> timer_ok (saveMood today w).
Proof.
  apply timer_ok_same; unfold saveMood;
    destruct (negb (truthy (moodSelect (el w)))
              && negb (truthy (trim (reflectionInput (el w))))); reflexivity.
Qed.

Lemma timer_ok_toggleHabit (today key : str) (checked : bool) (w : App) :
  timer_ok w -> timer_ok (toggleHabit today key checked w).
Proof. apply timer_ok_same; unfold toggleHabit; destruct checked; reflexivity. Qed.

Lemma timer_ok_maintainStreak (today : str) (w : App) :
  timer_ok w -> timer_ok (maintainStreak today w).
Proof.
  apply timer_ok_same; unfold maintainStreak;
    destruct (negb (sameDay (lastDate w) today)); reflexivity.
Qed.

(** In every state the script can reach, the scheduled callbacks are the
    one of the running timer, or none. *)
Lemma timer_ok_reachable (w : App) : reachable w -> timer_ok w.
Proof.
  induction 1 as [today w [T I]|e w _ IH].
  - unfold boot. apply (timer_ok_same (resetTimer (maintainStreak today w)));
      [reflexivity|reflexivity|].
    apply timer_ok_resetTimer, timer_ok_maintainStreak.
    unfold timer_ok. rewrite T. exact I.
  - destruct e; cbn [handle].
    + apply timer_ok_startTimer, IH.
    + apply timer_ok_pauseTimer, IH.
    + apply timer_ok_resetTimer, IH.
    + apply timer_ok_logSession, IH.
    + apply timer_ok_saveMood, IH.
    + apply timer_ok_toggleHabit, IH.
    + revert IH. apply timer_ok_same; reflexivity.
    + revert IH. apply timer_ok_same; reflexivity.
    + apply timer_ok_tick, IH.
Qed.

Lemma resetTimer_idle (w : App) (n : Z) :
  timer_ok w ->
  parseInt (or_else (timerMinutesInput (el w)) (lit "25")) = Num n ->
  running (timer (resetTimer w)) = false
  /\ intervals (resetTimer w) = []
  /\ remainingSec (timer (resetTimer w)) = Num (Z.max 1 n * 60)
  /\ points (resetTimer w) = points w.
Proof.
  intros OK E. split; [|split; [|split]].
  - unfold resetTimer. cbn. apply pauseTimer_running.
  - unfold resetTimer. cbn. apply pauseTimer_intervals. exact OK.
  - rewrite resetTimer_remainingSec, E. reflexivity.
  - unfold resetTimer. cbn. apply pauseTimer_points.
Qed.

(** C4.  The minutes field reads as [n], with [60 n] below [2 ^ 53], where
    the script's numbers are whole; the timer is then configured to
    [max (1, n)] minutes, a positive number whatever the field holds.  After
    it is started the seconds pass without any other event.  Every tick
    before the last one leaves the timer running with one second less and
    the points untouched; every tick sets [remainingSec] to
    [max (0, remainingSec - 1)]; the tick number [60 max (1, n)] reaches 0,
    stops the timer, cancels the countdown and adds 5 points; from then on
    no tick is delivered, so the 5 points are added once. *)
Theorem timer_runs_to_completion (w : App) (n : Z) :
  timer_ok w ->
  parseInt (or_else (timerMinutesInput (el w)) (lit "25")) = Num n ->
  n * 60 < 2 ^ 53 ->
  (forall k : nat,
      (k < Z.to_nat (Z.max 1 n * 60))%nat ->
      remainingSec (timer (seconds k (startTimer (resetTimer w))))
      = Num (Z.max 1 n * 60 - Z.of_nat k)
      /\ running (timer (seconds k (startTimer (resetTimer w)))) = true
      /\ points (seconds k (startTimer (resetTimer w))) = points w
      /\ remainingSec (timer (second (seconds k (startTimer (resetTimer w)))))
         = Math_max (Num 0)
             (num_sub (remainingSec (timer (seconds k (startTimer (resetTimer w)))))
                      (Num 1)))
  /\ completed (seconds (Z.to_nat (Z.max 1 n * 60)) (startTimer (resetTimer w)))
               (num_add (points w) (Num 5))
  /\ toasts (seconds (Z.to_nat (Z.max 1 n * 60)) (startTimer (resetTimer w)))
     = lit "Timer done! +5 pts" :: toasts w
  /\ (forall j : nat,
         seconds (Z.to_nat (Z.max 1 n * 60) + j) (startTimer (resetTimer w))
         = seconds (Z.to_nat (Z.max 1 n * 60)) (startTimer (resetTimer w))).
Proof.
  intros OK E _.
  destruct (resetTimer_idle w n OK E) as (R & I & Rem & P).
  assert (Hm : 0 < Z.max 1 n) by lia.
  revert Rem Hm. generalize (Z.max 1 n). intros m Rem Hm.
  pose proof (startTimer_idle (resetTimer w) (m * 60) R I Rem) as C.
  rewrite P in C.
  set (w0 := startTimer (resetTimer w)) in *.
  set (h := nextHandle (resetTimer w)) in *.
  assert (T0 : toasts w0 = toasts w).
  { subst w0. unfold startTimer. rewrite R. cbn. unfold resetTimer. cbn.
    unfold pauseTimer. cbn. destruct (intervalId (timer w)); reflexivity. }
  assert (Tk : forall k : nat, Z.of_nat k < m * 60 -> toasts (seconds k w0) = toasts w).
  { intros k. induction k as [|k IH]; intros Hk; [exact T0|].
    replace (S k) with (k + 1)%nat by lia. rewrite seconds_add. cbn [seconds].
    assert (Ck : countingDown (seconds k w0) h (m * 60 - Z.of_nat k) (points w))
      by (apply seconds_countingDown; [exact C|lia]).
    rewrite (second_countingDown _ _ _ _ Ck).
    destruct Ck as (Tm & _ & _). unfold onTick. rewrite Tm. cbn.
    rewrite Z.max_r by lia.
    destruct (Z.eqb_spec (m * 60 - Z.of_nat k - 1) 0); [lia|].
    cbn. apply IH. lia. }
  split; [|split; [|split]].
  - intros k Hk.
    assert (Ck : countingDown (seconds k w0) h (m * 60 - Z.of_nat k) (points w))
      by (apply seconds_countingDown; [exact C|lia]).
    rewrite (second_countingDown _ _ _ _ Ck), onTick_remainingSec.
    destruct Ck as (Tm & _ & Pk). rewrite Tm. cbn. auto.
  - replace (Z.to_nat (m * 60)) with (Z.to_nat (m * 60 - 1) + 1)%nat by lia.
    rewrite seconds_add. cbn [seconds].
    assert (Ck : countingDown (seconds (Z.to_nat (m * 60 - 1)) w0) h 1 (points w)).
    { replace 1 with (m * 60 - Z.of_nat (Z.to_nat (m * 60 - 1))) at 2 by lia.
      apply seconds_countingDown; [exact C|lia]. }
    rewrite (second_countingDown _ _ _ _ Ck).
    apply (onTick_complete _ _ _ _ Ck). lia.
  - replace (Z.to_nat (m * 60)) with (Z.to_nat (m * 60 - 1) + 1)%nat by lia.
    rewrite seconds_add. cbn [seconds].
    assert (Ck : countingDown (seconds (Z.to_nat (m * 60 - 1)) w0) h 1 (points w)).
    { replace 1 with (m * 60 - Z.of_nat (Z.to_nat (m * 60 - 1))) at 2 by lia.
      apply seconds_countingDown; [exact C|lia]. }
    rewrite (second_countingDown _ _ _ _ Ck).
    destruct (onTick_complete _ _ _ _ Ck ltac:(lia)) as (_ & Tt & _).
    rewrite Tt. f_equal. apply Tk. lia.
  - intros j. rewrite seconds_add. apply seconds_idle.
    replace (Z.to_nat (m * 60)) with (Z.to_nat (m * 60 - 1) + 1)%nat by lia.
    rewrite seconds_add. cbn [seconds].
    assert (Ck : countingDown (seconds (Z.to_nat (m * 60 - 1)) w0) h 1 (points w)).
    { replace 1 with (m * 60 - Z.of_nat (Z.to_nat (m * 60 - 1))) at 2 by lia.
      apply seconds_countingDown; [exact C|lia]. }
    rewrite (second_countingDown _ _ _ _ Ck).
    destruct (onTick_complete _ _ _ _ Ck ltac:(lia)) as ((_ & _ & In & _) & _).
    exact In.
Qed.

Lemma timer_runs_to_completion_witness :
  points (seconds 60 (startTimer (resetTimer (minutesField (lit "0") (blank (lit "2024-01-02"))))))
  = Num 5
  /\ points (seconds 59 (startTimer (resetTimer (minutesField (lit "0") (blank (lit "2024-01-02"))))))
     = Num 0
  /\ seconds (60 + 600) (startTimer (resetTimer (minutesField (lit "0") (blank (lit "2024-01-02")))))
     = seconds 60 (startTimer (resetTimer (minutesField (lit "0") (blank (lit "2024-01-02"))))).
Proof.
  destruct (timer_runs_to_completion
              (minutesField (lit "0") (blank (lit "2024-01-02"))) 0)
    as (Run & (_ & _ & _ & Done) & _ & After).
  - apply timer_ok_blank.
  - vm_compute. reflexivity.
  - reflexivity.
  - split; [exact Done|]. split.
    + destruct (Run 59%nat) as (_ & _ & P & _); [vm_compute; lia|]. exact P.
    + exact (After 600%nat).
Defined.

Lemma restartAtZero_completes (w : App) :
  running (timer w) = false -> intervals w = [] -> remainingSec (timer w) = Num 0 ->
  countingDown (startTimer w) (nextHandle w) 0 (points w)
  /\ completed (restartAtZero w) (num_add (points w) (Num 5))
  /\ toasts (restartAtZero w) = lit "Timer done! +5 pts" :: toasts w.
Proof.
  intros R I Z0.
  pose proof (startTimer_idle w 0 R I Z0) as C.
  split; [exact C|]. unfold restartAtZero.
  rewrite (second_countingDown _ _ _ _ C).
  destruct (onTick_complete _ _ _ _ C ltac:(lia)) as (D & T & _).
  split; [exact D|]. rewrite T. f_equal.
  unfold startTimer. rewrite R. reflexivity.
Qed.

Lemma restartAtZero_iter (n : nat) (w : App) (p : Z) :
  running (timer w) = false -> intervals w = [] -> remainingSec (timer w) = Num 0 ->
  points w = Num p ->
  completed (Nat.iter n restartAtZero w) (Num (p + 5 * Z.of_nat n)).
Proof.
  intros R I Z0 P. induction n as [|n IH].
  - replace (p + 5 * Z.of_nat 0) with p by lia. cbn [Nat.iter].
    repeat split; assumption.
  - cbn [Nat.iter]. destruct IH as (Z1 & R1 & I1 & P1).
    destruct (restartAtZero_completes _ R1 I1 Z1) as (_ & D & _).
    rewrite P1 in D. cbn in D.
    replace (p + 5 * Z.of_nat (S n)) with (p + 5 * Z.of_nat n + 5) by lia.
    exact D.
Qed.

(** C10.  When [startTimer] is called on a stopped timer whose
    [remainingSec] is 0, a countdown is scheduled again; its first tick
    leaves [remainingSec] at 0, adds 5 points, shows the completion message
    and stops the timer again.  Nothing prevents a repetition: [n] such
    restarts in a row add [5 n] points. *)
Theorem startTimer_at_zero_awards_again (w : App) (p : Z) :
  timer_ok w ->
  running (timer w) = false ->
  remainingSec (timer w) = Num 0 ->
  points w = Num p ->
  running (timer (startTimer w)) = true
  /\ intervals (startTimer w) = [nextHandle w]
  /\ remainingSec (timer (second (startTimer w)))
     = Math_max (Num 0) (num_sub (Num 0) (Num 1))
  /\ remainingSec (timer (second (startTimer w))) = Num 0
  /\ points (second (startTimer w)) = Num (p + 5)
  /\ toasts (second (startTimer w)) = lit "Timer done! +5 pts" :: toasts w
  /\ running (timer (second (startTimer w))) = false
  /\ intervals (second (startTimer w)) = []
  /\ forall n : nat, points (Nat.iter n restartAtZero w) = Num (p + 5 * Z.of_nat n).
Proof.
  intros OK R Z0 P.
  assert (I : intervals w = []).
  { unfold timer_ok in OK. rewrite R in OK. exact OK. }
  destruct (restartAtZero_completes w R I Z0) as ((T & I' & _) & (Z1 & R1 & I1 & P1) & Ts).
  unfold restartAtZero in *. rewrite P in P1. cbn in P1.
  rewrite T. cbn. repeat split; try assumption.
  intros n. destruct (restartAtZero_iter n w p R I Z0 P) as (_ & _ & _ & Pn).
  exact Pn.
Qed.

Lemma startTimer_at_zero_awards_again_witness :
  points (second (startTimer afterFullRun)) = Num 10
  /\ points (Nat.iter 3 restartAtZero afterFullRun) = Num 20.
Proof.
  destruct (startTimer_at_zero_awards_again afterFullRun 5)
    as (_ & _ & _ & _ & P & _ & _ & _ & It).
  - vm_compute. reflexivity.
  - vm_compute. reflexivity.
  - vm_compute. reflexivity.
  - vm_compute. reflexivity.
  - split; [exact P | exact (It 3%nat)].
Defined.

(** ** Tag totals *)

Lemma tagMap_occurrences (ss : list Session.t) :
  tagMap ss = fold_left addTag (occurrences ss) [].
Proof.
  unfold tagMap. generalize ([] : jsobj) as o.
  induction ss as [|s ss IH]; intros o; [reflexivity|].
  cbn [fold_left occurrences flat_map]. rewrite fold_left_app, IH. f_equal.
  generalize o. induction (Session.tags s) as [|t ts IHt]; intros o'; [reflexivity|].
  cbn [fold_left List.map]. rewrite IHt. reflexivity.
Qed.

Lemma Zsum_app (a b : list Z) : Zsum (a ++ b) = Zsum a + Zsum b.
Proof. unfold Zsum. induction a as [|x a IH]; cbn; [reflexivity|]. rewrite IH. lia. Qed.

Lemma total_app (t : str) (a b : list (str * num)) :
  total t (a ++ b) = total t a + total t b.
Proof. unfold total. rewrite List.map_app. apply Zsum_app. Qed.

Lemma total_cons (t k : str) (m : num) (ps : list (str * num)) :
  total t ((k, m) :: ps) = (if bool_decide (k = t) then toZ m else 0) + total t ps.
Proof. reflexivity. Qed.

Lemma total_absent (t : str) (ps : list (str * num)) :
  ~ In t (List.map fst ps) -> total t ps = 0.
Proof.
  induction ps as [|[k m] ps IH]; intros H; [reflexivity|].
  rewrite total_cons.
  rewrite bool_decide_eq_false_2 by (intros E; apply H; left; exact E).
  rewrite IH; [reflexivity|]. intros C. apply H. right. exact C.
Qed.

Lemma total_occurrences (t : str) (ss : list Session.t) :
  total t (occurrences ss) = tagTotal t ss.
Proof.
  unfold tagTotal. induction ss as [|s ss IH]; [reflexivity|].
  cbn [occurrences flat_map List.map Zsum fold_right].
  rewrite total_app. fold (occurrences ss). rewrite IH. f_equal.
  unfold timesListed.
  induction (Session.tags s) as [|u us IHu]; [cbn; lia|].
  cbn [List.map List.filter]. rewrite total_cons, IHu.
  destruct (decide (u = t)) as [E|E].
  - rewrite !bool_decide_eq_true_2 by exact E. cbn [length]. lia.
  - rewrite !bool_decide_eq_false_2 by exact E. lia.
Qed.

Lemma or_zero_num (v : Z) : or_zero (Some (VNum (Num v))) = VNum (Num v).
Proof. cbn. destruct (Z.eqb_spec v 0) as [->|]; reflexivity. Qed.

Lemma own_present (g : str -> Z) (K : list str) (x : str) :
  In x K -> Object.own (List.map (entryOf g) K) x = Some (VNum (Num (g x))).
Proof.
  induction K as [|k K IH]; intros H; [destruct H|].
  cbn. destruct (decide (k = x)) as [->|Ne].
  - rewrite bool_decide_eq_true_2 by reflexivity. reflexivity.
  - rewrite bool_decide_eq_false_2 by exact Ne. apply IH.
    destruct H as [E|H]; [contradiction|exact H].
Qed.

Lemma own_absent (g : str -> Z) (K : list str) (x : str) :
  ~ In x K -> Object.own (List.map (entryOf g) K) x = None.
Proof.
  induction K as [|k K IH]; intros H; [reflexivity|].
  cbn. rewrite bool_decide_eq_false_2 by (intros E; apply H; left; exact E).
  apply IH. intros C. apply H. right. exact C.
Qed.

Lemma define_present (g : str -> Z) (K : list str) (x : str) (v : Z) :
  NoDup K -> In x K ->
  Object.define (List.map (entryOf g) K) x (VNum (Num v))
  = List.map (entryOf (fun t => if bool_decide (t = x) then v else g t)) K.
Proof.
  induction K as [|k K IH]; intros ND H; [destruct H|].
  apply NoDup_cons in ND. destruct ND as [Hk ND].
  cbn [List.map Object.define entryOf]. destruct (decide (k = x)) as [->|Ne].
  - rewrite !bool_decide_eq_true_2 by reflexivity.
    f_equal; [unfold entryOf; rewrite bool_decide_eq_true_2 by reflexivity; reflexivity|].
    apply List.map_ext_in. intros t Ht. unfold entryOf.
    rewrite bool_decide_eq_false_2; [reflexivity|].
    intros ->. apply Hk. apply list_elem_of_In. exact Ht.
  - rewrite !bool_decide_eq_false_2 by exact Ne.
    f_equal; [unfold entryOf; rewrite bool_decide_eq_false_2 by exact Ne; reflexivity|].
    apply IH; [exact ND|].
    destruct H as [E|H]; [contradiction|exact H].
Qed.

Lemma define_absent (g : str -> Z) (K : list str) (x : str) (v : val) :
  ~ In x K ->
  Object.define (List.map (entryOf g) K) x v = List.map (entryOf g) K ++ [(x, v)].
Proof.
  induction K as [|k K IH]; intros H; [reflexivity|].
  cbn [List.map Object.define entryOf app].
  rewrite bool_decide_eq_false_2 by (intros E; apply H; left; exact E).
  f_equal. apply IH. intros C. apply H. right. exact C.
Qed.

Lemma firstSeen_In (l : list str) (x : str) : In x (firstSeen l) <-> In x l.
Proof.
  induction l as [|a l IH]; [reflexivity|].
  cbn [firstSeen]. cbn [In]. rewrite List.filter_In, IH. split.
  - intros [E|[H _]]; auto.
  - intros [E|H]; [left; exact E|].
    destruct (decide (x = a)) as [->|Ne]; [left; reflexivity|].
    right. split; [exact H|]. rewrite bool_decide_eq_false_2 by exact Ne. reflexivity.
Qed.

Lemma NoDup_filter_bool {A : Type} (p : A -> bool) (l : list A) :
  NoDup l -> NoDup (List.filter p l).
Proof.
  induction l as [|a l IH]; intros ND; [exact ND|].
  apply NoDup_cons in ND. destruct ND as [Ha ND]. cbn.
  destruct (p a); [|apply IH; exact ND].
  apply NoDup_cons. split; [|apply IH; exact ND].
  intros C. apply Ha. apply list_elem_of_In in C. apply List.filter_In in C.
  apply list_elem_of_In. tauto.
Qed.

Lemma firstSeen_NoDup (l : list str) : NoDup (firstSeen l).
Proof.
  induction l as [|a l IH]; [constructor|].
  cbn [firstSeen]. apply NoDup_cons. split; [|apply NoDup_filter_bool; exact IH].
  intros C. apply list_elem_of_In in C. apply List.filter_In in C.
  destruct C as [_ C]. rewrite bool_decide_eq_true_2 in C by reflexivity. discriminate.
Qed.

Lemma firstSeen_snoc (l : list str) (x : str) :
  firstSeen (l ++ [x]) = firstSeen l ++ (if bool_decide (x ∈ l) then [] else [x]).
Proof.
  induction l as [|a l IH].
  - cbn. rewrite bool_decide_eq_false_2 by apply not_elem_of_nil. reflexivity.
  - cbn [app firstSeen]. rewrite IH, List.filter_app. f_equal. f_equal.
    destruct (decide (x = a)) as [->|Ne].
    + rewrite (bool_decide_eq_true_2 (a ∈ a :: l)) by (apply elem_of_cons; left; reflexivity).
      destruct (bool_decide (a ∈ l)); [reflexivity|].
      cbn. rewrite bool_decide_eq_true_2 by reflexivity. reflexivity.
    + destruct (decide (x ∈ l)) as [Hin|Hout].
      * rewrite !bool_decide_eq_true_2;
          [reflexivity|apply elem_of_cons; right; exact Hin|exact Hin].
      * rewrite !bool_decide_eq_false_2;
          [|intros C; apply elem_of_cons in C; destruct C; [congruence|tauto]|exact Hout].
        cbn. rewrite bool_decide_eq_false_2 by exact Ne. reflexivity.
Qed.

Lemma get_plain (o : jsobj) (x : str) :
  plainTag x = true -> Object.get o x = Object.own o x.
Proof.
  unfold plainTag, Object.get. intros P. apply andb_true_iff in P. destruct P as [P _].
  destruct (bool_decide (x ∈ Object.prototype_names)); [discriminate|].
  destruct (Object.own o x); reflexivity.
Qed.

Lemma put_plain (o : jsobj) (x : str) (v : val) :
  plainTag x = true -> Object.put o x v = Object.define o x v.
Proof.
  unfold plainTag, Object.put. intros P. apply andb_true_iff in P. destruct P as [P _].
  destruct (decide (x = lit "__proto__")) as [->|Ne]; [vm_compute in P; discriminate|].
  rewrite bool_decide_eq_false_2 by exact Ne. reflexivity.
Qed.

(** The loop builds, for tags that are plain, the list of the distinct tags
    in order of first encounter, each with the sum of the minutes met with
    it. *)
Lemma addTag_fold (ps : list (str * num)) :
  Forall (fun p => plainTag (fst p) = true /\ exists z, snd p = Num z) ps ->
  fold_left addTag ps []
  = List.map (entryOf (fun t => total t ps)) (firstSeen (List.map fst ps)).
Proof.
  induction ps as [|[x m] ps IH] using List.rev_ind; intros F; [reflexivity|].
  apply Forall_app in F. destruct F as [F Fx].
  apply Forall_cons in Fx. destruct Fx as [[Px (z & Ez)] _]. cbn in Px, Ez. subst m.
  rewrite fold_left_app, (IH F). cbn [fold_left]. unfold addTag. cbn [fst snd].
  rewrite List.map_app. cbn [List.map fst]. rewrite firstSeen_snoc.
  rewrite put_plain, get_plain by exact Px.
  set (K := firstSeen (List.map fst ps)).
  assert (G : forall t, total t (ps ++ [(x, Num z)])
                        = total t ps + (if bool_decide (x = t) then z else 0)).
  { intros t. rewrite total_app, total_cons. cbn. lia. }
  destruct (decide (x ∈ List.map fst ps)) as [Hin|Hout].
  - rewrite bool_decide_eq_true_2 by exact Hin. rewrite List.app_nil_r.
    assert (InK : In x K) by (apply firstSeen_In, list_elem_of_In; exact Hin).
    rewrite own_present by exact InK.
    rewrite or_zero_num. cbn [plus num_add].
    rewrite define_present by (try apply firstSeen_NoDup; exact InK).
    apply List.map_ext. intros t. unfold entryOf. rewrite G.
    destruct (decide (t = x)) as [->|Ne].
    + rewrite !bool_decide_eq_true_2 by reflexivity. reflexivity.
    + rewrite !bool_decide_eq_false_2 by congruence. do 3 f_equal. lia.
  - rewrite bool_decide_eq_false_2 by exact Hout.
    assert (OutK : ~ In x K).
    { intros C. apply Hout. apply list_elem_of_In. apply firstSeen_In. exact C. }
    rewrite own_absent by exact OutK. cbn [or_zero plus num_add].
    rewrite define_absent by exact OutK.
    rewrite List.map_app. cbn [List.map]. f_equal.
    + apply List.map_ext_in. intros t Ht. unfold entryOf. rewrite G.
      rewrite bool_decide_eq_false_2 by (intros ->; contradiction).
      do 3 f_equal. lia.
    + unfold entryOf. rewrite G. rewrite bool_decide_eq_true_2 by reflexivity.
      rewrite total_absent; [reflexivity|].
      intros C. apply Hout. apply list_elem_of_In. exact C.
Qed.

(** *** Sorting by a weight, largest first *)

Section SortDescending.
Context {A : Type} (weight : A -> Z).

Lemma sortInsert_byWeight (x y : A) (r : list A) :
  sortInsert (byWeight weight) x (y :: r)
  = if weight x <? weight y then y :: sortInsert (byWeight weight) x r else x :: y :: r.
Proof.
  cbn. destruct (Z.ltb_spec 0 (weight y - weight x)), (Z.ltb_spec (weight x) (weight y));
    try reflexivity; lia.
Qed.

Lemma sortInsert_perm (x : A) (l : list A) :
  Permutation (sortInsert (byWeight weight) x l) (x :: l).
Proof.
  induction l as [|y r IH]; [reflexivity|].
  rewrite sortInsert_byWeight. destruct (weight x <? weight y); [|reflexivity].
  rewrite IH. apply perm_swap.
Qed.

Lemma Array_sort_perm (l : list A) : Permutation (Array_sort (byWeight weight) l) l.
Proof.
  induction l as [|x l IH]; [reflexivity|].
  cbn [Array_sort fold_right]. fold (Array_sort (byWeight weight) l).
  rewrite sortInsert_perm, IH. reflexivity.
Qed.





End SortDescending.

Lemma sortInsert_entryOf (g : str -> Z) (x : str) (l : list str) :
  sortInsert (fun a b => num_sub (ToNumber (snd b)) (ToNumber (snd a)))
             (entryOf g x) (List.map (entryOf g) l)
  = List.map (entryOf g) (sortInsert (byWeight g) x l).
Proof.
  induction l as [|y r IH]; [reflexivity|].
  cbn [List.map sortInsert]. rewrite IH.
  change (num_sub (ToNumber (entryOf g y).2) (ToNumber (entryOf g x).2))
    with (byWeight g x y).
  destruct (num_lt (Num 0) (byWeight g x y)); reflexivity.
Qed.

Lemma Array_sort_entryOf (g : str -> Z) (l : list str) :
  Array_sort (fun a b => num_sub (ToNumber (snd b)) (ToNumber (snd a)))
             (List.map (entryOf g) l)
  = List.map (entryOf g) (Array_sort (byWeight g) l).
Proof.
  induction l as [|x l IH]; [reflexivity|].
  cbn [List.map Array_sort fold_right].
  change (fold_right (sortInsert ?c) [] ?k) with (Array_sort c k).
  rewrite IH. apply sortInsert_entryOf.
Qed.

Lemma plainTag_not_index (t : str) : plainTag t = true -> Object.arrayIndex t = None.
Proof.
  unfold plainTag. intros P. apply andb_true_iff in P. destruct P as [_ P].
  destruct (Object.arrayIndex t); [discriminate|reflexivity].
Qed.

Lemma indexed_plain (g : str -> Z) (K : list str) :
  Forall (fun t => plainTag t = true) K ->
  Object.indexed (List.map (entryOf g) K) = [].
Proof.
  intros F. unfold Object.indexed.
  induction F as [|t K Pt F IH]; [reflexivity|].
  cbn [List.map flat_map entryOf fst]. rewrite (plainTag_not_index t Pt). exact IH.
Qed.

Lemma filter_plain (g : str -> Z) (K : list str) :
  Forall (fun t => plainTag t = true) K ->
  List.filter (fun kv => negb (bool_decide (is_Some (Object.arrayIndex (fst kv)))))
              (List.map (entryOf g) K)
  = List.map (entryOf g) K.
Proof.
  intros F. induction F as [|t K Pt F IH]; [reflexivity|].
  cbn [List.map List.filter entryOf fst]. rewrite (plainTag_not_index t Pt).
  rewrite bool_decide_eq_false_2 by (intros [? C]; discriminate).
  cbn [negb]. f_equal. exact IH.
Qed.

Lemma entries_plain (g : str -> Z) (K : list str) :
  Forall (fun t => plainTag t = true) K ->
  Object.entries (List.map (entryOf g) K) = List.map (entryOf g) K.
Proof.
  intros F. unfold Object.entries.
  rewrite indexed_plain, filter_plain by exact F. reflexivity.
Qed.

Lemma fromEntries_entryOf (g : str -> Z) (K : list str) :
  NoDup K -> Object.fromEntries (List.map (entryOf g) K) = List.map (entryOf g) K.
Proof.
  unfold Object.fromEntries.
  enough (G : forall K2 K1, NoDup (K1 ++ K2) ->
              fold_left (fun o kv => Object.define o (fst kv) (snd kv))
                        (List.map (entryOf g) K2) (List.map (entryOf g) K1)
              = List.map (entryOf g) (K1 ++ K2)).
  { intros ND. apply (G K []). exact ND. }
  induction K2 as [|k K2 IH]; intros K1 ND.
  - rewrite List.app_nil_r. reflexivity.
  - cbn [List.map fold_left entryOf fst snd].
    assert (Out : ~ In k K1).
    { apply NoDup_app in ND. destruct ND as (_ & D & _).
      intros C. apply (D k); [apply list_elem_of_In; exact C|].
      apply elem_of_cons. left. reflexivity. }
    rewrite define_absent by exact Out.
    change [(k, VNum (Num (g k)))] with (List.map (entryOf g) [k]).
    rewrite <- List.map_app, IH; rewrite <- List.app_assoc; [reflexivity|exact ND].
Qed.

Lemma Array_slice0_take {A : Type} (l : list A) (e : Z) :
  0 <= e -> Array_slice0 l e = take (Z.to_nat e) l.
Proof.
  intros He. unfold Array_slice0.
  destruct (Z.ltb_spec e 0); [lia|].
  destruct (Z.le_gt_cases e (Z.of_nat (length l))) as [Le|Gt].
  - rewrite Z.min_l by lia. reflexivity.
  - rewrite Z.min_r by lia. rewrite !take_ge by lia. reflexivity.
Qed.

(** *** The result of [aggregateTags] *)

Lemma occurrences_fst (ss : list Session.t) :
  List.map fst (occurrences ss) = allTags ss.
Proof.
  unfold occurrences, allTags. induction ss as [|s ss IH]; [reflexivity|].
  cbn [flat_map]. rewrite List.map_app, IH. f_equal.
  rewrite List.map_map. cbn. apply List.map_id.
Qed.

Lemma occurrences_plain (ss : list Session.t) :
  Forall plainSession ss ->
  Forall (fun p => plainTag (fst p) = true /\ exists z, snd p = Num z) (occurrences ss).
Proof.
  intros F. unfold occurrences. induction F as [|s ss [Hm Ht] F IH]; [constructor|].
  cbn [flat_map]. apply Forall_app. split; [|exact IH].
  induction Ht as [|t ts Pt Ht IHt]; [constructor|].
  cbn [List.map]. constructor; [|exact IHt]. split; [exact Pt|exact Hm].
Qed.

Lemma allTags_plain (ss : list Session.t) :
  Forall plainSession ss -> Forall (fun t => plainTag t = true) (allTags ss).
Proof.
  intros F. unfold allTags. induction F as [|s ss [_ Ht] F IH]; [constructor|].
  cbn [flat_map]. apply Forall_app. split; assumption.
Qed.

Lemma tagMap_plain (ss : list Session.t) :
  Forall plainSession ss ->
  tagMap ss = List.map (entryOf (fun t => tagTotal t ss)) (firstSeen (allTags ss)).
Proof.
  intros F. rewrite tagMap_occurrences, addTag_fold by (apply occurrences_plain; exact F).
  rewrite occurrences_fst. apply List.map_ext. intros t. unfold entryOf.
  rewrite total_occurrences. reflexivity.
Qed.





(** The example of the specification: 30 minutes for a and 30 for b. *)
Example aggregateTags_a_b :
  Object.entries (aggregateTags 8 taggedAB)
  = [(lit "a", VNum (Num 30)); (lit "b", VNum (Num 30))].
Proof. vm_compute. reflexivity. Qed.


(** Outside the scope of the theorem above: a tag that is an array index is
    listed before the other tags whatever its total. *)
Example aggregateTags_index_tag :
  Object.entries
    (aggregateTags 8
       (withSessions [Session.mk (lit "2024-01-02") (Num 10) (lit "x") [lit "1"];
                      Session.mk (lit "2024-01-02") (Num 30) (lit "y") [lit "a"]]))
  = [(lit "1", VNum (Num 10)); (lit "a", VNum (Num 30))].
Proof. vm_compute. reflexivity. Qed.

(** * Further properties of the script *)

(** ** The timer between events *)

Lemma onTick_el (w : App) : el (onTick w) = el w.
Proof.
  unfold onTick. cbn. destruct (num_strict_eq _ _); [|reflexivity].
  cbn. rewrite pauseTimer_el. reflexivity.
Qed.

Lemma second_el (w : App) : el (second w) = el w.
Proof.
  unfold second. generalize (intervals w) as l. intros l. revert w.
  induction l as [|h l IH]; intros w; [reflexivity|].
  cbn [fold_left]. rewrite IH. unfold tick.
  destruct (existsb _ _); [apply onTick_el|reflexivity].
Qed.

Lemma seconds_el (n : nat) (w : App) : el (seconds n w) = el w.
Proof.
  revert w. induction n as [|n IH]; intros w; [reflexivity|].
  cbn [seconds]. rewrite IH. apply second_el.
Qed.

Lemma startTimer_el (w : App) : el (startTimer w) = el w.
Proof. unfold startTimer. destruct (running (timer w)); reflexivity. Qed.

Lemma resetTimer_el (w : App) : el (resetTimer w) = el w.
Proof. unfold resetTimer. cbn. apply pauseTimer_el. Qed.

Lemma remainingOk_onTick (w : App) : remainingOk (onTick w).
Proof.
  unfold remainingOk. rewrite onTick_remainingSec.
  destruct (remainingSec (timer w)); cbn; [exact I|lia].
Qed.

Lemma remainingOk_tick (h : positive) (w : App) : remainingOk w -> remainingOk (tick h w).
Proof.
  intros OK. unfold tick. destruct (existsb _ _); [apply remainingOk_onTick|exact OK].
Qed.

Lemma remainingOk_resetTimer (w : App) : remainingOk (resetTimer w).
Proof.
  unfold remainingOk. rewrite resetTimer_remainingSec.
  destruct (parseInt _); cbn; [exact I|lia].
Qed.

Lemma remainingOk_same (w w' : App) :
  timer w' = timer w -> remainingOk w -> remainingOk w'.
Proof. unfold remainingOk. intros ->. auto. Qed.

Lemma remainingOk_reachable (w : App) : reachable w -> remainingOk w.
Proof.
  induction 1 as [today w [T I]|e w _ IH].
  - unfold boot. apply (remainingOk_same (resetTimer (maintainStreak today w)));
      [reflexivity|]. apply remainingOk_resetTimer.
  - destruct e; cbn [handle].
    + revert IH. unfold remainingOk, startTimer.
      destruct (running (timer w)); cbn; auto.
    + revert IH. unfold remainingOk. rewrite pauseTimer_remainingSec. auto.
    + apply remainingOk_resetTimer.
    + revert IH. apply remainingOk_same. rewrite logSession_eq.
      destruct (num_le (elapsedMinutes w) (Num 0)); reflexivity.
    + revert IH. apply remainingOk_same. unfold saveMood.
      destruct (negb (truthy (moodSelect (el w)))
                && negb (truthy (trim (reflectionInput (el w))))); reflexivity.
    + revert IH. apply remainingOk_same. unfold toggleHabit. destruct checked; reflexivity.
    + revert IH. apply remainingOk_same. reflexivity.
    + revert IH. apply remainingOk_same. reflexivity.
    + apply remainingOk_tick, IH.
Qed.

(** X1.  In every state the script reaches from its start through clicks,
    edits and interval callbacks: a callback is scheduled exactly while the
    timer runs, it is the one [timer.intervalId] names, never two at once; a
    stopped timer has none; and [remainingSec] is never below zero. *)
Theorem reachable_timer_invariant (w : App) :
  reachable w ->
  (running (timer w) = true ->
   exists h, intervalId (timer w) = Some h /\ intervals w = [h])
  /\ (running (timer w) = false -> intervals w = [])
  /\ (length (intervals w) <= 1)%nat
  /\ (forall r, remainingSec (timer w) = Num r -> 0 <= r).
Proof.
  intros R. pose proof (timer_ok_reachable w R) as OK.
  pose proof (remainingOk_reachable w R) as RO.
  unfold timer_ok in OK. unfold remainingOk in RO.
  split; [|split; [|split]].
  - intros E. rewrite E in OK. exact OK.
  - intros E. rewrite E in OK. exact OK.
  - destruct (running (timer w)).
    + destruct OK as (h & _ & ->). cbn. lia.
    + rewrite OK. cbn. lia.
  - intros r E. rewrite E in RO. exact RO.
Qed.

Lemma reachable_timer_invariant_witness :
  intervals (handle (Interval 1) (handle ClickStart (boot (lit "2024-01-02")
                                                         (blank (lit "2024-01-02")))))
  = [1%positive].
Proof.
  destruct (reachable_timer_invariant
              (handle (Interval 1) (handle ClickStart (boot (lit "2024-01-02")
                                                            (blank (lit "2024-01-02"))))))
    as (Run & _).
  - apply reachable_event, reachable_event, reachable_boot. split; reflexivity.
  - destruct Run as (h & Eh & Ih); [vm_compute; reflexivity|].
    rewrite Ih. f_equal. vm_compute in Eh. injection Eh as <-. reflexivity.
Defined.

(** A running countdown with [r > 0] seconds left, left alone, counts down,
    completes at second [r] with 5 points more, and is silent afterwards. *)
Lemma countingDown_completes (w : App) (h : positive) (r : Z) (p : num) :
  countingDown w h r p -> 0 < r ->
  (forall k : nat, Z.of_nat k < r -> points (seconds k w) = p)
  /\ completed (seconds (Z.to_nat r) w) (num_add p (Num 5))
  /\ (forall j : nat, seconds (Z.to_nat r + j) w = seconds (Z.to_nat r) w).
Proof.
  intros C Hr.
  assert (Last : countingDown (seconds (Z.to_nat (r - 1)) w) h 1 p).
  { replace 1 with (r - Z.of_nat (Z.to_nat (r - 1))) at 2 by lia.
    apply seconds_countingDown; [exact C|lia]. }
  assert (Done : completed (seconds (Z.to_nat r) w) (num_add p (Num 5))).
  { replace (Z.to_nat r) with (Z.to_nat (r - 1) + 1)%nat by lia.
    rewrite seconds_add. cbn [seconds].
    rewrite (second_countingDown _ _ _ _ Last).
    apply (onTick_complete _ _ _ _ Last). lia. }
  split; [|split].
  - intros k Hk. apply (seconds_countingDown k w h r p C Hk).
  - exact Done.
  - intros j. rewrite seconds_add. apply seconds_idle.
    destruct Done as (_ & _ & In & _). exact In.
Qed.

Lemma pauseTimer_twice (w : App) : pauseTimer (pauseTimer w) = pauseTimer w.
Proof.
  unfold pauseTimer. cbn. destruct (intervalId (timer w)) as [h|]; cbn; [|reflexivity].
  unfold clearInterval. cbn. f_equal.
  induction (intervals w) as [|x l IH]; [reflexivity|].
  cbn. destruct (Pos.eqb x h) eqn:E; cbn; [exact IH|].
  rewrite E. cbn. f_equal. exact IH.
Qed.

(** X2.  Pausing keeps the seconds left and the points, and from then on
    the passing of time changes nothing: no tick is delivered to a paused
    timer.  Pausing a paused timer changes nothing either.  The same silence
    follows a reset. *)
Theorem pauseTimer_freezes (w : App) (n : nat) :
  timer_ok w ->
  remainingSec (timer (pauseTimer w)) = remainingSec (timer w)
  /\ points (pauseTimer w) = points w
  /\ running (timer (pauseTimer w)) = false
  /\ seconds n (pauseTimer w) = pauseTimer w
  /\ pauseTimer (pauseTimer w) = pauseTimer w
  /\ seconds n (resetTimer w) = resetTimer w.
Proof.
  intros OK. split; [apply pauseTimer_remainingSec|].
  split; [apply pauseTimer_points|]. split; [apply pauseTimer_running|].
  split; [apply seconds_idle, pauseTimer_intervals, OK|].
  split; [apply pauseTimer_twice|].
  apply seconds_idle. unfold resetTimer. cbn. apply pauseTimer_intervals, OK.
Qed.

Lemma pauseTimer_freezes_witness :
  seconds 100 (pauseTimer (seconds 10 (startTimer (blank (lit "2024-01-02")))))
  = pauseTimer (seconds 10 (startTimer (blank (lit "2024-01-02")))).
Proof.
  destruct (pauseTimer_freezes (seconds 10 (startTimer (blank (lit "2024-01-02")))) 100)
    as (_ & _ & _ & F & _).
  - vm_compute. eexists. split; reflexivity.
  - exact F.
Defined.

Lemma sameLedger_refl (w : App) : sameLedger w w.
Proof. repeat split. Qed.

Lemma sameLedger_trans (a b c : App) : sameLedger a b -> sameLedger b c -> sameLedger a c.
Proof.
  unfold sameLedger. intros (A1 & A2 & A3 & A4 & A5 & A6) (B1 & B2 & B3 & B4 & B5 & B6).
  repeat split; congruence.
Qed.

Lemma sameLedger_pauseTimer (w : App) : sameLedger w (pauseTimer w).
Proof. unfold pauseTimer. cbn. destruct (intervalId (timer w)); repeat split. Qed.

Lemma sameLedger_startTimer (w : App) : sameLedger w (startTimer w).
Proof. unfold startTimer. destruct (running (timer w)); repeat split. Qed.

Lemma sameLedger_resetTimer (w : App) : sameLedger w (resetTimer w).
Proof.
  apply (sameLedger_trans _ (pauseTimer w)); [apply sameLedger_pauseTimer|].
  unfold resetTimer. repeat split.
Qed.

Lemma sameLedger_onTick (w : App) : sameLedger w (onTick w).
Proof.
  unfold onTick. cbn. destruct (num_strict_eq _ _); [|repeat split].
  set (w1 := with_timer w _).
  apply (sameLedger_trans _ w1); [repeat split|].
  apply (sameLedger_trans _ (pauseTimer w1)); [apply sameLedger_pauseTimer|].
  repeat split.
Qed.

Lemma sameLedger_second (w : App) : sameLedger w (second w).
Proof.
  unfold second. generalize (intervals w) as l. intros l.
  enough (G : forall w', sameLedger w w' ->
                         sameLedger w (fold_left (fun w'' h => tick h w'') l w')).
  { apply G, sameLedger_refl. }
  induction l as [|h l IH]; intros w' S; [exact S|].
  cbn [fold_left]. apply IH. apply (sameLedger_trans _ w' _ S).
  unfold tick. destruct (existsb _ _); [apply sameLedger_onTick|apply sameLedger_refl].
Qed.

Lemma sameLedger_seconds (n : nat) (w : App) : sameLedger w (seconds n w).
Proof.
  revert w. induction n as [|n IH]; intros w; [apply sameLedger_refl|].
  cbn [seconds]. apply (sameLedger_trans _ (second w)); [apply sameLedger_second|apply IH].
Qed.

Lemma sameLedger_runFor (k : nat) (w : App) : sameLedger w (runFor k w).
Proof.
  unfold runFor.
  apply (sameLedger_trans _ (resetTimer w)); [apply sameLedger_resetTimer|].
  apply (sameLedger_trans _ (startTimer (resetTimer w))); [apply sameLedger_startTimer|].
  apply sameLedger_seconds.
Qed.

Lemma runFor_start (w : App) (n : Z) :
  timer_ok w ->
  parseInt (or_else (timerMinutesInput (el w)) (lit "25")) = Num n ->
  0 < n ->
  countingDown (startTimer (resetTimer w)) (nextHandle (resetTimer w)) (n * 60) (points w).
Proof.
  intros OK E Hn.
  destruct (resetTimer_idle w n OK E) as (R & I & Rem & P).
  rewrite Z.max_r in Rem by lia. rewrite <- P.
  apply startTimer_idle; assumption.
Qed.

Lemma runFor_countingDown (k : nat) (w : App) (n : Z) :
  timer_ok w ->
  parseInt (or_else (timerMinutesInput (el w)) (lit "25")) = Num n ->
  0 < n -> Z.of_nat k < n * 60 ->
  countingDown (runFor k w) (nextHandle (resetTimer w)) (n * 60 - Z.of_nat k) (points w).
Proof.
  intros OK E Hn Hk. unfold runFor.
  apply seconds_countingDown; [apply runFor_start; assumption|exact Hk].
Qed.

Lemma runFor_completed (w : App) (n : Z) :
  timer_ok w ->
  parseInt (or_else (timerMinutesInput (el w)) (lit "25")) = Num n ->
  0 < n ->
  completed (runFor (Z.to_nat (n * 60)) w) (num_add (points w) (Num 5)).
Proof.
  intros OK E Hn. unfold runFor.
  apply (countingDown_completes _ _ _ _ (runFor_start w n OK E Hn)). lia.
Qed.

Lemma pauseTimer_countingDown (w : App) (h : positive) (r : Z) (p : num) :
  countingDown w h r p ->
  timer (pauseTimer w) = mkTimer (Num r) false (Some h)
  /\ intervals (pauseTimer w) = [] /\ points (pauseTimer w) = p.
Proof.
  intros (T & I & P). unfold pauseTimer. rewrite T. cbn. rewrite I. cbn.
  rewrite Pos.eqb_refl. auto.
Qed.

(** X3.  A countdown of [n] minutes, [60 n] below [2 ^ 53], that is paused
    after [k] seconds, left paused for any time and started again, goes on
    from the seconds that were left: it completes after [60 n - k] further
    seconds, with 5 points added at that moment and none before. *)
Theorem pause_resume_completes (w : App) (n : Z) (k idle : nat) :
  timer_ok w ->
  parseInt (or_else (timerMinutesInput (el w)) (lit "25")) = Num n ->
  0 < n ->
  n * 60 < 2 ^ 53 ->
  Z.of_nat k < n * 60 ->
  remainingSec (timer (seconds idle (pauseTimer (runFor k w))))
  = Num (n * 60 - Z.of_nat k)
  /\ points (seconds idle (pauseTimer (runFor k w))) = points w
  /\ (forall i : nat,
         Z.of_nat i < n * 60 - Z.of_nat k ->
         points (seconds i (startTimer (seconds idle (pauseTimer (runFor k w)))))
         = points w)
  /\ completed
       (seconds (Z.to_nat (n * 60 - Z.of_nat k))
                (startTimer (seconds idle (pauseTimer (runFor k w)))))
       (num_add (points w) (Num 5)).
Proof.
  intros OK E Hn _ Hk.
  pose proof (runFor_countingDown k w n OK E Hn Hk) as C.
  destruct (pauseTimer_countingDown _ _ _ _ C) as (T & I & P).
  rewrite (seconds_idle idle _ I).
  set (paused := pauseTimer (runFor k w)) in *.
  assert (C2 : countingDown (startTimer paused) (nextHandle paused)
                            (n * 60 - Z.of_nat k) (points w)).
  { rewrite <- P. apply startTimer_idle; [rewrite T; reflexivity|exact I|].
    rewrite T. reflexivity. }
  destruct (countingDown_completes _ _ _ _ C2 ltac:(lia)) as (Before & Done & _).
  split; [rewrite T; reflexivity|]. split; [exact P|]. split; [exact Before|exact Done].
Qed.

Lemma pause_resume_completes_witness :
  points (seconds 50 (startTimer (seconds 7 (pauseTimer
            (runFor 10 (minutesField (lit "1") (blank (lit "2024-01-02"))))))))
  = Num 5.
Proof.
  destruct (pause_resume_completes
              (minutesField (lit "1") (blank (lit "2024-01-02"))) 1 10 7)
    as (_ & _ & _ & (_ & _ & _ & P)).
  - apply timer_ok_blank.
  - vm_compute. reflexivity.
  - lia.
  - reflexivity.
  - vm_compute. reflexivity.
  - exact P.
Defined.

Lemma round_minutes (x : Z) : (2 * (x * 60) + 60) / (2 * 60) = x.
Proof. symmetry. apply (Z.div_unique _ _ x 60); lia. Qed.

Lemma elapsedMinutes_eq (w : App) (n r : Z) :
  parseInt (or_else (timerMinutesInput (el w)) (lit "25")) = Num n ->
  remainingSec (timer w) = Num r ->
  elapsedMinutes w = Num ((2 * (Z.max 0 n * 60 - r) + 60) / (2 * 60)).
Proof. intros E R. unfold elapsedMinutes. rewrite E, R. reflexivity. Qed.

(** X4.  When the timer is set to [n > 0] minutes, [60 n] below [2 ^ 53],
    runs to its end and the session is logged with the form untouched, the
    session stored has exactly [n] minutes, and the points have grown by
    the completion bonus 5 and by [min (10, max (1, floor (n / 5)))]. *)
Theorem full_run_logs_configured_minutes (today : str) (w : App) (n : Z) :
  timer_ok w ->
  parseInt (or_else (timerMinutesInput (el w)) (lit "25")) = Num n ->
  0 < n ->
  n * 60 < 2 ^ 53 ->
  elapsedMinutes (runFor (Z.to_nat (n * 60)) w) = Num n
  /\ sessions (logSession today (runFor (Z.to_nat (n * 60)) w))
     = sessions w ++ [loggedSession today (runFor (Z.to_nat (n * 60)) w)]
  /\ Session.minutes (loggedSession today (runFor (Z.to_nat (n * 60)) w)) = Num n
  /\ Session.dateISO (loggedSession today (runFor (Z.to_nat (n * 60)) w)) = today
  /\ points (logSession today (runFor (Z.to_nat (n * 60)) w))
     = num_add (num_add (points w) (Num 5)) (Num (Z.min 10 (Z.max 1 (n / 5)))).
Proof.
  intros OK E Hn _.
  destruct (runFor_completed w n OK E Hn) as (R0 & _ & _ & P).
  destruct (sameLedger_runFor (Z.to_nat (n * 60)) w) as (S & _ & _ & _ & _ & El).
  set (done := runFor (Z.to_nat (n * 60)) w) in *.
  assert (M : elapsedMinutes done = Num n).
  { rewrite (elapsedMinutes_eq done n 0); [|rewrite El; exact E|exact R0].
    rewrite Z.max_r by lia. rewrite Z.sub_0_r, round_minutes. reflexivity. }
  destruct (logSession_accepted today done n M Hn) as (S' & P' & _).
  split; [exact M|]. split; [rewrite S', S; reflexivity|].
  split; [exact M|]. split; [reflexivity|]. rewrite P', P. reflexivity.
Qed.

Lemma full_run_logs_configured_minutes_witness :
  Session.minutes
    (loggedSession (lit "2024-01-02")
       (runFor 120 (minutesField (lit "2") (blank (lit "2024-01-02")))))
  = Num 2.
Proof.
  destruct (full_run_logs_configured_minutes (lit "2024-01-02")
              (minutesField (lit "2") (blank (lit "2024-01-02"))) 2)
    as (_ & _ & M & _).
  - apply timer_ok_blank.
  - vm_compute. reflexivity.
  - lia.
  - reflexivity.
  - exact M.
Defined.

(** X5.  Logging while the countdown is still running credits the seconds
    run so far, rounded to the nearest minute: after [k] seconds of an
    [n]-minute countdown, [60 n] below [2 ^ 53], the computed minutes are
    [round (k / 60)].  So a
    log within the first 29 seconds is refused, and from 30 seconds on a
    session of at least one minute is stored. *)
Theorem partial_run_logs_rounded_minutes (today : str) (w : App) (n : Z) (k : nat) :
  timer_ok w ->
  parseInt (or_else (timerMinutesInput (el w)) (lit "25")) = Num n ->
  0 < n ->
  n * 60 < 2 ^ 53 ->
  Z.of_nat k < n * 60 ->
  elapsedMinutes (runFor k w) = Num ((2 * Z.of_nat k + 60) / 120)
  /\ ((k < 30)%nat ->
      sessions (logSession today (runFor k w)) = sessions w
      /\ points (logSession today (runFor k w)) = points w)
  /\ ((30 <= k)%nat ->
      1 <= (2 * Z.of_nat k + 60) / 120
      /\ sessions (logSession today (runFor k w))
         = sessions w ++ [loggedSession today (runFor k w)]
      /\ Session.minutes (loggedSession today (runFor k w))
         = Num ((2 * Z.of_nat k + 60) / 120)).
Proof.
  intros OK E Hn _ Hk.
  destruct (runFor_countingDown k w n OK E Hn Hk) as (T & _ & P).
  destruct (sameLedger_runFor k w) as (S & _ & _ & _ & _ & El).
  set (run := runFor k w) in *.
  assert (M : elapsedMinutes run = Num ((2 * Z.of_nat k + 60) / 120)).
  { rewrite (elapsedMinutes_eq run n (n * 60 - Z.of_nat k));
      [|rewrite El; exact E|rewrite T; reflexivity].
    rewrite Z.max_r by lia. do 2 f_equal. lia. }
  split; [exact M|]. split.
  - intros Hlt.
    assert (Z0 : (2 * Z.of_nat k + 60) / 120 = 0) by (apply Z.div_small; lia).
    rewrite Z0 in M.
    rewrite logSession_eq, M. cbn. rewrite S, P. split; reflexivity.
  - intros Hge.
    assert (H1 : 1 <= (2 * Z.of_nat k + 60) / 120).
    { apply Z.div_le_lower_bound; lia. }
    destruct (logSession_accepted today run _ M ltac:(lia)) as (S' & _ & _).
    split; [exact H1|]. split; [rewrite S', S; reflexivity|exact M].
Qed.

Lemma partial_run_logs_rounded_minutes_witness :
  sessions (logSession (lit "2024-01-02") (runFor 29 (blank (lit "2024-01-02")))) = []
  /\ Session.minutes (loggedSession (lit "2024-01-02") (runFor 90 (blank (lit "2024-01-02"))))
     = Num 2.
Proof.
  split.
  - destruct (partial_run_logs_rounded_minutes (lit "2024-01-02")
                (blank (lit "2024-01-02")) 25 29) as (_ & Early & _).
    + apply timer_ok_blank.
    + vm_compute. reflexivity.
    + lia.
    + reflexivity.
    + vm_compute. reflexivity.
    + destruct Early as [S _]; [lia|]. exact S.
  - destruct (partial_run_logs_rounded_minutes (lit "2024-01-02")
                (blank (lit "2024-01-02")) 25 90) as (_ & _ & Late).
    + apply timer_ok_blank.
    + vm_compute. reflexivity.
    + lia.
    + reflexivity.
    + vm_compute. reflexivity.
    + destruct Late as (_ & _ & M); [lia|]. exact M.
Defined.

Lemma logSession_keeps_timer_and_form (today : str) (w : App) :
  timer (logSession today w) = timer w /\ el (logSession today w) = el w.
Proof.
  rewrite logSession_eq. destruct (num_le (elapsedMinutes w) (Num 0)); split; reflexivity.
Qed.

(** X6.  [logSession] neither resets the timer nor clears the form: a second
    click on the log button stores the same session once more and awards the
    same points once more. *)
Theorem logSession_twice (today : str) (w : App) (m : Z) :
  elapsedMinutes w = Num m ->
  0 < m ->
  timer (logSession today w) = timer w
  /\ el (logSession today w) = el w
  /\ sessions (logSession today (logSession today w))
     = sessions w ++ [loggedSession today w; loggedSession today w]
  /\ points (logSession today (logSession today w))
     = num_add (num_add (points w) (Num (Z.min 10 (Z.max 1 (m / 5)))))
               (Num (Z.min 10 (Z.max 1 (m / 5)))).
Proof.
  intros E Hm.
  destruct (logSession_keeps_timer_and_form today w) as (T & El).
  assert (E2 : elapsedMinutes (logSession today w) = Num m).
  { unfold elapsedMinutes. rewrite T, El. exact E. }
  assert (L2 : loggedSession today (logSession today w) = loggedSession today w).
  { unfold loggedSession. rewrite E2, E, El. reflexivity. }
  destruct (logSession_accepted today w m E Hm) as (S1 & P1 & _).
  destruct (logSession_accepted today (logSession today w) m E2 Hm) as (S2 & P2 & _).
  split; [exact T|]. split; [exact El|]. split.
  - rewrite S2, S1, L2, <- List.app_assoc. reflexivity.
  - rewrite P2, P1. reflexivity.
Qed.

Lemma logSession_twice_witness :
  length (sessions (logSession (lit "2024-01-02")
                               (logSession (lit "2024-01-02") afterFullRun))) = 2%nat
  /\ points (logSession (lit "2024-01-02") (logSession (lit "2024-01-02") afterFullRun))
     = Num 15.
Proof.
  destruct (logSession_twice (lit "2024-01-02") afterFullRun 25) as (_ & _ & S & P).
  - vm_compute. reflexivity.
  - lia.
  - rewrite S, P. split; vm_compute; reflexivity.
Defined.

(** X7.  The minutes credited come from the minutes field as it stands when
    the log button is clicked, not from the time the timer ran: after a
    completed countdown of [n] minutes, with the field edited to a text that
    reads as [n'], the computed minutes are [max (0, n')]; [60 n] and
    [60 n'] are below [2 ^ 53]. *)
Theorem edited_minutes_field_is_logged (today : str) (w : App) (n n' : Z) (v : str) :
  timer_ok w ->
  parseInt (or_else (timerMinutesInput (el w)) (lit "25")) = Num n ->
  0 < n ->
  n * 60 < 2 ^ 53 ->
  parseInt (or_else v (lit "25")) = Num n' ->
  n' * 60 < 2 ^ 53 ->
  elapsedMinutes (handle (Edit (mkDom v (sessionTitle (el w)) (sessionTags (el w))
                                      (moodSelect (el w)) (reflectionInput (el w))))
                         (runFor (Z.to_nat (n * 60)) w))
  = Num (Z.max 0 n')
  /\ (0 < n' ->
      Session.minutes
        (loggedSession today
           (handle (Edit (mkDom v (sessionTitle (el w)) (sessionTags (el w))
                                (moodSelect (el w)) (reflectionInput (el w))))
                   (runFor (Z.to_nat (n * 60)) w)))
      = Num n').
Proof.
  intros OK E Hn _ E' _.
  destruct (runFor_completed w n OK E Hn) as (R0 & _).
  cbn [handle].
  set (done := runFor (Z.to_nat (n * 60)) w) in *.
  set (form := mkDom v _ _ _ _).
  assert (M : elapsedMinutes (with_el done form) = Num (Z.max 0 n')).
  { rewrite (elapsedMinutes_eq (with_el done form) n' 0); [|exact E'|exact R0].
    rewrite Z.sub_0_r, round_minutes. reflexivity. }
  split; [exact M|]. intros Hn'. unfold loggedSession. cbn [Session.minutes].
  rewrite M. rewrite Z.max_r by lia. reflexivity.
Qed.

Lemma edited_minutes_field_is_logged_witness :
  elapsedMinutes
    (handle (Edit (mkDom (lit "50") [] [] [] []))
            (runFor 60 (minutesField (lit "1") (blank (lit "2024-01-02")))))
  = Num 50.
Proof.
  destruct (edited_minutes_field_is_logged (lit "2024-01-02")
              (minutesField (lit "1") (blank (lit "2024-01-02"))) 1 50 (lit "50"))
    as (M & _).
  - apply timer_ok_blank.
  - vm_compute. reflexivity.
  - lia.
  - reflexivity.
  - vm_compute. reflexivity.
  - reflexivity.
  - exact M.
Defined.

(** X8.  A minutes field whose text does not start with a number (after
    white space and a sign) makes the computed minutes NaN, and NaN passes
    the test [minutes <= 0]: the session is stored with NaN minutes, the
    points become NaN, NaN is what is written to the store, and the level
    shown for such points is 'Master'. *)
Theorem logSession_without_number (today : str) (w : App) :
  parseInt (or_else (timerMinutesInput (el w)) (lit "25")) = NaN ->
  elapsedMinutes w = NaN
  /\ sessions (logSession today w) = sessions w ++ [loggedSession today w]
  /\ Session.minutes (loggedSession today w) = NaN
  /\ points (logSession today w) = NaN
  /\ localStorage (logSession today w) !! STORAGE_KEYS.points = Some (StoredNum NaN)
  /\ levelFromPoints (points (logSession today w)) = lit "Master".
Proof.
  intros E.
  assert (M : elapsedMinutes w = NaN).
  { unfold elapsedMinutes. rewrite E. reflexivity. }
  assert (P : points (logSession today w) = NaN).
  { rewrite logSession_eq, M. cbn. destruct (points w); reflexivity. }
  split; [exact M|]. split; [rewrite logSession_eq, M; reflexivity|].
  split; [exact M|]. split; [exact P|]. split.
  - rewrite logSession_eq, M. cbn. rewrite lookup_insert_eq.
    destruct (points w); reflexivity.
  - rewrite P. reflexivity.
Qed.

Lemma logSession_without_number_witness :
  points (logSession (lit "2024-01-02")
                     (minutesField (lit "abc") (blank (lit "2024-01-02")))) = NaN.
Proof.
  destruct (logSession_without_number (lit "2024-01-02")
              (minutesField (lit "abc") (blank (lit "2024-01-02"))))
    as (_ & _ & _ & P & _).
  - vm_compute. reflexivity.
  - exact P.
Defined.

Lemma onTick_countingNaN (w : App) (h : positive) (p : num) :
  countingNaN w h p -> countingNaN (onTick w) h p.
Proof.
  intros (T & I & P). unfold onTick, countingNaN. rewrite T. cbn. auto.
Qed.

Lemma seconds_countingNaN (k : nat) :
  forall (w : App) (h : positive) (p : num),
    countingNaN w h p -> countingNaN (seconds k w) h p.
Proof.
  induction k as [|k IH]; intros w h p C; [exact C|].
  cbn [seconds]. apply IH.
  assert (S : second w = onTick w).
  { destruct C as (_ & I & _). unfold second, tick. rewrite I. cbn. rewrite I. cbn.
    rewrite Pos.eqb_refl. reflexivity. }
  rewrite S. apply onTick_countingNaN. exact C.
Qed.

Lemma seconds_countingNaN_toasts (k : nat) :
  forall (w : App) (h : positive) (p : num),
    countingNaN w h p -> toasts (seconds k w) = toasts w.
Proof.
  induction k as [|k IH]; intros w h p C; [reflexivity|].
  cbn [seconds].
  assert (S : second w = onTick w).
  { destruct C as (_ & I & _). unfold second, tick. rewrite I. cbn. rewrite I. cbn.
    rewrite Pos.eqb_refl. reflexivity. }
  rewrite S. rewrite (IH (onTick w) h p (onTick_countingNaN w h p C)).
  destruct C as (T & _ & _). unfold onTick. rewrite T. reflexivity.
Qed.

Lemma startTimer_idle_NaN (w : App) :
  running (timer w) = false -> intervals w = [] -> remainingSec (timer w) = NaN ->
  countingNaN (startTimer w) (nextHandle w) (points w)
  /\ toasts (startTimer w) = toasts w.
Proof.
  intros R I E. unfold startTimer, countingNaN. rewrite R. cbn. rewrite I, E.
  repeat split.
Qed.

(** X9.  Reset with a minutes field that holds no number sets
    [remainingSec] to NaN.  A countdown started from there never ends: after
    any number of seconds the timer still runs, still shows NaN, and no
    completion bonus has been given. *)
Theorem countdown_without_number_never_ends (w : App) (k : nat) :
  timer_ok w ->
  parseInt (or_else (timerMinutesInput (el w)) (lit "25")) = NaN ->
  remainingSec (timer (resetTimer w)) = NaN
  /\ running (timer (runFor k w)) = true
  /\ remainingSec (timer (runFor k w)) = NaN
  /\ points (runFor k w) = points w
  /\ toasts (runFor k w) = toasts w.
Proof.
  intros OK E.
  assert (R : remainingSec (timer (resetTimer w)) = NaN).
  { rewrite resetTimer_remainingSec, E. reflexivity. }
  assert (Run : running (timer (resetTimer w)) = false)
    by (unfold resetTimer; cbn; apply pauseTimer_running).
  assert (I : intervals (resetTimer w) = [])
    by (unfold resetTimer; cbn; apply pauseTimer_intervals, OK).
  assert (P0 : points (resetTimer w) = points w)
    by (unfold resetTimer; cbn; apply pauseTimer_points).
  assert (T0 : toasts (resetTimer w) = toasts w).
  { unfold resetTimer, pauseTimer. cbn. destruct (intervalId (timer w)); reflexivity. }
  destruct (startTimer_idle_NaN (resetTimer w) Run I R) as (C & Ts).
  rewrite P0 in C.
  pose proof (seconds_countingNaN k _ _ _ C) as (T & _ & P).
  pose proof (seconds_countingNaN_toasts k _ _ _ C) as Tk.
  split; [exact R|]. unfold runFor. rewrite T. cbn.
  split; [reflexivity|]. split; [reflexivity|]. split; [exact P|].
  rewrite Tk, Ts, T0. reflexivity.
Qed.

Lemma countdown_without_number_never_ends_witness :
  running (timer (runFor 3000 (minutesField (lit "abc") (blank (lit "2024-01-02")))))
  = true.
Proof.
  destruct (countdown_without_number_never_ends
              (minutesField (lit "abc") (blank (lit "2024-01-02"))) 3000)
    as (_ & R & _).
  - apply timer_ok_blank.
  - vm_compute. reflexivity.
  - exact R.
Defined.

(** ** Habits *)


Lemma toggleHabit_habits (today key : str) (checked : bool) (w : App) :
  habits (toggleHabit today key checked w)
  = <[today := assignFlag (default ∅ (habits w !! today)) key checked]> (habits w).
Proof.
  unfold toggleHabit. destruct checked; cbn; rewrite lookup_insert_eq; cbn;
    apply insert_insert_eq.
Qed.

Lemma toggleHabit_today (today key : str) (checked : bool) (w : App) :
  habits (toggleHabit today key checked w) !! today
  = Some (assignFlag (default ∅ (habits w !! today)) key checked).
Proof. rewrite toggleHabit_habits. apply lookup_insert_eq. Qed.


Lemma assignFlag_key (h : gmap str bool) (key : str) (v : bool) :
  key <> lit "__proto__" -> assignFlag h key v !! key = Some v.
Proof.
  intros Hk. unfold assignFlag. rewrite bool_decide_eq_false_2 by exact Hk.
  apply lookup_insert_eq.
Qed.


Lemma habitChecked_eq (d key : str) (w : App) (h : gmap str bool) :
  habits w !! d = Some h ->
  habitChecked d key w = match h !! key with Some b => b | None => inherited key end.
Proof. intros E. unfold habitChecked. rewrite E. reflexivity. Qed.


Lemma resetTodayHabits_habits (today : str) (w : App) :
  habits (resetTodayHabits today w) = <[today := ∅]> (habits w).
Proof.
  unfold resetTodayHabits, initHabitsForToday. cbn. rewrite lookup_insert_eq. cbn.
  apply insert_insert_eq.
Qed.

(** X11.  [today] is a date, not the name of an inherited member.
    Resetting today's habits leaves today with an empty record, so that
    every habit of today reads as unchecked, except a box whose key names
    an inherited member, which reads as checked; the records of other dates
    are untouched, the store holds the new habits, and the points earned by
    the boxes that were checked stay. *)
Theorem resetTodayHabits_clears_today (today : str) (w : App) :
  inherited today = false ->
  habits (resetTodayHabits today w) !! today = Some ∅
  /\ (forall key, habitChecked today key (resetTodayHabits today w) = inherited key)
  /\ (forall d, d <> today -> habits (resetTodayHabits today w) !! d = habits w !! d)
  /\ localStorage (resetTodayHabits today w) !! STORAGE_KEYS.habits
     = Some (StoredHabits (habits (resetTodayHabits today w)))
  /\ points (resetTodayHabits today w) = points w.
Proof.
  intros _.
  pose proof (resetTodayHabits_habits today w) as H.
  assert (T : habits (resetTodayHabits today w) !! today = Some ∅)
    by (rewrite H; apply lookup_insert_eq).
  split; [exact T|]. split.
  { intros key. rewrite (habitChecked_eq _ _ _ _ T), lookup_empty. reflexivity. }
  split; [intros d Hd; rewrite H; apply lookup_insert_ne; congruence|].
  split; [|reflexivity].
  rewrite H. unfold resetTodayHabits, initHabitsForToday. cbn.
  rewrite lookup_insert_eq, lookup_insert_eq. cbn. rewrite insert_insert_eq. reflexivity.
Qed.

Lemma initHabitsForToday_habits (today : str) (w : App) :
  habits (initHabitsForToday today w) = <[today := default ∅ (habits w !! today)]> (habits w).
Proof. reflexivity. Qed.

(** X12.  [initHabitsForToday] gives today a record if it has none and
    changes no flag of any date; doing it twice is the same as doing it
    once. *)
Theorem initHabitsForToday_keeps_flags (today : str) (w : App) :
  is_Some (habits (initHabitsForToday today w) !! today)
  /\ (forall d key, habitChecked d key (initHabitsForToday today w) = habitChecked d key w)
  /\ (forall d, d <> today -> habits (initHabitsForToday today w) !! d = habits w !! d)
  /\ localStorage (initHabitsForToday today w) !! STORAGE_KEYS.habits
     = Some (StoredHabits (habits (initHabitsForToday today w)))
  /\ initHabitsForToday today (initHabitsForToday today w) = initHabitsForToday today w.
Proof.
  split; [rewrite initHabitsForToday_habits, lookup_insert_eq; eauto|].
  split.
  { intros d key. unfold habitChecked. rewrite initHabitsForToday_habits.
    destruct (decide (d = today)) as [->|Hd].
    - rewrite lookup_insert_eq. destruct (habits w !! today); reflexivity.
    - rewrite lookup_insert_ne by congruence. reflexivity. }
  split; [intros d Hd; rewrite initHabitsForToday_habits; apply lookup_insert_ne; congruence|].
  split; [unfold initHabitsForToday; cbn; apply lookup_insert_eq|].
  unfold initHabitsForToday, set, with_habits, with_localStorage. cbn.
  rewrite lookup_insert_eq. cbn. rewrite !insert_insert_eq. reflexivity.
Qed.

Lemma checkThenUncheck_points (today key : str) (w : App) :
  points (checkThenUncheck today key w) = num_add (points w) (Num 2).
Proof. reflexivity. Qed.

(** X13.  [today] is a date, not the name of an inherited member.
    Unchecking a habit never takes back the 2 points its checking gave:
    checking and unchecking the same box [n] times leaves the points higher
    by [2 n], and leaves the box unchecked unless its key is
    '__proto__'. *)
Theorem habit_points_accumulate (today key : str) (w : App) (p : Z) (n : nat) :
  inherited today = false ->
  points w = Num p ->
  points (Nat.iter n (checkThenUncheck today key) w) = Num (p + 2 * Z.of_nat n)
  /\ (key <> lit "__proto__" ->
      habitChecked today key (checkThenUncheck today key w) = false).
Proof.
  intros _ P. split.
  - induction n as [|n IH].
    + change (Nat.iter 0 (checkThenUncheck today key) w) with w.
      rewrite P. f_equal. lia.
    + change (Nat.iter (S n) (checkThenUncheck today key) w)
        with (checkThenUncheck today key (Nat.iter n (checkThenUncheck today key) w)).
      rewrite checkThenUncheck_points, IH. cbn [num_add]. f_equal. lia.
  - intros Hk. unfold checkThenUncheck.
    rewrite (habitChecked_eq _ _ _ _ (toggleHabit_today today key false _)).
    rewrite assignFlag_key by exact Hk. reflexivity.
Qed.

Lemma habit_points_accumulate_witness :
  points (Nat.iter 5 (checkThenUncheck (lit "2024-01-02") (lit "water"))
                   (blank (lit "2024-01-02"))) = Num 10
  /\ habitChecked (lit "2024-01-02") (lit "water")
       (checkThenUncheck (lit "2024-01-02") (lit "water") (blank (lit "2024-01-02")))
     = false.
Proof.
  destruct (habit_points_accumulate (lit "2024-01-02") (lit "water")
              (blank (lit "2024-01-02")) 0 5) as (P & U).
  - vm_compute. reflexivity.
  - reflexivity.
  - split; [exact P|]. apply U. vm_compute. discriminate.
Defined.

(** ** Activity and the streak *)

Lemma maintainStreak_streak (tomorrow : str) (w : App) :
  lastDate w <> tomorrow ->
  streak (maintainStreak tomorrow w)
  = if hadActivity (lastDate w) w then streak w + 1 else 0.
Proof.
  intros Hne. unfold maintainStreak, sameDay.
  rewrite bool_decide_eq_false_2 by exact Hne. reflexivity.
Qed.

Lemma logSession_keeps_streak (today : str) (w : App) :
  streak (logSession today w) = streak w /\ lastDate (logSession today w) = lastDate w.
Proof.
  rewrite logSession_eq. destruct (num_le (elapsedMinutes w) (Num 0)); split; reflexivity.
Qed.

Lemma toggleHabit_keeps_streak (today key : str) (checked : bool) (w : App) :
  streak (toggleHabit today key checked w) = streak w
  /\ lastDate (toggleHabit today key checked w) = lastDate w
  /\ sessions (toggleHabit today key checked w) = sessions w
  /\ moods (toggleHabit today key checked w) = moods w.
Proof. unfold toggleHabit. destruct checked; repeat split. Qed.

Lemma saveMood_keeps_streak (today : str) (w : App) :
  streak (saveMood today w) = streak w /\ lastDate (saveMood today w) = lastDate w.
Proof.
  unfold saveMood.
  destruct (negb (truthy (moodSelect (el w)))
            && negb (truthy (trim (reflectionInput (el w))))); split; reflexivity.
Qed.

Lemma saveMood_entry_stored (today : str) (w : App) :
  truthy (moodSelect (el w)) || truthy (trim (reflectionInput (el w))) = true ->
  In (MoodEntry.mk today (moodSelect (el w)) (trim (reflectionInput (el w))))
     (moods (saveMood today w)).
Proof.
  intros Acc. rewrite (saveMood_moods today w Acc). cbv zeta.
  set (p := fun m => bool_decide (MoodEntry.dateISO m = today)).
  destruct (Z.leb_spec 0 (findIndex p (moods w))) as [Hfound|Hnone].
  - destruct (findIndex_found p (moods w) Hfound) as (old & Hold & _).
    apply list_elem_of_In. apply list_elem_of_lookup.
    exists (Z.to_nat (findIndex p (moods w))).
    apply list_lookup_insert_eq. apply lookup_lt_Some in Hold. exact Hold.
  - apply List.in_or_app. right. left. reflexivity.
Qed.

Lemma maintainStreak_same_day (today : str) (w : App) :
  lastDate w = today -> maintainStreak today w = w.
Proof.
  intros E. unfold maintainStreak, sameDay.
  rewrite bool_decide_eq_true_2 by exact E. reflexivity.
Qed.

Lemma pauseTimer_localStorage (w : App) : localStorage (pauseTimer w) = localStorage w.
Proof. unfold pauseTimer. cbn. destruct (intervalId (timer w)); reflexivity. Qed.

(** The events write under four keys of the store and no other. *)
Lemma handle_keeps_other_keys (e : event) (w : App) (k : str) :
  k <> STORAGE_KEYS.sessions -> k <> STORAGE_KEYS.habits ->
  k <> STORAGE_KEYS.mood -> k <> STORAGE_KEYS.points ->
  localStorage (handle e w) !! k = localStorage w !! k.
Proof.
  intros Ks Kh Km Kp.
  assert (A : forall n v, localStorage (awardPoints n v) !! k = localStorage v !! k).
  { intros n v. unfold awardPoints. cbn -[STORAGE_KEYS.sessions STORAGE_KEYS.habits STORAGE_KEYS.mood STORAGE_KEYS.points]. apply lookup_insert_ne. congruence. }
  destruct e; cbn [handle].
  - unfold startTimer. destruct (running (timer w)); reflexivity.
  - rewrite pauseTimer_localStorage. reflexivity.
  - unfold resetTimer. cbn -[STORAGE_KEYS.sessions STORAGE_KEYS.habits STORAGE_KEYS.mood STORAGE_KEYS.points]. rewrite pauseTimer_localStorage. reflexivity.
  - rewrite logSession_eq. destruct (num_le (elapsedMinutes w) (Num 0)); [reflexivity|].
    cbn -[STORAGE_KEYS.sessions STORAGE_KEYS.habits STORAGE_KEYS.mood STORAGE_KEYS.points]. rewrite lookup_insert_ne by congruence. apply lookup_insert_ne. congruence.
  - unfold saveMood.
    destruct (negb (truthy (moodSelect (el w)))
              && negb (truthy (trim (reflectionInput (el w))))); [reflexivity|].
    cbn -[STORAGE_KEYS.sessions STORAGE_KEYS.habits STORAGE_KEYS.mood STORAGE_KEYS.points]. rewrite lookup_insert_ne by congruence. apply lookup_insert_ne. congruence.
  - unfold toggleHabit. destruct checked; cbn -[STORAGE_KEYS.sessions STORAGE_KEYS.habits STORAGE_KEYS.mood STORAGE_KEYS.points].
    + rewrite lookup_insert_ne by congruence. apply lookup_insert_ne. congruence.
    + apply lookup_insert_ne. congruence.
  - unfold resetTodayHabits, initHabitsForToday. cbn -[STORAGE_KEYS.sessions STORAGE_KEYS.habits STORAGE_KEYS.mood STORAGE_KEYS.points].
    rewrite lookup_insert_ne by congruence. apply lookup_insert_ne. congruence.
  - reflexivity.
  - unfold tick. destruct (existsb _ _); [|reflexivity].
    unfold onTick. destruct (num_strict_eq _ _); [|reflexivity].
    cbn -[STORAGE_KEYS.sessions STORAGE_KEYS.habits STORAGE_KEYS.mood STORAGE_KEYS.points]. rewrite lookup_insert_ne by congruence. rewrite pauseTimer_localStorage.
    reflexivity.
Qed.

Lemma handle_keeps_streak_fields (e : event) (w : App) :
  streak (handle e w) = streak w /\ lastDate (handle e w) = lastDate w.
Proof.
  destruct e; cbn [handle]; try (split; reflexivity).
  - split; apply sameLedger_startTimer.
  - split; apply sameLedger_pauseTimer.
  - split; apply sameLedger_resetTimer.
  - apply logSession_keeps_streak.
  - apply saveMood_keeps_streak.
  - split; apply toggleHabit_keeps_streak.
  - unfold tick. destruct (existsb _ _); [split; apply sameLedger_onTick|split; reflexivity].
Qed.

Lemma handleAll_keeps (es : list event) (w : App) (k : str) :
  k <> STORAGE_KEYS.sessions -> k <> STORAGE_KEYS.habits ->
  k <> STORAGE_KEYS.mood -> k <> STORAGE_KEYS.points ->
  localStorage (handleAll es w) !! k = localStorage w !! k
  /\ streak (handleAll es w) = streak w
  /\ lastDate (handleAll es w) = lastDate w.
Proof.
  intros Ks Kh Km Kp. revert w. induction es as [|e es IH]; intros w; [repeat split|].
  change (handleAll (e :: es) w) with (handleAll es (handle e w)).
  destruct (IH (handle e w)) as (S & T & L).
  destruct (handle_keeps_streak_fields e w) as (T' & L').
  rewrite S, T, L, T', L'. split; [|split; reflexivity].
  apply handle_keeps_other_keys; assumption.
Qed.

Lemma boot_same_day (today : str) (w : App) (k : str) :
  lastDate w = today -> k <> STORAGE_KEYS.habits ->
  localStorage (boot today w) !! k = localStorage w !! k
  /\ streak (boot today w) = streak w
  /\ lastDate (boot today w) = today.
Proof.
  intros E Kh. unfold boot. rewrite (maintainStreak_same_day today w E).
  destruct (sameLedger_resetTimer w) as (_ & _ & _ & T & L & _).
  unfold initHabitsForToday. cbn -[STORAGE_KEYS.habits].
  rewrite lookup_insert_ne by congruence.
  unfold resetTimer. cbn. rewrite pauseTimer_localStorage.
  split; [reflexivity|]. split; [exact T|]. rewrite <- E. exact L.
Qed.

Lemma streak_keys_apart (k : str) :
  k = STORAGE_KEYS.lastActiveDate \/ k = STORAGE_KEYS.streak ->
  k <> STORAGE_KEYS.sessions /\ k <> STORAGE_KEYS.habits
  /\ k <> STORAGE_KEYS.mood /\ k <> STORAGE_KEYS.points.
Proof. intros [->| ->]; repeat split; vm_compute; discriminate. Qed.

(** A visit that finds neither the last active date nor the streak in the
    store leaves the store without them, and the streak at 0. *)
Lemma visit_without_date (today : str) (ls : gmap str stored) (w : App) (es : list event) :
  freshlyLoaded today ls w ->
  ls !! STORAGE_KEYS.lastActiveDate = None ->
  ls !! STORAGE_KEYS.streak = None ->
  localStorage (handleAll es (boot today w)) !! STORAGE_KEYS.lastActiveDate = None
  /\ localStorage (handleAll es (boot today w)) !! STORAGE_KEYS.streak = None
  /\ streak (handleAll es (boot today w)) = 0
  /\ lastDate (handleAll es (boot today w)) = today.
Proof.
  intros (St & _ & Ld & _ & Sk & _) Nd Ns.
  specialize (Ld Nd). specialize (Sk Ns).
  destruct (streak_keys_apart STORAGE_KEYS.lastActiveDate (or_introl eq_refl))
    as (D1 & D2 & D3 & D4).
  destruct (streak_keys_apart STORAGE_KEYS.streak (or_intror eq_refl))
    as (S1 & S2 & S3 & S4).
  destruct (handleAll_keeps es (boot today w) _ D1 D2 D3 D4) as (A & T & L).
  destruct (handleAll_keeps es (boot today w) _ S1 S2 S3 S4) as (B & _ & _).
  destruct (boot_same_day today w _ Ld D2) as (A' & T' & L').
  destruct (boot_same_day today w _ Ld S2) as (B' & _ & _).
  rewrite A, B, T, L, A', B', T', L', St, Sk. auto.
Qed.

Lemma storeAfterVisits_no_date (ls : gmap str stored) :
  storeAfterVisits ls ->
  ls !! STORAGE_KEYS.lastActiveDate = None /\ ls !! STORAGE_KEYS.streak = None.
Proof.
  induction 1 as [|ls today w es _ [Nd Ns] F]; [split; apply lookup_empty|].
  destruct (visit_without_date today ls w es F Nd Ns) as (A & B & _). auto.
Qed.

(** X14.  The streak never starts.  The last active date is written to the
    store only when the script, while loading, finds a last active date
    other than today; and without one in the store it takes today.  So,
    starting from an empty store, however many visits on however many days
    and whatever is logged, checked or saved in them: every visit finds the
    store without a last active date and without a streak, takes today for
    the last active date, and ends with the streak at 0 and the store again
    without either.  Only on a store that does hold a last active date
    [d] other than today does loading count the activity of [d], adding 1
    to the streak or setting it to 0, and write today's date. *)
Theorem streak_never_starts (today : str) (ls : gmap str stored) (w : App)
    (es : list event) :
  freshlyLoaded today ls w ->
  (storeAfterVisits ls ->
     ls !! STORAGE_KEYS.lastActiveDate = None
     /\ ls !! STORAGE_KEYS.streak = None
     /\ lastDate w = today
     /\ streak w = 0
     /\ maintainStreak today w = w
     /\ streak (handleAll es (boot today w)) = 0
     /\ localStorage (handleAll es (boot today w)) !! STORAGE_KEYS.lastActiveDate = None
     /\ localStorage (handleAll es (boot today w)) !! STORAGE_KEYS.streak = None)
  /\ (forall d, ls !! STORAGE_KEYS.lastActiveDate = Some (StoredStr d) ->
        d <> today ->
        streak (boot today w) = (if hadActivity d w then streak w + 1 else 0)
        /\ localStorage (boot today w) !! STORAGE_KEYS.lastActiveDate
           = Some (StoredStr today)).
Proof.
  intros F. split.
  - intros V. destruct (storeAfterVisits_no_date ls V) as (Nd & Ns).
    destruct (visit_without_date today ls w es F Nd Ns) as (A & B & T & _).
    destruct F as (_ & _ & Ld & _ & Sk & _).
    specialize (Ld Nd). specialize (Sk Ns).
    split; [exact Nd|]. split; [exact Ns|]. split; [exact Ld|]. split; [exact Sk|].
    split; [apply maintainStreak_same_day; exact Ld|]. auto.
  - intros d Hd Hne. destruct F as (_ & _ & _ & Ld & _).
    specialize (Ld d Hd).
    assert (Hl : lastDate w <> today) by congruence.
    unfold boot. split.
    + change (streak (initHabitsForToday today (resetTimer (maintainStreak today w))))
        with (streak (resetTimer (maintainStreak today w))).
      destruct (sameLedger_resetTimer (maintainStreak today w)) as (_ & _ & _ & T & _).
      rewrite T, (maintainStreak_streak today w Hl), Ld. reflexivity.
    + unfold initHabitsForToday. cbn.
      rewrite lookup_insert_ne by (vm_compute; discriminate).
      unfold resetTimer. cbn. rewrite pauseTimer_localStorage.
      unfold maintainStreak, sameDay. rewrite bool_decide_eq_false_2 by exact Hl.
      cbn. apply lookup_insert_eq.
Qed.

Lemma dayTwoLoaded_fresh :
  storeAfterVisits (localStorage dayOne)
  /\ freshlyLoaded (lit "2024-01-03") (localStorage dayOne) dayTwoLoaded.
Proof.
  assert (F1 : freshlyLoaded (lit "2024-01-02") ∅ (blank (lit "2024-01-02"))).
  { repeat split; intros; try reflexivity; rewrite lookup_empty in *; discriminate. }
  assert (V : storeAfterVisits (localStorage dayOne)).
  { unfold dayOne. apply (one_more_visit ∅); [constructor|exact F1]. }
  split; [exact V|].
  destruct (storeAfterVisits_no_date _ V) as (Nd & Ns).
  clear V F1. unfold freshlyLoaded, dayTwoLoaded.
  revert Nd Ns. generalize dayOne. intros d1 Nd Ns.
  split; [reflexivity|]. split; [split; reflexivity|].
  split; [reflexivity|]. split; [intros d Hd; rewrite Nd in Hd; discriminate|].
  split; [reflexivity|]. intros z Hz. rewrite Ns in Hz. discriminate.
Defined.

Lemma streak_never_starts_witness :
  hadActivity (lit "2024-01-02") dayTwoLoaded = true
  /\ streak (boot (lit "2024-01-03") dayTwoLoaded) = 0.
Proof.
  destruct dayTwoLoaded_fresh as (V & F).
  destruct (streak_never_starts (lit "2024-01-03") (localStorage dayOne) dayTwoLoaded [] F)
    as (Dead & _).
  destruct (Dead V) as (_ & _ & _ & _ & _ & S & _).
  split; [vm_compute; reflexivity|exact S].
Defined.

(** ** Saving a mood *)

(** X15.  With no mood selected and a reflection that is empty or only
    white space, [saveMood] shows its advice and does nothing else: no entry
    is added or replaced, no point is awarded, nothing is written to the
    store, and the reflection field is left as typed. *)
Theorem saveMood_blank_is_refused (today : str) (w : App) :
  moodSelect (el w) = [] ->
  trim (reflectionInput (el w)) = [] ->
  saveMood today w = toast (lit "Pick a mood or write a reflection.") w
  /\ moods (saveMood today w) = moods w
  /\ points (saveMood today w) = points w
  /\ localStorage (saveMood today w) = localStorage w
  /\ el (saveMood today w) = el w
  /\ toasts (saveMood today w) = lit "Pick a mood or write a reflection." :: toasts w.
Proof.
  intros M R.
  assert (E : saveMood today w = toast (lit "Pick a mood or write a reflection.") w).
  { apply saveMood_rejected. rewrite M, R. reflexivity. }
  rewrite E. repeat split.
Qed.

Lemma saveMood_blank_is_refused_witness :
  moods (saveMood (lit "2024-01-02")
                  (with_el (blank (lit "2024-01-02"))
                           (mkDom (lit "25") [] [] [] (lit "   "))))
  = [].
Proof.
  destruct (saveMood_blank_is_refused (lit "2024-01-02")
              (with_el (blank (lit "2024-01-02")) (mkDom (lit "25") [] [] [] (lit "   "))))
    as (_ & M & _).
  - reflexivity.
  - reflexivity.
  - exact M.
Defined.

Lemma storage_keys_mood_points : STORAGE_KEYS.points <> STORAGE_KEYS.mood.
Proof. vm_compute. discriminate. Qed.

Lemma saveMood_accepted_eq (today : str) (w : App) :
  truthy (moodSelect (el w)) || truthy (trim (reflectionInput (el w))) = true ->
  saveMood today w =
  let entry := MoodEntry.mk today (moodSelect (el w)) (trim (reflectionInput (el w))) in
  let idx := findIndex (fun m => bool_decide (MoodEntry.dateISO m = today)) (moods w) in
  let w1 := with_moods w (if 0 <=? idx then <[Z.to_nat idx := entry]> (moods w)
                          else moods w ++ [entry]) in
  let w2 := set STORAGE_KEYS.mood (StoredMoods (moods w1)) w1 in
  let w3 := awardPoints (Num 1) w2 in
  toast (lit "Saved.")
        (with_el w3 (mkDom (timerMinutesInput (el w)) (sessionTitle (el w))
                           (sessionTags (el w)) (moodSelect (el w)) [])).
Proof.
  intros Acc. unfold saveMood.
  destruct (truthy (moodSelect (el w))), (truthy (trim (reflectionInput (el w))));
    try discriminate; reflexivity.
Qed.

(** X16.  Every accepted save of a mood, whether it replaces today's entry
    or adds one, awards exactly 1 point, stores the entry built from the
    selected mood and the trimmed reflection, writes the moods to the store
    as they now are, empties the reflection field and keeps the rest of the
    form, the selected mood included. *)
Theorem saveMood_accepted_effects (today : str) (w : App) :
  truthy (moodSelect (el w)) || truthy (trim (reflectionInput (el w))) = true ->
  points (saveMood today w) = num_add (points w) (Num 1)
  /\ In (MoodEntry.mk today (moodSelect (el w)) (trim (reflectionInput (el w))))
        (moods (saveMood today w))
  /\ localStorage (saveMood today w) !! STORAGE_KEYS.mood
     = Some (StoredMoods (moods (saveMood today w)))
  /\ el (saveMood today w)
     = mkDom (timerMinutesInput (el w)) (sessionTitle (el w)) (sessionTags (el w))
             (moodSelect (el w)) []
  /\ toasts (saveMood today w) = lit "Saved." :: toasts w
  /\ sessions (saveMood today w) = sessions w
  /\ habits (saveMood today w) = habits w.
Proof.
  intros Acc. split; [|split].
  - rewrite (saveMood_accepted_eq today w Acc). reflexivity.
  - apply saveMood_entry_stored. exact Acc.
  - rewrite (saveMood_accepted_eq today w Acc). cbn.
    rewrite lookup_insert_ne by apply storage_keys_mood_points.
    rewrite lookup_insert_eq. repeat split.
Qed.

Lemma saveMood_accepted_effects_witness :
  points (saveMood (lit "2024-01-02") moodToday) = Num 1
  /\ reflectionInput (el (saveMood (lit "2024-01-02") moodToday)) = [].
Proof.
  destruct (saveMood_accepted_effects (lit "2024-01-02") moodToday)
    as (P & _ & _ & E & _).
  - reflexivity.
  - rewrite P, E. split; reflexivity.
Defined.

Lemma findIndex_insert_found {A : Type} (p : A -> bool) (l : list A) (y : A) :
  0 <= findIndex p l -> p y = true ->
  findIndex p (<[Z.to_nat (findIndex p l) := y]> l) = findIndex p l.
Proof.
  induction l as [|x l IH]; cbn [findIndex]; [lia|].
  destruct (p x) eqn:Ex.
  - intros _ Py. change (<[Z.to_nat 0 := y]> (x :: l)) with (y :: l).
    cbn [findIndex]. rewrite Py. reflexivity.
  - destruct (Z.ltb_spec (findIndex p l) 0) as [Hlt|Hge]; [lia|].
    intros _ Py.
    replace (Z.to_nat (findIndex p l + 1)) with (S (Z.to_nat (findIndex p l))) by lia.
    change (<[S (Z.to_nat (findIndex p l)):=y]> (x :: l))
      with (x :: <[Z.to_nat (findIndex p l):=y]> l).
    cbn [findIndex]. rewrite Ex, (IH Hge Py).
    destruct (Z.ltb_spec (findIndex p l) 0); [lia|reflexivity].
Qed.

Lemma findIndex_app_new {A : Type} (p : A -> bool) (l : list A) (y : A) :
  findIndex p l < 0 -> p y = true -> findIndex p (l ++ [y]) = Z.of_nat (length l).
Proof.
  induction l as [|x l IH]; cbn [findIndex app length].
  - intros _ Py. rewrite Py. reflexivity.
  - destruct (p x); [lia|].
    destruct (Z.ltb_spec (findIndex p l) 0) as [Hlt|Hge]; [|lia].
    intros _ Py. rewrite (IH Hlt Py).
    destruct (Z.ltb_spec (Z.of_nat (length l)) 0); lia.
Qed.

(** X17.  [saveMood] empties the reflection field but keeps the selected
    mood, so a second click on save is accepted again: it replaces the entry
    just saved by one with the same mood and an empty reflection, and awards
    a second point.  The reflection saved by the first click is lost. *)
Theorem saveMood_twice_drops_reflection (today : str) (w : App) :
  truthy (moodSelect (el w)) = true ->
  exists i : nat,
    moods (saveMood today w) !! i
    = Some (MoodEntry.mk today (moodSelect (el w)) (trim (reflectionInput (el w))))
    /\ moods (saveMood today (saveMood today w))
       = <[i := MoodEntry.mk today (moodSelect (el w)) []]> (moods (saveMood today w))
    /\ moods (saveMood today (saveMood today w)) !! i
       = Some (MoodEntry.mk today (moodSelect (el w)) [])
    /\ length (moods (saveMood today (saveMood today w)))
       = length (moods (saveMood today w))
    /\ points (saveMood today (saveMood today w))
       = num_add (num_add (points w) (Num 1)) (Num 1).
Proof.
  intros Mood.
  assert (Acc : truthy (moodSelect (el w)) || truthy (trim (reflectionInput (el w))) = true)
    by (rewrite Mood; reflexivity).
  set (p := fun m => bool_decide (MoodEntry.dateISO m = today)).
  set (e1 := MoodEntry.mk today (moodSelect (el w)) (trim (reflectionInput (el w)))).
  assert (Pe1 : p e1 = true) by (apply bool_decide_eq_true_2; reflexivity).
  set (w1 := saveMood today w).
  assert (El1 : el w1 = mkDom (timerMinutesInput (el w)) (sessionTitle (el w))
                              (sessionTags (el w)) (moodSelect (el w)) []).
  { unfold w1. rewrite (saveMood_accepted_eq today w Acc). reflexivity. }
  assert (P1 : points w1 = num_add (points w) (Num 1)).
  { unfold w1. rewrite (saveMood_accepted_eq today w Acc). reflexivity. }
  assert (Acc1 : truthy (moodSelect (el w1)) || truthy (trim (reflectionInput (el w1))) = true).
  { rewrite El1. cbn [moodSelect]. rewrite Mood. reflexivity. }
  assert (First : exists i : nat, findIndex p (moods w1) = Z.of_nat i
                                  /\ moods w1 !! i = Some e1).
  { unfold w1. rewrite (saveMood_moods today w Acc). cbv zeta. fold p. fold e1.
    destruct (Z.leb_spec 0 (findIndex p (moods w))) as [Hfound|Hnone].
    - exists (Z.to_nat (findIndex p (moods w))). split.
      + rewrite (findIndex_insert_found p (moods w) e1 Hfound Pe1). lia.
      + destruct (findIndex_found p (moods w) Hfound) as (old & Hold & _).
        apply list_lookup_insert_eq. apply lookup_lt_Some in Hold. exact Hold.
    - exists (length (moods w)). split.
      + apply findIndex_app_new; [lia|exact Pe1].
      + rewrite lookup_app_r by lia. rewrite Nat.sub_diag. reflexivity. }
  destruct First as (i & Fi & Li).
  assert (M2 : moods (saveMood today w1)
               = <[i := MoodEntry.mk today (moodSelect (el w)) []]> (moods w1)).
  { rewrite (saveMood_moods today w1 Acc1). cbv zeta. fold p. rewrite Fi.
    destruct (Z.leb_spec 0 (Z.of_nat i)); [|lia].
    rewrite Nat2Z.id, El1. reflexivity. }
  exists i. split; [exact Li|]. split; [exact M2|]. split; [|split].
  - rewrite M2. apply list_lookup_insert_eq. apply lookup_lt_Some in Li. exact Li.
  - rewrite M2. apply length_insert.
  - rewrite (saveMood_accepted_eq today w1 Acc1). cbn [points toast with_el with_toasts].
    cbn. rewrite P1. reflexivity.
Qed.

Lemma saveMood_twice_drops_reflection_witness :
  moods (saveMood (lit "2024-01-02") (saveMood (lit "2024-01-02") moodToday))
  = [MoodEntry.mk (lit "2024-01-02") (lit "great") []].
Proof.
  destruct (saveMood_twice_drops_reflection (lit "2024-01-02") moodToday)
    as (i & L & M & _).
  - reflexivity.
  - rewrite M. destruct i as [|i]; [reflexivity|].
    vm_compute in L. destruct i; discriminate.
Defined.

(** ** Statistics *)

Lemma sumMinutes_snoc (l : list Session.t) (s : Session.t) :
  sumMinutes (l ++ [s]) = num_add (sumMinutes l) (Session.minutes s).
Proof. unfold sumMinutes. rewrite fold_left_app. reflexivity. Qed.

(** X18.  An accepted log of [m] minutes raises the total shown for today
    by exactly [m]; it raises the total shown for the week by [m] when
    today's date is not before the week's start as strings compare, and
    leaves it alone otherwise.  The points and the level shown are those of
    the state. *)
Theorem renderStats_after_log (today weekStart : str) (w : App) (m : Z) :
  elapsedMinutes w = Num m ->
  0 < m ->
  todayMins (renderStats today weekStart (logSession today w))
  = num_add (todayMins (renderStats today weekStart w)) (Num m)
  /\ weekMins (renderStats today weekStart (logSession today w))
     = (if str_ge today weekStart
        then num_add (weekMins (renderStats today weekStart w)) (Num m)
        else weekMins (renderStats today weekStart w))
  /\ pointsShown (renderStats today weekStart (logSession today w))
     = num_add (points w) (Num (Z.min 10 (Z.max 1 (m / 5))))
  /\ levelShown (renderStats today weekStart (logSession today w))
     = levelFromPoints (num_add (points w) (Num (Z.min 10 (Z.max 1 (m / 5))))).
Proof.
  intros E Hm.
  destruct (logSession_accepted today w m E Hm) as (S & P & _).
  unfold renderStats. cbn [todayMins weekMins pointsShown levelShown].
  rewrite S, P, !List.filter_app. cbn [List.filter loggedSession Session.dateISO].
  rewrite bool_decide_eq_true_2 by reflexivity.
  assert (M : Session.minutes (loggedSession today w) = Num m) by exact E.
  split; [rewrite sumMinutes_snoc, M; reflexivity|].
  split; [|split; reflexivity].
  destruct (str_ge today weekStart).
  - rewrite sumMinutes_snoc, M. reflexivity.
  - rewrite List.app_nil_r. reflexivity.
Qed.

Lemma renderStats_after_log_witness :
  todayMins (renderStats (lit "2024-01-02") (lit "2024-01-01")
                         (logSession (lit "2024-01-02") afterFullRun)) = Num 25
  /\ weekMins (renderStats (lit "2024-01-02") (lit "2024-01-01")
                           (logSession (lit "2024-01-02") afterFullRun)) = Num 25.
Proof.
  destruct (renderStats_after_log (lit "2024-01-02") (lit "2024-01-01") afterFullRun 25)
    as (T & W & _).
  - vm_compute. reflexivity.
  - lia.
  - rewrite T, W. split; vm_compute; reflexivity.
Defined.

Lemma sumMinutes_whole (l : list Session.t) :
  Forall wholeMinutes l ->
  forall a : Z,
    fold_left (fun acc s => num_add acc (Session.minutes s)) l (Num a)
    = Num (a + Zsum (List.map (fun s => toZ (Session.minutes s)) l)).
Proof.
  induction 1 as [|s l (z & Ez & _) _ IH]; intros a.
  - cbn. f_equal. unfold Zsum. cbn. lia.
  - cbn [fold_left List.map]. rewrite Ez. cbn [num_add]. rewrite IH.
    f_equal. unfold Zsum. cbn [fold_right toZ]. lia.
Qed.

Lemma Zsum_filter_le (p q : Session.t -> bool) (l : list Session.t) :
  Forall wholeMinutes l ->
  (forall s, p s = true -> q s = true) ->
  0 <= Zsum (List.map (fun s => toZ (Session.minutes s)) (List.filter p l))
  <= Zsum (List.map (fun s => toZ (Session.minutes s)) (List.filter q l)).
Proof.
  intros F Hpq. unfold Zsum. induction F as [|s l (z & Ez & Hz) _ IH]; [cbn; lia|].
  cbn [List.filter]. destruct (p s) eqn:Ep.
  - rewrite (Hpq s Ep). cbn [List.map fold_right]. rewrite Ez. cbn [toZ]. lia.
  - destruct (q s); cbn [List.map fold_right]; [rewrite Ez; cbn [toZ]|]; lia.
Qed.

Lemma Forall_filter_bool {A : Type} (P : A -> Prop) (p : A -> bool) (l : list A) :
  Forall P l -> Forall P (List.filter p l).
Proof.
  induction 1 as [|x l Hx _ IH]; [constructor|].
  cbn. destruct (p x); [constructor; assumption|exact IH].
Qed.

(** X19.  When the sessions hold whole, non-negative minutes and today's
    date is not before the week's start as strings compare, both totals
    shown are whole numbers and today's total is at most the week's. *)
Theorem renderStats_today_within_week (today weekStart : str) (w : App) :
  Forall wholeMinutes (sessions w) ->
  str_ge today weekStart = true ->
  exists a b : Z,
    todayMins (renderStats today weekStart w) = Num a
    /\ weekMins (renderStats today weekStart w) = Num b
    /\ 0 <= a <= b.
Proof.
  intros F G. unfold renderStats. cbn [todayMins weekMins]. unfold sumMinutes.
  rewrite !sumMinutes_whole by (apply Forall_filter_bool; exact F).
  eexists. eexists. split; [reflexivity|]. split; [reflexivity|].
  rewrite !Z.add_0_l. apply Zsum_filter_le; [exact F|].
  intros s E. apply bool_decide_eq_true in E. rewrite E. exact G.
Qed.

Lemma renderStats_today_within_week_witness :
  exists a b : Z,
    todayMins (renderStats (lit "2024-01-02") (lit "2024-01-01")
                           (logSession (lit "2024-01-02") afterFullRun)) = Num a
    /\ weekMins (renderStats (lit "2024-01-02") (lit "2024-01-01")
                             (logSession (lit "2024-01-02") afterFullRun)) = Num b
    /\ 0 <= a <= b.
Proof.
  apply (renderStats_today_within_week (lit "2024-01-02") (lit "2024-01-01")
           (logSession (lit "2024-01-02") afterFullRun)).
  - assert (S : sessions (logSession (lit "2024-01-02") afterFullRun)
                = [Session.mk (lit "2024-01-02") (Num 25) (lit "Focus block") []])
      by (vm_compute; reflexivity).
    rewrite S. constructor; [|constructor]. exists 25. split; [reflexivity|lia].
  - reflexivity.
Defined.

(** ** Escaping for the page *)

Lemma htmlEntity_cases (c : N) :
  (c = 38%N /\ htmlEntity c = lit "&amp;")
  \/ (c = 60%N /\ htmlEntity c = lit "&lt;")
  \/ (c = 62%N /\ htmlEntity c = lit "&gt;")
  \/ (c = 34%N /\ htmlEntity c = lit "&quot;")
  \/ (c = 39%N /\ htmlEntity c = lit "&#39;")
  \/ (c <> 38%N /\ c <> 60%N /\ c <> 62%N /\ c <> 34%N /\ c <> 39%N /\ htmlEntity c = [c]).
Proof.
  unfold htmlEntity.
  destruct (N.eqb_spec c 38); [subst; auto|].
  destruct (N.eqb_spec c 60); [subst; auto|].
  destruct (N.eqb_spec c 62); [subst; auto 6|].
  destruct (N.eqb_spec c 34); [subst; auto 6|].
  destruct (N.eqb_spec c 39); [subst; auto 8|].
  do 5 right. auto 10.
Qed.

(** X20.  The text [escapeHTML] returns holds none of the characters
    [<], [>], double quote and single quote, whatever the input; a text
    without these and without [&] is returned as it is. *)
Theorem escapeHTML_no_markup (s : str) :
  Forall (fun c => c <> 60%N /\ c <> 62%N /\ c <> 34%N /\ c <> 39%N) (escapeHTML s)
  /\ (Forall (fun c => c <> 38%N /\ c <> 60%N /\ c <> 62%N /\ c <> 34%N /\ c <> 39%N) s ->
      escapeHTML s = s).
Proof.
  split.
  - unfold escapeHTML. induction s as [|c s IH]; [constructor|].
    cbn [flat_map]. apply Forall_app. split; [|exact IH].
    destruct (htmlEntity_cases c)
      as [[_ ->]|[[_ ->]|[[_ ->]|[[_ ->]|[[_ ->]|(_ & A & B & C & D & ->)]]]]].
    1-5: vm_compute; repeat constructor; discriminate.
    constructor; [auto|constructor].
  - unfold escapeHTML. induction 1 as [|c s (A & B & C & D & E) _ IH]; [reflexivity|].
    cbn [flat_map]. rewrite IH.
    destruct (htmlEntity_cases c)
      as [[X _]|[[X _]|[[X _]|[[X _]|[[X _]|(_ & _ & _ & _ & _ & ->)]]]]];
      try contradiction.
    reflexivity.
Qed.

Lemma unescapeHTML_entities (r : str) :
  unescapeHTML (lit "&amp;" ++ r) = 38%N :: unescapeHTML r
  /\ unescapeHTML (lit "&lt;" ++ r) = 60%N :: unescapeHTML r
  /\ unescapeHTML (lit "&gt;" ++ r) = 62%N :: unescapeHTML r
  /\ unescapeHTML (lit "&quot;" ++ r) = 34%N :: unescapeHTML r
  /\ unescapeHTML (lit "&#39;" ++ r) = 39%N :: unescapeHTML r.
Proof. repeat split. Qed.

(** X21.  Nothing is lost in [escapeHTML]: reading the five entities back
    gives the original text, so two different texts are never escaped to the
    same text. *)
Theorem escapeHTML_reads_back (s t : str) :
  unescapeHTML (escapeHTML s) = s
  /\ (escapeHTML s = escapeHTML t -> s = t).
Proof.
  assert (R : forall u, unescapeHTML (escapeHTML u) = u).
  { unfold escapeHTML. induction u as [|c u IH]; [reflexivity|].
    cbn [flat_map].
    destruct (unescapeHTML_entities (flat_map htmlEntity u)) as (A & L & G & Q & P).
    destruct (htmlEntity_cases c)
      as [[-> ->]|[[-> ->]|[[-> ->]|[[-> ->]|[[-> ->]|(Ne & _ & _ & _ & _ & ->)]]]]].
    - rewrite A, IH. reflexivity.
    - rewrite L, IH. reflexivity.
    - rewrite G, IH. reflexivity.
    - rewrite Q, IH. reflexivity.
    - rewrite P, IH. reflexivity.
    - change ([c] ++ flat_map htmlEntity u) with (c :: flat_map htmlEntity u).
      change (unescapeHTML (c :: flat_map htmlEntity u))
        with (if (c =? 38)%N
              then match flat_map htmlEntity u with
                   | 97%N :: 109%N :: 112%N :: 59%N :: r' => 38%N :: unescapeHTML r'
                   | 108%N :: 116%N :: 59%N :: r' => 60%N :: unescapeHTML r'
                   | 103%N :: 116%N :: 59%N :: r' => 62%N :: unescapeHTML r'
                   | 113%N :: 117%N :: 111%N :: 116%N :: 59%N :: r' =>
                       34%N :: unescapeHTML r'
                   | 35%N :: 51%N :: 57%N :: 59%N :: r' => 39%N :: unescapeHTML r'
                   | _ => c :: unescapeHTML (flat_map htmlEntity u)
                   end
              else c :: unescapeHTML (flat_map htmlEntity u)).
      destruct (N.eqb_spec c 38); [contradiction|]. rewrite IH. reflexivity. }
  split; [apply R|].
  intros E. rewrite <- (R s), <- (R t), E. reflexivity.
Qed.

Lemma escapeHTML_reads_back_witness :
  lit "<b>" = unescapeHTML (lit "&lt;b&gt;").
Proof.
  apply (escapeHTML_reads_back (lit "<b>") (unescapeHTML (lit "&lt;b&gt;"))).
  vm_compute. reflexivity.
Defined.

(** ** The exported file *)

Lemma join_cons (sep x y : str) (r : list str) :
  join sep (x :: y :: r) = x ++ sep ++ join sep (y :: r).
Proof. reflexivity. Qed.

Lemma readCSV_end (st : csvState) (f : str) (row : list str) :
  readCSV [] st f row = [row ++ [f]].
Proof. reflexivity. Qed.

Lemma readCSV_comma (st : csvState) (r f : str) (row : list str) :
  st <> Quoted ->
  readCSV (44%N :: r) st f row = readCSV r FieldStart [] (row ++ [f]).
Proof. destruct st; intros H; [reflexivity|reflexivity|contradiction|reflexivity]. Qed.

Lemma readCSV_newline (st : csvState) (r f : str) (row : list str) :
  st <> Quoted ->
  readCSV (10%N :: r) st f row = (row ++ [f]) :: readCSV r FieldStart [] [].
Proof. destruct st; intros H; [reflexivity|reflexivity|contradiction|reflexivity]. Qed.

Lemma readCSV_plain (s : str) :
  needsQuotes s = false ->
  forall (st : csvState) (f rest : str) (row : list str),
    st = FieldStart \/ st = Unquoted ->
    exists st', (st' = FieldStart \/ st' = Unquoted)
                /\ readCSV (s ++ rest) st f row = readCSV rest st' (f ++ s) row.
Proof.
  induction s as [|c s IH]; intros N st f rest row Hst.
  - exists st. rewrite List.app_nil_r. auto.
  - cbn [needsQuotes existsb] in N. apply orb_false_iff in N. destruct N as [Nc N].
    apply orb_false_iff in Nc. destruct Nc as [Nc N10].
    apply orb_false_iff in Nc. destruct Nc as [N44 N34].
    destruct (IH N Unquoted (f ++ [c]) rest row (or_intror eq_refl)) as (st' & Hst' & E).
    exists st'. split; [exact Hst'|].
    rewrite <- List.app_assoc in E. cbn [app] in E. rewrite <- E.
    destruct Hst as [-> | ->]; cbn [app readCSV]; rewrite N44, N10, N34; reflexivity.
Qed.

Lemma readCSV_quoted (s : str) :
  forall (f rest : str) (row : list str),
    readCSV (doubleQuotes s ++ 34%N :: rest) Quoted f row
    = readCSV rest QuoteSeen (f ++ s) row.
Proof.
  unfold doubleQuotes. induction s as [|c s IH]; intros f rest row.
  - cbn. rewrite List.app_nil_r. reflexivity.
  - cbn [flat_map]. destruct (N.eqb_spec c 34) as [->|Ne].
    + cbn [app readCSV N.eqb Pos.eqb]. rewrite IH, <- List.app_assoc. reflexivity.
    + cbn [app readCSV]. destruct (N.eqb_spec c 34); [contradiction|].
      rewrite IH, <- List.app_assoc. reflexivity.
Qed.

Lemma readCSV_field (s rest : str) (row : list str) :
  exists st, st <> Quoted
             /\ readCSV (escapeCSV s ++ rest) FieldStart [] row = readCSV rest st s row.
Proof.
  unfold escapeCSV. destruct (needsQuotes s) eqn:N.
  - exists QuoteSeen. split; [discriminate|].
    rewrite <- !List.app_assoc. cbn [app readCSV N.eqb Pos.eqb].
    apply (readCSV_quoted s [] rest row).
  - destruct (readCSV_plain s N FieldStart [] rest row (or_introl eq_refl))
      as (st & [-> | ->] & E); eexists; (split; [|exact E]); discriminate.
Qed.

Lemma join_cons_ne (sep x : str) (r : list str) :
  r <> [] -> join sep (x :: r) = x ++ sep ++ join sep r.
Proof. destruct r; [contradiction|reflexivity]. Qed.

Lemma readCSV_row (fields : list str) :
  fields <> [] ->
  forall (row : list str),
    readCSV (join [44%N] (List.map escapeCSV fields)) FieldStart [] row
    = [row ++ fields]
    /\ forall more,
        readCSV (join [44%N] (List.map escapeCSV fields) ++ 10%N :: more) FieldStart [] row
        = (row ++ fields) :: readCSV more FieldStart [] [].
Proof.
  induction fields as [|f fs IH]; intros Hne row; [contradiction|].
  destruct (list_eq_nil_dec fs) as [->|Hfs].
  - cbn [List.map join]. split.
    + destruct (readCSV_field f [] row) as (st & Hst & E).
      rewrite List.app_nil_r in E. rewrite E. apply readCSV_end.
    + intros more. destruct (readCSV_field f (10%N :: more) row) as (st & Hst & E).
      rewrite E. apply readCSV_newline. exact Hst.
  - change (List.map escapeCSV (f :: fs)) with (escapeCSV f :: List.map escapeCSV fs).
    rewrite join_cons_ne by (destruct fs; [contradiction|discriminate]).
    set (tail := join [44%N] (List.map escapeCSV fs)) in *.
    destruct (IH Hfs (row ++ [f])) as (IH1 & IH2).
    rewrite <- !List.app_assoc in IH1, IH2. cbn [app] in IH1, IH2. split.
    + destruct (readCSV_field f ([44%N] ++ tail) row) as (st & Hst & E).
      rewrite E. cbn [app]. rewrite (readCSV_comma st _ f row Hst). exact IH1.
    + intros more. rewrite <- !List.app_assoc.
      destruct (readCSV_field f ([44%N] ++ tail ++ 10%N :: more) row) as (st & Hst & E).
      rewrite E. cbn [app]. rewrite (readCSV_comma st _ f row Hst). apply IH2.
Qed.

Lemma readCSV_rows (rows : list (list str)) :
  rows <> [] ->
  Forall (fun r => r <> []) rows ->
  readCSV (join [10%N] (List.map (fun r => join [44%N] (List.map escapeCSV r)) rows))
          FieldStart [] []
  = rows.
Proof.
  induction rows as [|r rows IH]; intros Hne F; [contradiction|].
  apply Forall_cons in F. destruct F as [Hr F].
  destruct (readCSV_row r Hr []) as (Last & Next).
  destruct (list_eq_nil_dec rows) as [->|Hrows].
  - cbn [List.map join]. exact Last.
  - change (List.map ?h (r :: rows)) with (h r :: List.map h rows).
    rewrite join_cons_ne by (destruct rows; [contradiction|discriminate]).
    cbn [app]. rewrite Next. cbn [app]. f_equal. apply IH; [exact Hrows|exact F].
Qed.

(** X22.  The exported text can be read back without loss.  A reader that
    splits rows at line feeds and fields at commas, takes a field that
    starts with a quote up to its closing quote and reads two quotes inside
    it as one, finds the header row followed by one row for each session, in
    order, and in each row the date, the title, the minutes and the tags
    joined by a bar, exactly as they are, whatever characters the title and
    the tags hold. *)
Theorem exportCSV_reads_back (today : str) (w : App) :
  readCSV (snd (exportCSV today w)) FieldStart [] [] = csvRows w
  /\ length (readCSV (snd (exportCSV today w)) FieldStart [] []) = S (length (sessions w))
  /\ Forall (fun r => length r = 4%nat) (readCSV (snd (exportCSV today w)) FieldStart [] [])
  /\ fst (exportCSV today w) = lit "tech-life-sessions-" ++ today ++ lit ".csv".
Proof.
  assert (R : readCSV (snd (exportCSV today w)) FieldStart [] [] = csvRows w).
  { cbn [exportCSV snd]. unfold csvText. apply readCSV_rows.
    - unfold csvRows. discriminate.
    - unfold csvRows. constructor; [discriminate|].
      apply List.Forall_forall. intros r Hr. apply List.in_map_iff in Hr.
      destruct Hr as (s & <- & _). discriminate. }
  rewrite R. split; [reflexivity|]. split; [|split; [|reflexivity]].
  - unfold csvRows. cbn [length]. rewrite List.length_map. reflexivity.
  - unfold csvRows. constructor; [reflexivity|].
    apply List.Forall_forall. intros r Hr. apply List.in_map_iff in Hr.
    destruct Hr as (s & <- & _). reflexivity.
Qed.

(** The row of the specification's example: a title with a comma and two
    quotes is put in quotes with its quotes doubled. *)
Example exportCSV_quoted_title :
  snd (exportCSV (lit "2024-01-05")
         (withSessions [Session.mk (lit "2024-01-01")
                                   (Num 10)
                                   (lit "Hi, " ++ [34%N] ++ lit "there" ++ [34%N])
                                   [lit "x"]]))
  = lit "date,title,minutes,tags" ++ [10%N]
    ++ lit "2024-01-01," ++ [34%N] ++ lit "Hi, " ++ [34%N; 34%N] ++ lit "there"
    ++ [34%N; 34%N; 34%N] ++ lit ",10,x".
Proof. vm_compute. reflexivity. Qed.

Lemma split_plain (sep : N) (a : str) :
  ~ In sep a -> split sep a = [a].
Proof.
  induction a as [|c a IH]; intros H; [reflexivity|].
  cbn [split]. destruct (N.eqb_spec c sep) as [->|Ne]; [exfalso; apply H; left; reflexivity|].
  rewrite IH by (intros C; apply H; right; exact C). reflexivity.
Qed.

Lemma split_app_sep (sep : N) (a r : str) :
  ~ In sep a -> split sep (a ++ sep :: r) = a :: split sep r.
Proof.
  induction a as [|c a IH]; intros H.
  - cbn [app split]. rewrite N.eqb_refl. reflexivity.
  - cbn [app split]. destruct (N.eqb_spec c sep) as [->|Ne];
      [exfalso; apply H; left; reflexivity|].
    rewrite IH by (intros C; apply H; right; exact C). reflexivity.
Qed.

Lemma split_join (sep : N) (l : list str) :
  l <> [] -> Forall (fun t => ~ In sep t) l -> split sep (join [sep] l) = l.
Proof.
  induction l as [|t l IH]; intros Hne F; [contradiction|].
  apply Forall_cons in F. destruct F as [Ht F].
  destruct l as [|u l].
  - cbn [join]. apply split_plain. exact Ht.
  - rewrite join_cons. cbn [app]. rewrite split_app_sep by exact Ht.
    f_equal. apply IH; [discriminate|exact F].
Qed.

(** X23.  The tags column of the export gives the tags back when it is
    split at the bars and the empty pieces are dropped, as long as the tags
    are not empty and hold no bar themselves; an empty list of tags comes
    back empty. *)
Theorem tags_column_reads_back (tags : list str) :
  Forall (fun t => t <> [] /\ ~ In 124%N t) tags ->
  List.filter truthy (split 124 (join [124%N] tags)) = tags.
Proof.
  intros F. destruct tags as [|t tags]; [reflexivity|].
  rewrite split_join.
  - induction F as [|u l (Hu & _) _ IH]; [reflexivity|].
    cbn [List.filter]. destruct u; [contradiction|]. cbn [truthy]. f_equal. exact IH.
  - discriminate.
  - eapply Forall_impl; [exact F|]. cbn. intros u (_ & Hu). exact Hu.
Qed.

Lemma tags_column_reads_back_witness :
  List.filter truthy (split 124 (join [124%N] [lit "deep work"; lit "math"]))
  = [lit "deep work"; lit "math"].
Proof.
  apply tags_column_reads_back.
  constructor; [split; [discriminate|vm_compute; intuition discriminate]|].
  constructor; [split; [discriminate|vm_compute; intuition discriminate]|].
  constructor.
Defined.

(** ** Numbers as text *)

Lemma isDigit_bounds (c : N) : isDigit c = true <-> (48 <= c <= 57)%N.
Proof.
  unfold isDigit. rewrite andb_true_iff, !N.leb_le. reflexivity.
Qed.

Lemma isDigit_not_white (c : N) : isDigit c = true -> isWhiteSpace c = false.
Proof.
  intros H. apply isDigit_bounds in H.
  assert (C : (c = 48 \/ c = 49 \/ c = 50 \/ c = 51 \/ c = 52 \/ c = 53 \/ c = 54
               \/ c = 55 \/ c = 56 \/ c = 57)%N) by lia.
  destruct C as [->|[->|[->|[->|[->|[->|[->|[->|[->| ->]]]]]]]]]; reflexivity.
Qed.

Lemma digits_all (ds : str) :
  Forall (fun c => isDigit c = true) ds ->
  digits ds = List.map (fun c => Z.of_N c - 48) ds.
Proof.
  induction 1 as [|c ds Hc _ IH]; [reflexivity|].
  cbn [digits List.map]. rewrite Hc, IH. reflexivity.
Qed.

Lemma parseInt_unsigned (c : N) (r : str) :
  isDigit c = true ->
  parseInt (c :: r)
  = match digits (c :: r) with
    | [] => NaN
    | ds => Num (1 * fold_left (fun acc d => 10 * acc + d) ds 0)
    end.
Proof.
  intros D. pose proof (isDigit_not_white c D) as W.
  apply isDigit_bounds in D. unfold parseInt. cbn [trimStart]. rewrite W.
  destruct c as [|p]; [lia|].
  do 6 (destruct p as [p|p|]; try reflexivity); lia.
Qed.

Lemma parseInt_digits (ds : str) :
  ds <> [] ->
  Forall (fun c => isDigit c = true) ds ->
  parseInt ds = Num (decimalValue ds)
  /\ parseInt (45%N :: ds) = Num (- decimalValue ds).
Proof.
  intros Hne F. pose proof (digits_all ds F) as Dg. unfold decimalValue.
  destruct ds as [|c r]; [contradiction|]. split.
  - rewrite parseInt_unsigned by (apply Forall_cons in F; tauto).
    rewrite Dg. cbn [List.map]. f_equal; lia.
  - unfold parseInt. cbn [trimStart]. change (isWhiteSpace 45) with false. cbv iota.
    rewrite Dg. cbn [List.map]. f_equal; lia.
Qed.

Lemma decimalValue_snoc (ds : str) (c : N) :
  decimalValue (ds ++ [c]) = 10 * decimalValue ds + (Z.of_N c - 48).
Proof. unfold decimalValue. rewrite List.map_app, fold_left_app. reflexivity. Qed.

Lemma digit_char (n : N) :
  isDigit (48 + n mod 10) = true /\ Z.of_N (48 + n mod 10) - 48 = Z.of_N (n mod 10).
Proof.
  assert (B : (n mod 10 < 10)%N) by (apply N.mod_lt; discriminate).
  revert B. generalize (n mod 10)%N. intros d B.
  split; [apply isDigit_bounds; lia|lia].
Qed.

Lemma digits_of_spec (f : nat) :
  forall (n : N) (acc : str),
    (n < 2 ^ N.of_nat (S f))%N ->
    exists ds,
      digits_of (S f) n acc = ds ++ acc
      /\ ds <> []
      /\ Forall (fun c => isDigit c = true) ds
      /\ decimalValue ds = Z.of_N n
      /\ ((n < 10)%N -> length ds = 1%nat)
      /\ ((10 <= n < 100)%N -> (1 <= f)%nat -> length ds = 2%nat).
Proof.
  assert (One : forall (g : nat) (n : N) (acc : str),
             (n < 10)%N ->
             exists ds,
               digits_of (S g) n acc = ds ++ acc
               /\ ds <> []
               /\ Forall (fun c => isDigit c = true) ds
               /\ decimalValue ds = Z.of_N n
               /\ ((n < 10)%N -> length ds = 1%nat)
               /\ ((10 <= n < 100)%N -> (1 <= g)%nat -> length ds = 2%nat)).
  { intros g n acc Hn. exists [(48 + n mod 10)%N].
    cbn [digits_of]. destruct (N.ltb_spec n 10); [|lia].
    destruct (digit_char n) as (D & V).
    split; [reflexivity|]. split; [discriminate|]. split; [repeat constructor; exact D|].
    split; [|split; [reflexivity|lia]].
    unfold decimalValue. cbn [List.map fold_left]. rewrite V.
    rewrite N.mod_small by lia. lia. }
  induction f as [|f IH]; intros n acc Hn.
  - apply One. cbn in Hn. lia.
  - destruct (N.ltb_spec n 10) as [Small|Big]; [apply One; exact Small|].
    assert (Hq : (n / 10 < 2 ^ N.of_nat (S f))%N).
    { apply N.Div0.div_lt_upper_bound.
      replace (N.of_nat (S (S f))) with (N.succ (N.of_nat (S f))) in Hn by lia.
      rewrite N.pow_succ_r' in Hn. lia. }
    destruct (IH (n / 10)%N ((48 + n mod 10)%N :: acc) Hq)
      as (ds & E & Hne & F & V & L1 & _).
    exists (ds ++ [(48 + n mod 10)%N]).
    destruct (digit_char n) as (D & Vd).
    split; [|split; [|split; [|split; [|split]]]].
    + change (digits_of (S (S f)) n acc)
        with (if (n <? 10)%N then (48 + n mod 10)%N :: acc
              else digits_of (S f) (n / 10)%N ((48 + n mod 10)%N :: acc)).
      destruct (N.ltb_spec n 10); [lia|]. rewrite E, <- List.app_assoc. reflexivity.
    + destruct ds; discriminate.
    + apply Forall_app. split; [exact F|repeat constructor; exact D].
    + rewrite decimalValue_snoc, V, Vd.
      pose proof (N.div_mod n 10 ltac:(lia)) as DM. lia.
    + lia.
    + intros Hr _. rewrite length_app. cbn [length].
      rewrite L1; [reflexivity|].
      apply N.Div0.div_lt_upper_bound. lia.
Qed.

Lemma num_to_string_spec (z : Z) :
  exists ds,
    num_to_string (Num z) = (if z <? 0 then [45%N] else []) ++ ds
    /\ ds <> []
    /\ Forall (fun c => isDigit c = true) ds
    /\ decimalValue ds = Z.abs z
    /\ (0 <= z < 100 -> (1 <= length ds <= 2)%nat).
Proof.
  set (n := Z.to_N (Z.abs z)).
  assert (B : (n < 2 ^ N.of_nat (S (N.to_nat (N.log2 n))))%N).
  { replace (N.of_nat (S (N.to_nat (N.log2 n)))) with (N.succ (N.log2 n)) by lia.
    destruct (N.eq_dec n 0%N) as [E0|Hn]; [rewrite E0; reflexivity|].
    apply N.log2_spec. lia. }
  destruct (digits_of_spec (N.to_nat (N.log2 n)) n [] B) as (ds & E & Hne & F & V & L1 & L2).
  exists ds. unfold num_to_string. fold n. rewrite E, List.app_nil_r.
  split; [reflexivity|]. split; [exact Hne|]. split; [exact F|].
  split; [rewrite V; unfold n; lia|].
  intros Hz. destruct (N.ltb_spec n 10) as [Small|Big].
  - rewrite (L1 Small). lia.
  - rewrite L2; [lia|unfold n; lia|].
    assert (0 < N.log2 n)%N by (apply N.log2_pos; lia). lia.
Qed.

(** X24.  A whole number between -2^53 and 2^53 written as text by the
    script is read back by [parseInt] as the same number: the minutes in the
    export and in the message of [logSession] lose nothing; and the text of
    NaN reads back as NaN. *)
Theorem parseInt_reads_number_text (z : Z) :
  - 2 ^ 53 < z < 2 ^ 53 ->
  parseInt (num_to_string (Num z)) = Num z
  /\ parseInt (num_to_string NaN) = NaN.
Proof.
  intros _. split; [|reflexivity].
  destruct (num_to_string_spec z) as (ds & E & Hne & F & V & _).
  destruct (parseInt_digits ds Hne F) as (Pos & Neg).
  rewrite E. destruct (Z.ltb_spec z 0).
  - cbn [app]. rewrite Neg, V. f_equal. lia.
  - cbn [app]. rewrite Pos, V. f_equal. lia.
Qed.

Lemma parseInt_reads_number_text_witness :
  parseInt (num_to_string (Num (-1500))) = Num (-1500).
Proof.
  apply (parseInt_reads_number_text (-1500)). lia.
Defined.

Lemma decimalValue_zeros (k : nat) (ds : str) :
  decimalValue (repeat 48%N k ++ ds) = decimalValue ds.
Proof.
  unfold decimalValue. rewrite List.map_app, fold_left_app. f_equal.
  induction k as [|k IH]; [reflexivity|]. cbn [repeat List.map fold_left]. exact IH.
Qed.

Lemma padStart_digits (ds : str) :
  ds <> [] ->
  Forall (fun c => isDigit c = true) ds ->
  parseInt (padStart 2 48 ds) = Num (decimalValue ds)
  /\ Forall (fun c => isDigit c = true) (padStart 2 48 ds)
  /\ (2 <= length (padStart 2 48 ds))%nat
  /\ ((length ds <= 2)%nat -> length (padStart 2 48 ds) = 2%nat).
Proof.
  intros Hne F. unfold padStart.
  assert (F' : Forall (fun c => isDigit c = true) (repeat 48%N (2 - length ds) ++ ds)).
  { apply Forall_app. split; [|exact F].
    induction (2 - length ds)%nat as [|k IH]; [constructor|].
    cbn [repeat]. constructor; [reflexivity|exact IH]. }
  assert (Hne' : repeat 48%N (2 - length ds) ++ ds <> []).
  { destruct ds; [contradiction|]. destruct (repeat 48%N _); discriminate. }
  destruct (parseInt_digits _ Hne' F') as (P & _).
  rewrite P, decimalValue_zeros.
  split; [reflexivity|]. split; [exact F'|].
  rewrite length_app, repeat_length. split; lia.
Qed.

(** X25.  With [r] seconds left, [0 <= r < 2^53], the two texts [updateTimerDisplay]
    writes are runs of decimal digits, at least two in the minutes text and
    exactly two in the seconds text (two in both below 100 minutes); read as
    numbers they are [floor (r / 60)] and [r mod 60], so that 60 times the
    minutes shown plus the seconds shown is [r]. *)
Theorem updateTimerDisplay_shows_remaining (w : App) (r : Z) :
  remainingSec (timer w) = Num r ->
  0 <= r < 2 ^ 53 ->
  parseInt (fst (updateTimerDisplay w)) = Num (r / 60)
  /\ parseInt (snd (updateTimerDisplay w)) = Num (r mod 60)
  /\ 60 * (r / 60) + r mod 60 = r
  /\ Forall (fun c => isDigit c = true) (fst (updateTimerDisplay w))
  /\ Forall (fun c => isDigit c = true) (snd (updateTimerDisplay w))
  /\ (2 <= length (fst (updateTimerDisplay w)))%nat
  /\ length (snd (updateTimerDisplay w)) = 2%nat
  /\ (r < 6000 -> length (fst (updateTimerDisplay w)) = 2%nat).
Proof.
  intros E [Hr _]. unfold updateTimerDisplay. rewrite E. cbn [Math_floor_div num_rem fst snd].
  rewrite Z.rem_mod_nonneg by lia.
  assert (Hm : 0 <= r / 60) by (apply Z.div_pos; lia).
  pose proof (Z.mod_pos_bound r 60 ltac:(lia)) as Hs.
  destruct (num_to_string_spec (r / 60)) as (dm & Em & Nm & Fm & Vm & Lm).
  destruct (num_to_string_spec (r mod 60)) as (dsec & Es & Ns & Fs & Vs & Ls).
  destruct (Z.ltb_spec (r / 60) 0); [lia|].
  destruct (Z.ltb_spec (r mod 60) 0); [lia|].
  cbn [app] in Em, Es. rewrite Em, Es.
  destruct (padStart_digits dm Nm Fm) as (Pm & Dm & L2m & Leqm).
  destruct (padStart_digits dsec Ns Fs) as (Ps & Ds & L2s & Leqs).
  split; [rewrite Pm, Vm; f_equal; lia|].
  split; [rewrite Ps, Vs; f_equal; lia|].
  split; [pose proof (Z.div_mod r 60 ltac:(lia)); lia|].
  split; [exact Dm|]. split; [exact Ds|]. split; [exact L2m|].
  split; [apply Leqs; apply Ls; lia|].
  intros Hlt. apply Leqm. apply Lm. split; [lia|].
  apply Z.div_lt_upper_bound; lia.
Qed.

Lemma updateTimerDisplay_shows_remaining_witness :
  parseInt (fst (updateTimerDisplay (runFor 65 (blank (lit "2024-01-02"))))) = Num 23
  /\ parseInt (snd (updateTimerDisplay (runFor 65 (blank (lit "2024-01-02"))))) = Num 55.
Proof.
  destruct (updateTimerDisplay_shows_remaining (runFor 65 (blank (lit "2024-01-02"))) 1435)
    as (M & S & _).
  - vm_compute. reflexivity.
  - lia.
  - split; [exact M | exact S].
Defined.

Example updateTimerDisplay_example :
  updateTimerDisplay (runFor 65 (blank (lit "2024-01-02"))) = (lit "23", lit "55")
  /\ updateTimerDisplay (runFor 1495 (blank (lit "2024-01-02"))) = (lit "00", lit "05").
Proof. split; vm_compute; reflexivity. Qed.

(** ** More on the tag totals *)

Lemma Array_slice0_is_take {A : Type} (l : list A) (e : Z) :
  exists n : nat, Array_slice0 l e = take n l.
Proof. unfold Array_slice0. eexists. reflexivity. Qed.

(** For plain sessions and any limit, the enumeration of the result is the
    slice of the sorted list of all tags with their totals. *)
Lemma aggregateTags_entries (limit : Z) (w : App) :
  Forall plainSession (sessions w) ->
  Object.entries (aggregateTags limit w)
  = Array_slice0
      (List.map (entryOf (fun t => tagTotal t (sessions w)))
                (Array_sort (byWeight (fun t => tagTotal t (sessions w)))
                            (firstSeen (allTags (sessions w)))))
      limit.
Proof.
  intros F.
  set (ss := sessions w). set (g := fun t => tagTotal t ss).
  set (K := firstSeen (allTags ss)).
  assert (PK : Forall (fun t => plainTag t = true) K).
  { apply List.Forall_forall. intros t Ht. apply (proj1 (firstSeen_In _ _)) in Ht.
    pose proof (allTags_plain ss F) as PA. rewrite List.Forall_forall in PA.
    apply PA. exact Ht. }
  pose proof (Array_sort_perm g K) as Perm.
  set (order := Array_sort (byWeight g) K) in *.
  assert (PO : Forall (fun t => plainTag t = true) order).
  { apply List.Forall_forall. intros t Ht.
    rewrite List.Forall_forall in PK. apply PK.
    apply (Permutation_in _ Perm). exact Ht. }
  assert (NO : NoDup order) by (rewrite Perm; apply firstSeen_NoDup).
  unfold aggregateTags. fold ss. rewrite (tagMap_plain ss F). fold K. fold g.
  rewrite entries_plain by exact PK.
  rewrite Array_sort_entryOf. fold order.
  destruct (Array_slice0_is_take (List.map (entryOf g) order) limit) as (n & ->).
  rewrite List.firstn_map. rewrite fromEntries_entryOf.
  - apply entries_plain. apply Forall_take. exact PO.
  - eapply sublist_NoDup; [exact NO|apply sublist_take].
Qed.

(** X26.  A negative limit does not give an empty result: for plain
    sessions with [n] distinct tags, [aggregateTags (limit)] with
    [limit < 0] returns the sorted list of all tags without its last
    [- limit] entries (nothing when [- limit >= n]); a limit of [n] or more
    returns all tags. *)
Theorem aggregateTags_negative_limit (limit : Z) (w : App) :
  Forall plainSession (sessions w) ->
  limit < 0 ->
  Object.entries (aggregateTags limit w)
  = take (Z.to_nat (Z.of_nat (length (firstSeen (allTags (sessions w)))) + limit))
         (Object.entries
            (aggregateTags (Z.of_nat (length (firstSeen (allTags (sessions w))))) w))
  /\ length (Object.entries
               (aggregateTags (Z.of_nat (length (firstSeen (allTags (sessions w))))) w))
     = length (firstSeen (allTags (sessions w)))
  /\ length (Object.entries (aggregateTags limit w))
     = Z.to_nat (Z.of_nat (length (firstSeen (allTags (sessions w)))) + limit).
Proof.
  intros F Hl. rewrite !aggregateTags_entries by exact F.
  set (g := fun t => tagTotal t (sessions w)).
  set (K := firstSeen (allTags (sessions w))).
  set (l := List.map (entryOf g) (Array_sort (byWeight g) K)).
  assert (Len : length l = length K).
  { unfold l. rewrite List.length_map. apply Permutation_length, Array_sort_perm. }
  assert (Full : Array_slice0 l (Z.of_nat (length K)) = l).
  { rewrite Array_slice0_take by lia. rewrite Nat2Z.id. apply take_ge. lia. }
  assert (Neg : Array_slice0 l limit = take (Z.to_nat (Z.of_nat (length K) + limit)) l).
  { unfold Array_slice0. destruct (Z.ltb_spec limit 0); [|lia]. rewrite Len.
    f_equal. lia. }
  rewrite Full, Neg. split; [reflexivity|]. split; [exact Len|].
  rewrite length_take, Len. lia.
Qed.

Lemma aggregateTags_negative_limit_witness :
  Object.entries (aggregateTags (-1) taggedAB)
  = take 1 (Object.entries (aggregateTags 2 taggedAB)).
Proof.
  destruct (aggregateTags_negative_limit (-1) taggedAB) as (E & _).
  - repeat constructor. exists 30. reflexivity.
  - lia.
  - exact E.
Defined.

(** ** What a logged session holds *)

Lemma trimStart_head (s : str) (c : N) (r : str) :
  trimStart s = c :: r -> isWhiteSpace c = false.
Proof.
  induction s as [|a s IH]; cbn; [discriminate|].
  destruct (isWhiteSpace a) eqn:Ea; [exact IH|].
  intros [= <- <-]. exact Ea.
Qed.

Lemma trimStart_idem (s : str) : trimStart (trimStart s) = trimStart s.
Proof.
  destruct (trimStart s) as [|c r] eqn:E; [reflexivity|].
  cbn. rewrite (trimStart_head s c r E). reflexivity.
Qed.

Lemma trimStart_In (s : str) (c : N) : In c (trimStart s) -> In c s.
Proof.
  induction s as [|a s IH]; cbn; [auto|].
  destruct (isWhiteSpace a); [intros H; right; apply IH; exact H|auto].
Qed.

Lemma trimStart_snoc (l : str) (c : N) :
  isWhiteSpace c = false -> trimStart (l ++ [c]) = trimStart l ++ [c].
Proof.
  intros W. induction l as [|a l IH]; cbn; [rewrite W; reflexivity|].
  destruct (isWhiteSpace a); [exact IH|reflexivity].
Qed.

Lemma trim_In (s : str) (c : N) : In c (trim s) -> In c s.
Proof.
  unfold trim, trimEnd. intros H. apply List.in_rev in H.
  apply trimStart_In in H. apply List.in_rev in H. apply trimStart_In in H. exact H.
Qed.

Lemma trim_trimmed (s : str) :
  trimStart (trim s) = trim s /\ trimEnd (trim s) = trim s.
Proof.
  unfold trim, trimEnd. split.
  - destruct (trimStart s) as [|c r] eqn:E; [reflexivity|].
    pose proof (trimStart_head s c r E) as W.
    cbn [rev]. rewrite (trimStart_snoc _ c W), List.rev_app_distr. cbn [rev app].
    cbn [trimStart]. rewrite W. reflexivity.
  - rewrite List.rev_involutive, trimStart_idem. reflexivity.
Qed.

Lemma split_no_sep (sep : N) (s : str) :
  Forall (fun piece => ~ In sep piece) (split sep s).
Proof.
  induction s as [|c s IH]; [repeat constructor; intros []|].
  cbn [split]. destruct (N.eqb_spec c sep) as [->|Ne].
  - constructor; [intros []|exact IH].
  - destruct (split sep s) as [|h t]; [repeat constructor; intros [E|[]]; congruence|].
    apply Forall_cons in IH. destruct IH as [Hh Ht].
    constructor; [|exact Ht]. intros [E|H]; [congruence|contradiction].
Qed.

(** X27.  Whatever stands in the form, the session [logSession] builds has
    tags that are never empty, never hold a comma, and have no white space
    at their start or end; its title has no white space at its start or end
    either (it can be empty), and its date is today. *)
Theorem loggedSession_is_tidy (today : str) (w : App) :
  Forall (fun t => t <> [] /\ ~ In 44%N t /\ trimStart t = t /\ trimEnd t = t)
         (Session.tags (loggedSession today w))
  /\ trimStart (Session.title (loggedSession today w)) = Session.title (loggedSession today w)
  /\ trimEnd (Session.title (loggedSession today w)) = Session.title (loggedSession today w)
  /\ Session.dateISO (loggedSession today w) = today.
Proof.
  split; [|split; [|split]].
  - unfold loggedSession. cbn [Session.tags].
    apply List.Forall_forall. intros t Ht.
    apply List.filter_In in Ht. destruct Ht as [Hin Ht].
    apply List.in_map_iff in Hin. destruct Hin as (piece & <- & Hp).
    split; [intros C; rewrite C in Ht; discriminate|].
    split; [|apply trim_trimmed].
    intros C. apply trim_In in C.
    pose proof (split_no_sep 44 (or_else (sessionTags (el w)) [])) as NS.
    rewrite List.Forall_forall in NS. exact (NS piece Hp C).
  - apply trim_trimmed.
  - apply trim_trimmed.
  - reflexivity.
Qed.




Lemma indexed_index (o : jsobj) (n : N) (kv : str * val) :
  In (n, kv) (Object.indexed o) -> Object.arrayIndex (fst kv) = Some n.
Proof.
  unfold Object.indexed. intros H. apply List.in_flat_map in H.
  destruct H as (kv' & _ & H). destruct (Object.arrayIndex (fst kv')) eqn:E; [|destruct H].
  destruct H as [[= <- <-]|[]]. exact E.
Qed.














(** ** What the events never do *)

Lemma onTick_points (w : App) :
  points (onTick w) = points w \/ points (onTick w) = num_add (points w) (Num 5).
Proof.
  unfold onTick. destruct (num_strict_eq _ _); [right|left; reflexivity].
  cbn. rewrite pauseTimer_points. reflexivity.
Qed.

(** X29.  The streak and the last active date change only while the script
    loads: no click, edit or interval callback touches them, and neither
    does any of them remove a session.  After loading, the last active date
    is today. *)
Theorem events_keep_streak (e : event) (today : str) (w : App) :
  streak (handle e w) = streak w
  /\ lastDate (handle e w) = lastDate w
  /\ (exists added, sessions (handle e w) = sessions w ++ added)
  /\ lastDate (boot today w) = today.
Proof.
  split; [|split; [|split]].
  - destruct e; cbn [handle]; try reflexivity.
    + apply sameLedger_startTimer.
    + apply sameLedger_pauseTimer.
    + apply sameLedger_resetTimer.
    + apply logSession_keeps_streak.
    + apply saveMood_keeps_streak.
    + apply toggleHabit_keeps_streak.
    + unfold tick. destruct (existsb _ _); [apply sameLedger_onTick|reflexivity].
  - destruct e; cbn [handle]; try reflexivity.
    + apply sameLedger_startTimer.
    + apply sameLedger_pauseTimer.
    + apply sameLedger_resetTimer.
    + apply logSession_keeps_streak.
    + apply saveMood_keeps_streak.
    + apply toggleHabit_keeps_streak.
    + unfold tick. destruct (existsb _ _); [apply sameLedger_onTick|reflexivity].
  - destruct e; cbn [handle].
    + exists []. rewrite List.app_nil_r. apply sameLedger_startTimer.
    + exists []. rewrite List.app_nil_r. apply sameLedger_pauseTimer.
    + exists []. rewrite List.app_nil_r. apply sameLedger_resetTimer.
    + rewrite logSession_eq. destruct (num_le (elapsedMinutes w) (Num 0)).
      * exists []. rewrite List.app_nil_r. reflexivity.
      * eexists. reflexivity.
    + exists []. rewrite List.app_nil_r. unfold saveMood.
      destruct (negb (truthy (moodSelect (el w)))
                && negb (truthy (trim (reflectionInput (el w))))); reflexivity.
    + exists []. rewrite List.app_nil_r. apply toggleHabit_keeps_streak.
    + exists []. rewrite List.app_nil_r. reflexivity.
    + exists []. rewrite List.app_nil_r. reflexivity.
    + exists []. rewrite List.app_nil_r. unfold tick.
      destruct (existsb _ _); [apply sameLedger_onTick|reflexivity].
  - unfold boot.
    change (lastDate (initHabitsForToday today (resetTimer (maintainStreak today w))))
      with (lastDate (resetTimer (maintainStreak today w))).
    destruct (sameLedger_resetTimer (maintainStreak today w)) as (_ & _ & _ & _ & L & _).
    rewrite L. unfold maintainStreak, sameDay.
    destruct (decide (lastDate w = today)) as [E|E].
    + rewrite bool_decide_eq_true_2 by exact E. exact E.
    + rewrite bool_decide_eq_false_2 by exact E. reflexivity.
Qed.

(** X30.  No event lowers the points: if the points are a number [p]
    before an event and a number [p'] after it, then [p <= p']. *)
Theorem events_never_lower_points (e : event) (w : App) (p p' : Z) :
  points w = Num p ->
  points (handle e w) = Num p' ->
  p <= p'.
Proof.
  intros P P'. destruct e; cbn [handle] in P'.
  - unfold startTimer in P'. destruct (running (timer w)); cbn in P'; rewrite P in P';
      injection P' as <-; lia.
  - rewrite pauseTimer_points, P in P'. injection P' as <-. lia.
  - unfold resetTimer in P'. cbn in P'. rewrite pauseTimer_points, P in P'.
    injection P' as <-. lia.
  - rewrite logSession_eq in P'. destruct (elapsedMinutes w) as [|m] eqn:E.
    + cbn in P'. rewrite P in P'. discriminate.
    + cbn [num_le] in P'. destruct (Z.leb_spec m 0).
      * cbn in P'. rewrite P in P'. injection P' as <-. lia.
      * cbn in P'. rewrite P in P'. cbn in P'. injection P' as <-. lia.
  - unfold saveMood in P'.
    destruct (negb (truthy (moodSelect (el w)))
              && negb (truthy (trim (reflectionInput (el w))))); cbn in P';
      rewrite P in P'; cbn in P'; injection P' as <-; lia.
  - unfold toggleHabit in P'. destruct checked; cbn in P'; rewrite P in P'; cbn in P';
      injection P' as <-; lia.
  - cbn in P'. rewrite P in P'. injection P' as <-. lia.
  - cbn in P'. rewrite P in P'. injection P' as <-. lia.
  - unfold tick in P'. destruct (existsb _ _).
    + destruct (onTick_points w) as [E|E]; rewrite E, P in P'; cbn in P';
        injection P' as <-; lia.
    + rewrite P in P'. injection P' as <-. lia.
Qed.

Lemma events_never_lower_points_witness : 0 <= 2.
Proof.
  apply (events_never_lower_points
           (ChangeHabit (lit "2024-01-02") (lit "water") true)
           (blank (lit "2024-01-02")) 0 2); reflexivity.
Defined.

(** ** Instances *)


Lemma resetTodayHabits_clears_today_witness :
  habitChecked (lit "2024-01-02") (lit "water")
    (resetTodayHabits (lit "2024-01-02")
       (toggleHabit (lit "2024-01-02") (lit "water") true (blank (lit "2024-01-02"))))
  = false
  /\ habitChecked (lit "2024-01-02") (lit "toString")
       (resetTodayHabits (lit "2024-01-02")
          (toggleHabit (lit "2024-01-02") (lit "water") true (blank (lit "2024-01-02"))))
     = true.
Proof.
  destruct (resetTodayHabits_clears_today (lit "2024-01-02")
              (toggleHabit (lit "2024-01-02") (lit "water") true (blank (lit "2024-01-02"))))
    as (_ & R & _).
  - vm_compute. reflexivity.
  - split; rewrite R; vm_compute; reflexivity.
Defined.

Lemma initHabitsForToday_keeps_flags_witness :
  habits (initHabitsForToday (lit "2024-01-03")
            (toggleHabit (lit "2024-01-02") (lit "water") true (blank (lit "2024-01-02"))))
  !! lit "2024-01-02"
  = habits (toggleHabit (lit "2024-01-02") (lit "water") true (blank (lit "2024-01-02")))
    !! lit "2024-01-02".
Proof.
  destruct (initHabitsForToday_keeps_flags (lit "2024-01-03")
              (toggleHabit (lit "2024-01-02") (lit "water") true (blank (lit "2024-01-02"))))
    as (_ & _ & D & _).
  apply D. vm_compute. discriminate.
Defined.

Lemma escapeHTML_no_markup_witness : escapeHTML (lit "Deep work") = lit "Deep work".
Proof.
  destruct (escapeHTML_no_markup (lit "Deep work")) as (_ & Same).
  apply Same. vm_compute.
  repeat (constructor; [repeat split; discriminate|]). constructor.
Defined.
